(** * CodeActor: the 3D visualisation and interaction engine

    A shallow embedding of [src/visualizer/scene-manager.ts],
    [character-mesh.ts], [interaction-manager.ts] and
    [animation-manager.ts], with the properties the design document
    states about them.

    Conventions of the embedding.
    - A JavaScript number is a [num]: an exact real, or one of the three
      special values [+Infinity], [-Infinity], [NaN].  Arithmetic on finite
      values is exact (rounding and overflow of binary64 are not modelled,
      nor is the sign of zero: a division of a non-zero finite value by zero
      takes the sign of the dividend).
    - The force-directed layout is given a second time over binary64
      (modules [F64] and [Layout64]), with the rounding and the overflow of
      the numbers the program computes with: what is stated about the
      finiteness of the positions is stated there.
    - JavaScript objects that are shared and mutated (THREE.Group of a
      character, THREE.Group of a relation) live in a heap, addressed by
      their index; maps and arrays of the managers hold addresses.
    - The ray cast of a pointer event is an input of the handler: the
      character group the ray hits first, if any.
    - [Math.random] is a stream of numbers, consumed in order. *)

From Stdlib Require Import Reals Lra Lia List String Bool Arith ZArith.
From Stdlib Require Floats DecimalString.
Import ListNotations.

Set Implicit Arguments.
Set Warnings "-register-all".

(* ================================================================== *)
(** * JavaScript numbers *)

Module JS.

Inductive num : Type :=
| Fin (r : R)
| PInf
| NInf
| NaN.

Inductive sign : Type := Neg | Zero | Pos.

Definition signR (r : R) : sign :=
  if Rlt_dec r 0 then Neg else if Rlt_dec 0 r then Pos else Zero.

(** The sign of a number that is not [NaN]. *)
Definition sgn (a : num) : sign :=
  match a with
  | Fin r => signR r
  | PInf => Pos
  | NInf => Neg
  | NaN => Zero
  end.

Definition infOf (s : sign) : num :=
  match s with Pos => PInf | Neg => NInf | Zero => NaN end.

Definition smul (s t : sign) : sign :=
  match s, t with
  | Zero, _ | _, Zero => Zero
  | Pos, Pos | Neg, Neg => Pos
  | _, _ => Neg
  end.

Definition isFinite (a : num) : bool :=
  match a with Fin _ => true | _ => false end.

Definition neg (a : num) : num :=
  match a with
  | Fin r => Fin (- r)
  | PInf => NInf
  | NInf => PInf
  | NaN => NaN
  end.

Definition add (a b : num) : num :=
  match a, b with
  | NaN, _ | _, NaN => NaN
  | Fin x, Fin y => Fin (x + y)
  | PInf, NInf | NInf, PInf => NaN
  | PInf, _ | _, PInf => PInf
  | NInf, _ | _, NInf => NInf
  end.

Definition sub (a b : num) : num := add a (neg b).

Definition mul (a b : num) : num :=
  match a, b with
  | NaN, _ | _, NaN => NaN
  | Fin x, Fin y => Fin (x * y)
  | _, _ => infOf (smul (sgn a) (sgn b))
  end.

Definition div (a b : num) : num :=
  match a, b with
  | NaN, _ | _, NaN => NaN
  | Fin x, Fin y =>
      if Req_dec_T y 0 then infOf (signR x) else Fin (x / y)
  | Fin _, _ => Fin 0
  | _, Fin y => infOf (smul (sgn a) (if Rlt_dec y 0 then Neg else Pos))
  | _, _ => NaN
  end.

(** [Math.sqrt], [Math.sin], [Math.cos]. *)
Definition sqrt (a : num) : num :=
  match a with
  | Fin x => if Rlt_dec x 0 then NaN else Fin (R_sqrt.sqrt x)
  | PInf => PInf
  | _ => NaN
  end.

Definition sin (a : num) : num :=
  match a with Fin x => Fin (Rtrigo_def.sin x) | _ => NaN end.

Definition cos (a : num) : num :=
  match a with Fin x => Fin (Rtrigo_def.cos x) | _ => NaN end.

(** [a < b]; every comparison with [NaN] is false. *)
Definition ltb (a b : num) : bool :=
  match a, b with
  | NaN, _ | _, NaN => false
  | Fin x, Fin y => if Rlt_dec x y then true else false
  | NInf, NInf | PInf, _ | _, NInf => false
  | _, _ => true
  end.

Definition gtb (a b : num) : bool := ltb b a.

(** [Math.max(a, b)] and [Math.min(a, b)]: [NaN] if either is [NaN]. *)
Definition max (a b : num) : num :=
  match a, b with
  | NaN, _ | _, NaN => NaN
  | _, _ => if ltb a b then b else a
  end.

Definition min (a b : num) : num :=
  match a, b with
  | NaN, _ | _, NaN => NaN
  | _, _ => if ltb b a then b else a
  end.

(** Truthiness of a number: [0] and [NaN] are falsy. *)
Definition truthy (a : num) : bool :=
  match a with
  | Fin x => if Req_dec_T x 0 then false else true
  | NaN => false
  | _ => true
  end.

(** [a || d] on numbers. *)
Definition orElse (a d : num) : num := if truthy a then a else d.

(** [a || d] where [a] may be [undefined]. *)
Definition optOrElse (a : option num) (d : num) : num :=
  match a with Some v => orElse v d | None => d end.

(** [b || false] where [b] may be [undefined]. *)
Definition optOrFalse (b : option bool) : bool :=
  match b with Some v => v | None => false end.

Definition ofNat (n : nat) : num := Fin (INR n).

Definition PI : num := Fin Rtrigo1.PI.

End JS.

Import JS.

Declare Scope js_scope.
Delimit Scope js_scope with js.
Bind Scope js_scope with num.
Infix "+" := JS.add : js_scope.
Infix "-" := JS.sub : js_scope.
Infix "*" := JS.mul : js_scope.
Infix "/" := JS.div : js_scope.
Notation "- a" := (JS.neg a) : js_scope.
Notation "a '||' d" := (JS.orElse a d) (at level 50, left associativity) : js_scope.

(** A decimal literal of the source. *)
Notation "# r" := (Fin r%R) (at level 9, r at level 0, format "# r").

(* ================================================================== *)
(** * THREE.Vector3 *)

Module Vector3.

Record t : Type := mk { x : num; y : num; z : num }.

Definition add (a b : t) : t := mk (x a + x b) (y a + y b) (z a + z b).
Definition sub (a b : t) : t := mk (x a - x b) (y a - y b) (z a - z b).
Definition subVectors (a b : t) : t := sub a b.
Definition addVectors (a b : t) : t := add a b.
Definition multiplyScalar (a : t) (s : num) : t :=
  mk (x a * s) (y a * s) (z a * s).
Definition divideScalar (a : t) (s : num) : t := multiplyScalar a (#1 / s).
Definition negate (a : t) : t := mk (- x a) (- y a) (- z a).
Definition length (a : t) : num :=
  JS.sqrt (x a * x a + y a * y a + z a * z a).

(** [normalize()] is [divideScalar(this.length() || 1)]. *)
Definition normalize (a : t) : t := divideScalar a (length a || #1).

(** [a.lerp(v, alpha)]: [a.x += (v.x - a.x) * alpha], and so on. *)
Definition lerp (a v : t) (alpha : num) : t :=
  mk (x a + (x v - x a) * alpha)
     (y a + (y v - y a) * alpha)
     (z a + (z v - z a) * alpha).

Definition zero : t := mk #0 #0 #0.
Definition one : t := mk #1 #1 #1.
Definition unitY : t := mk #0 #1 #0.

End Vector3.

(** Evaluation of arithmetic on constants.  [js_sqrt c] replaces a square
    root by its value [c]; [js_case] decides a comparison of constants;
    [js_eval roots] runs a computation to its end; [num_eq] proves that two
    numbers or vectors of constants are equal. *)
Ltac js_sqrt c :=
  idtac;
  match goal with
  | |- context [R_sqrt.sqrt ?X] =>
      replace (R_sqrt.sqrt X) with c by (symmetry; apply sqrt_lem_1; lra)
  end.

Ltac js_case :=
  match goal with
  | |- context [Rlt_dec ?a ?b] => destruct (Rlt_dec a b); try lra
  | |- context [Req_dec_T ?a ?b] => destruct (Req_dec_T a b); try lra
  end.

Ltac js_unfold :=
  cbn;
  unfold Vector3.length, Vector3.normalize, Vector3.divideScalar,
    Vector3.subVectors, Vector3.addVectors, Vector3.multiplyScalar,
    Vector3.lerp, Vector3.sub, Vector3.add, Vector3.negate, Vector3.unitY,
    Vector3.zero, Vector3.one, JS.orElse, JS.truthy, JS.gtb, JS.ltb;
  cbn.

Ltac js_eval roots := js_unfold; repeat first [ roots | js_case; js_unfold ].

Ltac num_eq :=
  repeat first
    [ apply (f_equal (@Some JS.num))
    | apply (f_equal (@Some Vector3.t))
    | apply (f_equal3 Vector3.mk)
    | apply (f_equal JS.Fin) ];
  lra.

(* ================================================================== *)
(** * analyzer/types.ts *)

Inductive PersonalityType : Type :=
| HEROIC | RELIABLE | HELPFUL | QUIRKY | MYSTERIOUS | FRAGILE | BUSY | LONELY.

Inductive SocialRelationType : Type :=
| BEST_FRIEND | UNREQUITED_LOVE | TOXIC_RELATIONSHIP
| SECRET_ADMIRER | FAN_FOLLOWING | CONTRACT.

Inductive Health : Type := excellent | good | fair | poor | critical.

Record Stats : Type := {
  linesOfCode : num;
  complexity : num;
  callCount : num;
  bugRisk : num
}.

Record CharacterPersona : Type := {
  name : string;
  originalFile : string;
  personality : PersonalityType;
  traits : list string;
  role : string;
  color : string;
  icon : string;
  health : Health;
  stats : Stats
}.

(** A relation object.  [addr] is the identity of the object: the source
    compares relations with [===], which two objects with equal fields do
    not satisfy. *)
Record DependencyRelation : Type := {
  addr : nat;
  from : string;
  to : string;
  relationType : SocialRelationType;
  strength : num;
  description : string
}.

Record AnalysisResult : Type := {
  projectName : string;
  characters : list CharacterPersona;
  relations : list DependencyRelation
}.

(* ================================================================== *)
(** * Insertion-ordered maps (the JavaScript [Map]) *)

Section JsMap.
Context {K V : Type} (eqb : K -> K -> bool).

Fixpoint mapGet (k : K) (m : list (K * V)) : option V :=
  match m with
  | [] => None
  | (k', v) :: rest => if eqb k' k then Some v else mapGet k rest
  end.

(** [m.set(k, v)]: an existing key keeps its place, a new key goes last. *)
Fixpoint mapSet (k : K) (v : V) (m : list (K * V)) : list (K * V) :=
  match m with
  | [] => [(k, v)]
  | (k', v') :: rest =>
      if eqb k' k then (k, v) :: rest else (k', v') :: mapSet k v rest
  end.

(** A mutation of the object stored under [k]. *)
Fixpoint mapUpdate (k : K) (f : V -> V) (m : list (K * V)) : list (K * V) :=
  match m with
  | [] => []
  | (k', v) :: rest =>
      if eqb k' k then (k', f v) :: rest else (k', v) :: mapUpdate k f rest
  end.

End JsMap.

(** Arrays and heaps addressed by index. *)
Fixpoint update {A : Type} (i : nat) (f : A -> A) (l : list A) : list A :=
  match l, i with
  | [], _ => []
  | a :: rest, O => f a :: rest
  | a :: rest, S j => a :: update j f rest
  end.

Definition indexed {A : Type} (l : list A) : list (nat * A) :=
  combine (seq 0 (List.length l)) l.

(** [Math.random]: the stream of values and the number of calls made. *)
Record Rng : Type := { stream : nat -> R; calls : nat }.

Definition random (g : Rng) : num * Rng :=
  (Fin (stream g (calls g)), {| stream := stream g; calls := S (calls g) |}).

(* ================================================================== *)
(** * The part of three.js the engine uses *)

Module THREE.

Inductive MaterialClass : Type :=
| MeshToonMaterial | MeshStandardMaterial | MeshBasicMaterial.

Record MaterialUserData : Type := {
  wasTransparent : option bool;
  originalOpacity : option num
}.

(** [userData] is [None] when the property is [undefined]. *)
Record Material : Type := {
  kind : MaterialClass;
  transparent : bool;
  opacity : num;
  userData : option MaterialUserData
}.

(** [new THREE.<kind>({ transparent, opacity })]; three.js gives every
    material an empty [userData] object. *)
Definition newMaterial (c : MaterialClass) (tr : bool) (op : num) : Material :=
  {| kind := c; transparent := tr; opacity := op;
     userData := Some {| wasTransparent := None; originalOpacity := None |} |}.

(** The defaults of three.js: [transparent = false], [opacity = 1]. *)
Definition plain (c : MaterialClass) : Material := newMaterial c false #1.

Definition isToonOrStandard (m : Material) : bool :=
  match kind m with
  | MeshToonMaterial | MeshStandardMaterial => true
  | MeshBasicMaterial => false
  end.

Definition isStandard (m : Material) : bool :=
  match kind m with MeshStandardMaterial => true | _ => false end.

(** Geometries, with the parameters the engine reads later. *)
Inductive Geometry : Type :=
| CapsuleGeometry | SphereGeometry | BoxGeometry | PlaneGeometry
| TorusGeometry | DodecahedronGeometry | IcosahedronGeometry
| OctahedronGeometry | RingGeometry
| ConeGeometry (radius height : num)
| CylinderGeometry (radiusTop radiusBottom height : num).

(** The material of a mesh: one material or an array of materials, each
    given by its address in the material table of the owning group (two
    meshes built with the same material object hold the same address). *)
Inductive MaterialSlot : Type :=
| Single (m : nat)
| Multi (ms : list nat).

(** [up] is the orientation of the mesh: the unit vector [d] of the last
    [quaternion.setFromUnitVectors((0,1,0), d)], the direction its local
    Y axis points to.  Euler rotations are not modelled. *)
Record Mesh : Type := {
  geometry : Geometry;
  material : MaterialSlot;
  position : Vector3.t;
  scale : Vector3.t;
  up : Vector3.t;
  isSelectionRing : bool;
  isParticle : bool
}.

Record Sprite : Type := {
  spritePosition : Vector3.t;
  spriteScale : Vector3.t;
  isRelationIcon : bool;
  isRelationLabel : bool
}.

Inductive Object3D : Type :=
| OMesh (m : Mesh)
| OSprite (s : Sprite)
| OGroup (children : list Object3D).

(** [o.traverse(cb)] visits [o] and then its descendants, children in
    order; these are the meshes it meets. *)
Fixpoint meshesOf (o : Object3D) : list Mesh :=
  match o with
  | OMesh m => [m]
  | OSprite _ => []
  | OGroup cs => flat_map meshesOf cs
  end.

Definition part (g : Geometry) (m : nat) (px py pz : R) : Object3D :=
  OMesh {| geometry := g; material := Single m;
           position := Vector3.mk (Fin px) (Fin py) (Fin pz);
           scale := Vector3.one; up := Vector3.unitY;
           isSelectionRing := false; isParticle := false |}.

Definition scaledPart (g : Geometry) (m : nat) (px py pz sx sy sz : R)
  : Object3D :=
  OMesh {| geometry := g; material := Single m;
           position := Vector3.mk (Fin px) (Fin py) (Fin pz);
           scale := Vector3.mk (Fin sx) (Fin sy) (Fin sz);
           up := Vector3.unitY;
           isSelectionRing := false; isParticle := false |}.

(** The height of the geometry along the local Y axis times the Y scale:
    the length at which a cylinder is drawn. *)
Definition renderedLength (m : Mesh) : num :=
  match geometry m with
  | CylinderGeometry _ _ h => (h * Vector3.y (scale m))%js
  | ConeGeometry _ h => (h * Vector3.y (scale m))%js
  | _ => NaN
  end.

End THREE.

Import THREE.

(* ================================================================== *)
(** * The THREE.Group of a character *)

Record HealthConfig : Type := {
  auraColor : Z;
  emissiveColor : Z;
  emissiveIntensity : num;
  bodyOpacity : num
}.

(** [group.userData] of a character group. *)
Record CharUserData : Type := {
  character : CharacterPersona;
  isSelected : bool;
  isDraggable : bool;
  codeScale : option num;
  isCritical : bool;
  healthConfig : option HealthConfig
}.

(** A character group: its own fields, the materials its meshes were
    built with, and its children. *)
Record CharGroup : Type := {
  groupName : string;
  charData : CharUserData;
  groupPosition : Vector3.t;
  groupScale : Vector3.t;
  materials : list Material;
  children : list Object3D
}.

Definition setCharData (f : CharUserData -> CharUserData) (g : CharGroup)
  : CharGroup :=
  {| groupName := groupName g; charData := f (charData g);
     groupPosition := groupPosition g; groupScale := groupScale g;
     materials := materials g; children := children g |}.

Definition setGroupPosition (p : Vector3.t) (g : CharGroup) : CharGroup :=
  {| groupName := groupName g; charData := charData g;
     groupPosition := p; groupScale := groupScale g;
     materials := materials g; children := children g |}.

Definition setGroupScale (p : Vector3.t) (g : CharGroup) : CharGroup :=
  {| groupName := groupName g; charData := charData g;
     groupPosition := groupPosition g; groupScale := p;
     materials := materials g; children := children g |}.

Definition setMaterials (ms : list Material) (g : CharGroup) : CharGroup :=
  {| groupName := groupName g; charData := charData g;
     groupPosition := groupPosition g; groupScale := groupScale g;
     materials := ms; children := children g |}.

Definition setChildren (cs : list Object3D) (g : CharGroup) : CharGroup :=
  {| groupName := groupName g; charData := charData g;
     groupPosition := groupPosition g; groupScale := groupScale g;
     materials := materials g; children := cs |}.

Definition setIsSelected (b : bool) (u : CharUserData) : CharUserData :=
  {| character := character u; isSelected := b; isDraggable := isDraggable u;
     codeScale := codeScale u; isCritical := isCritical u;
     healthConfig := healthConfig u |}.

Definition setIsDraggable (b : bool) (u : CharUserData) : CharUserData :=
  {| character := character u; isSelected := isSelected u; isDraggable := b;
     codeScale := codeScale u; isCritical := isCritical u;
     healthConfig := healthConfig u |}.

(** [group.add(child)]. *)
Definition addChild (c : Object3D) (g : CharGroup) : CharGroup :=
  setChildren (children g ++ [c]) g.

(* ================================================================== *)
(** * character-mesh.ts *)

Module CharacterMeshGenerator.

(** [calculateScaleFromCodeSize]:
    [baseScale = 1 + Math.min((linesOfCode / 500) * 0.1, 0.5)], then
    [Math.max(0.6, Math.min(1.5, baseScale))]. *)
Definition calculateScaleFromCodeSize (linesOfCode : num) : num :=
  let baseScale := (#1 + JS.min ((linesOfCode / #500) * #0.1) #0.5)%js in
  JS.max #0.6 (JS.min #1.5 baseScale).

(** [applyScaleToGroup]: [scale.set(s, s, s)], [position.y /= s]. *)
Definition applyScaleToGroup (s : num) (g : CharGroup) : CharGroup :=
  let p := groupPosition g in
  setGroupPosition
    (Vector3.mk (Vector3.x p) (Vector3.y p / s) (Vector3.z p))
    (setGroupScale (Vector3.mk s s s) g).

(** The eight [create...Character] methods: the materials each creates,
    in order of creation, and the meshes it adds.  A material used for
    two meshes appears once.  The sizes of the geometries and the Euler
    rotations of the parts are left out; [createHeroicCharacter] also
    rescales its inner group by [userData.codeScale || 1], which is 1
    there. *)
Definition createHeroicCharacter : list Material * list Object3D :=
  ([plain MeshToonMaterial; plain MeshToonMaterial; plain MeshBasicMaterial;
    plain MeshBasicMaterial; plain MeshToonMaterial],
   [part CapsuleGeometry 0 0 1 0;
    part SphereGeometry 1 0 2 0;
    part SphereGeometry 2 (-0.2) 2.1 0.5;
    part SphereGeometry 2 0.2 2.1 0.5;
    part BoxGeometry 3 (-0.15) 2.2 0.45;
    part BoxGeometry 3 0.15 2.2 0.45;
    part PlaneGeometry 4 0 1.2 (-0.3)]).

Definition createReliableCharacter : list Material * list Object3D :=
  ([plain MeshToonMaterial; plain MeshToonMaterial; plain MeshBasicMaterial;
    plain MeshBasicMaterial; plain MeshToonMaterial; plain MeshToonMaterial],
   [part (CylinderGeometry #0.7 #0.8 #1.5) 0 0 0.75 0;
    part SphereGeometry 1 0 1.75 0;
    part TorusGeometry 2 (-0.15) 1.8 0.4;
    part TorusGeometry 2 0.15 1.8 0.4;
    part SphereGeometry 3 (-0.15) 1.8 0.45;
    part SphereGeometry 3 0.15 1.8 0.45;
    part (ConeGeometry #0.3 #0.4) 4 0 1.4 0.2;
    part BoxGeometry 5 0.8 0.8 0]).

Definition createHelpfulCharacter : list Material * list Object3D :=
  ([plain MeshToonMaterial; plain MeshToonMaterial; plain MeshBasicMaterial;
    plain MeshBasicMaterial; plain MeshBasicMaterial;
    newMaterial MeshToonMaterial true #0.7],
   [scaledPart SphereGeometry 0 0 0.8 0 1 1.5 1;
    part SphereGeometry 1 0 1.7 0;
    part SphereGeometry 2 (-0.18) 1.75 0.4;
    part SphereGeometry 2 0.18 1.75 0.4;
    part TorusGeometry 3 0 1.6 0.4;
    part TorusGeometry 4 0 2.5 0;
    scaledPart SphereGeometry 5 (-0.6) 1.3 0 1 0.6 0.3;
    scaledPart SphereGeometry 5 0.6 1.3 0 1 0.6 0.3]).

Definition createQuirkyCharacter : list Material * list Object3D :=
  ([plain MeshToonMaterial; plain MeshToonMaterial; plain MeshBasicMaterial;
    plain MeshToonMaterial; plain MeshToonMaterial],
   [part DodecahedronGeometry 0 0 1 0;
    part IcosahedronGeometry 1 0 2 0;
    part SphereGeometry 2 (-0.2) 2.05 0.42;
    part SphereGeometry 2 0.15 2.1 0.4;
    part (CylinderGeometry #0.35 #0.4 #0.3) 3 0 2.5 0;
    part (CylinderGeometry #0.03 #0.03 #1.5) 4 0.5 0.5 0]).

(** The five stars of the mysterious character: star [i] sits at
    [(cos a * 0.8, 1.5 + Math.random() * 0.5, sin a * 0.8)] with
    [a = (i / 5) * PI * 2], and has a material of its own. *)
Definition star (i : nat) (rnd : num) : Object3D :=
  let angle := ((ofNat i / #5) * JS.PI * #2)%js in
  OMesh {| geometry := OctahedronGeometry; material := Single (3 + i);
           position := Vector3.mk (JS.cos angle * #0.8)%js
                                  (#1.5 + rnd * #0.5)%js
                                  (JS.sin angle * #0.8)%js;
           scale := Vector3.one; up := Vector3.unitY;
           isSelectionRing := false; isParticle := true |}.

Definition stars (g : Rng) : list Object3D * Rng :=
  fold_left (fun acc i =>
               let '(r, g') := random (snd acc) in
               (fst acc ++ [star i r], g'))
            (seq 0 5) ([], g).

Definition createMysteriousCharacter (g : Rng)
  : list Material * list Object3D * Rng :=
  let '(ss, g') := stars g in
  ([newMaterial MeshToonMaterial true #0.8;
    newMaterial MeshToonMaterial true #0.7;
    plain MeshBasicMaterial] ++ repeat (plain MeshBasicMaterial) 5,
   [part (ConeGeometry #0.5 #2) 0 0 1 0;
    part SphereGeometry 1 0 2.1 0;
    part SphereGeometry 2 (-0.15) 2.1 0.4;
    part SphereGeometry 2 0.15 2.1 0.4] ++ ss,
   g').

Definition createFragileCharacter : list Material * list Object3D :=
  ([plain MeshToonMaterial; plain MeshToonMaterial; plain MeshBasicMaterial;
    plain MeshBasicMaterial; plain MeshToonMaterial],
   [part (CylinderGeometry #0.2 #0.3 #1.5) 0 0 0.75 0;
    part SphereGeometry 1 0 1.75 0;
    part SphereGeometry 2 (-0.15) 1.78 0.4;
    part SphereGeometry 2 0.15 1.78 0.4;
    part (ConeGeometry #0.05 #0.15) 3 (-0.2) 1.5 0.45;
    part PlaneGeometry 4 0.3 1.8 0.35]).

Definition createBusyCharacter : list Material * list Object3D :=
  ([plain MeshToonMaterial; plain MeshToonMaterial; plain MeshBasicMaterial;
    plain MeshToonMaterial; plain MeshToonMaterial; plain MeshBasicMaterial],
   [part BoxGeometry 0 0 0.9 0;
    part SphereGeometry 1 0 1.8 0;
    part SphereGeometry 2 (-0.15) 1.82 0.4;
    part SphereGeometry 2 0.15 1.82 0.4;
    part PlaneGeometry 3 0 1.3 0.26;
    part BoxGeometry 4 0.5 0.8 0;
    part SphereGeometry 5 0.3 2.1 0.3]).

Definition createLonelyCharacter : list Material * list Object3D :=
  ([newMaterial MeshToonMaterial true #0.6;
    newMaterial MeshToonMaterial true #0.6;
    plain MeshBasicMaterial; plain MeshBasicMaterial;
    newMaterial MeshBasicMaterial true #0.3],
   [part CapsuleGeometry 0 0 0.65 0;
    part SphereGeometry 1 0 1.4 0;
    part SphereGeometry 2 (-0.12) 1.45 0.32;
    part SphereGeometry 2 0.12 1.45 0.32;
    part BoxGeometry 3 0 1.3 0.32;
    part TorusGeometry 4 0 0.7 0]).

Definition createBody (p : PersonalityType) (g : Rng)
  : list Material * list Object3D * Rng :=
  match p with
  | HEROIC => (createHeroicCharacter, g)
  | RELIABLE => (createReliableCharacter, g)
  | HELPFUL => (createHelpfulCharacter, g)
  | QUIRKY => (createQuirkyCharacter, g)
  | MYSTERIOUS => createMysteriousCharacter g
  | FRAGILE => (createFragileCharacter, g)
  | BUSY => (createBusyCharacter, g)
  | LONELY => (createLonelyCharacter, g)
  end.

(** [healthConfigs[character.health] || healthConfigs.healthy]: the table
    has no key [excellent]. *)
Definition healthConfigOf (h : Health) : HealthConfig :=
  match h with
  | excellent => {| auraColor := 0x2ECC71; emissiveColor := 0x004400;
                    emissiveIntensity := #0.1; bodyOpacity := #1 |}
  | good => {| auraColor := 0x00BCD4; emissiveColor := 0x003300;
               emissiveIntensity := #0.08; bodyOpacity := #0.95 |}
  | fair => {| auraColor := 0xF1C40F; emissiveColor := 0x002200;
               emissiveIntensity := #0.05; bodyOpacity := #0.85 |}
  | poor => {| auraColor := 0xFF6B00; emissiveColor := 0x001100;
               emissiveIntensity := #0.02; bodyOpacity := #0.7 |}
  | critical => {| auraColor := 0xFF0000; emissiveColor := 0x000000;
                   emissiveIntensity := #0; bodyOpacity := #0.5 |}
  end%Z.

(** [createDizzySpiral]: three tori, each with its own material; one call
    to [Math.random] per torus (for a rotation). *)
Definition createDizzySpiral (base : nat) (g : Rng) : Object3D * Rng :=
  let g1 := snd (random g) in
  let g2 := snd (random g1) in
  let g3 := snd (random g2) in
  (OGroup [part TorusGeometry base 0 0 0;
           part TorusGeometry (base + 1) 0 0 0;
           part TorusGeometry (base + 2) 0 0 0], g3).

(** [addHealthAura].  The emissive colour it gives the body materials is
    not part of the model. *)
Definition addHealthAura (grp : CharGroup) (c : CharacterPersona) (g : Rng)
  : CharGroup * Rng :=
  let config := healthConfigOf (health c) in
  let base := List.length (materials grp) in
  let grp1 :=
    addChild (part TorusGeometry base 0 0.5 0)
      (setMaterials (materials grp ++ [newMaterial MeshBasicMaterial true #0.6])
                    grp) in
  let '(grp2, g') :=
    match health c with
    | critical =>
        let '(spiral, g') := createDizzySpiral (base + 2) g in
        (setCharData
           (fun u => {| character := character u; isSelected := isSelected u;
                        isDraggable := isDraggable u; codeScale := codeScale u;
                        isCritical := true; healthConfig := healthConfig u |})
           (addChild spiral
              (addChild (part SphereGeometry (base + 1) 0.35 2.6 0.4)
                 (setMaterials
                    (materials grp1 ++ repeat (plain MeshBasicMaterial) 4)
                    grp1))), g')
    | _ => (grp1, g)
    end in
  (setCharData
     (fun u => {| character := character u; isSelected := isSelected u;
                  isDraggable := isDraggable u; codeScale := codeScale u;
                  isCritical := isCritical u; healthConfig := Some config |})
     grp2, g').

(** [addNameLabel]: a sprite above the character. *)
Definition nameLabel : Object3D :=
  OSprite {| spritePosition := Vector3.mk #0 #3.2 #0;
             spriteScale := Vector3.mk #2 #0.5 #1;
             isRelationIcon := false; isRelationLabel := false |}.

Definition isUnwell (h : Health) : bool :=
  match h with excellent | good => false | _ => true end.

(** [generateCharacter]. *)
Definition generateCharacter (c : CharacterPersona) (g : Rng)
  : CharGroup * Rng :=
  let s := calculateScaleFromCodeSize (linesOfCode (stats c)) in
  let '(mats, parts, g1) := createBody (personality c) g in
  let grp0 :=
    {| groupName := name c;
       charData := {| character := c; isSelected := false;
                      isDraggable := true; codeScale := Some s;
                      isCritical := false; healthConfig := None |};
       groupPosition := Vector3.zero; groupScale := Vector3.one;
       materials := mats; children := [OGroup parts] |} in
  let '(grp1, g2) :=
    if isUnwell (health c) then addHealthAura grp0 c g1 else (grp0, g1) in
  let grp2 := addChild nameLabel grp1 in
  (applyScaleToGroup (JS.optOrElse (codeScale (charData grp2)) #1) grp2, g2).

End CharacterMeshGenerator.

(* ================================================================== *)
(** * The THREE.Group of a relation *)

(** A flow particle of scene-manager.ts; [mesh] is the index of its sphere
    among the children of the group. *)
Record FlowParticle : Type := {
  mesh : nat;
  speed : num;
  offset : num;
  direction : num
}.

(** [group.userData] of a relation group.  [pipe], [arrow], [arrow1] and
    [arrow2] are indices of children; [None] is [undefined]. *)
Record LineUserData : Type := {
  relation : DependencyRelation;
  fromPosition : Vector3.t;
  toPosition : Vector3.t;
  pipe : option nat;
  startPoint : Vector3.t;
  endPoint : Vector3.t;
  lineDirection : Vector3.t;
  flowParticles : list FlowParticle;
  isBidirectional : bool;
  arrow : option nat;
  arrow1 : option nat;
  arrow2 : option nat
}.

Record LineGroup : Type := {
  lineData : LineUserData;
  lineMaterials : list Material;
  lineChildren : list Object3D
}.

(* ================================================================== *)
(** * The force-directed layout of scene-manager.ts *)

Module Layout.

Local Open Scope js_scope.

Record Node : Type := { x : num; z : num; vx : num; vz : num }.

Definition Nodes : Type := list (string * Node).

Definition addVelocity (dvx dvz : num) (n : Node) : Node :=
  {| x := x n; z := z n; vx := vx n + dvx; vz := vz n + dvz |}.

(** The circular start: node [i] of [n] at angle [(i / n) * PI * 2]. *)
Definition initialNodes (characters : list CharacterPersona) (radius : num)
  : Nodes :=
  fold_left
    (fun nodes ic =>
       let angle :=
         ((ofNat (fst ic) / ofNat (List.length characters)) * JS.PI * #2)%js in
       mapSet String.eqb (originalFile (snd ic))
              {| x := JS.cos angle * radius; z := JS.sin angle * radius;
                 vx := #0; vz := #0 |}
              nodes)
    (indexed characters) [].

(** The divisor of the forces: [Math.sqrt(dx * dx + dz * dz) || 1]. *)
Definition distance (dx dz : num) : num := JS.sqrt (dx * dx + dz * dz) || #1.

(** One step of the inner repulsion loop: what [node2] adds to the velocity
    of [node1]. *)
Definition repel (k : num) (id1 : string) (node1 : Node)
  (other : string * Node) : Node :=
  let '(id2, node2) := other in
  if String.eqb id1 id2 then node1
  else
    let dx := x node1 - x node2 in
    let dz := z node1 - z node2 in
    let dist := distance dx dz in
    let force := (k * k) / dist in
    addVelocity ((dx / dist) * force * #0.1) ((dz / dist) * force * #0.1) node1.

(** The repulsion phase.  It writes velocities only and reads positions
    only, so every inner loop sees the positions the phase started with. *)
Definition repulsion (k : num) (nodes : Nodes) : Nodes :=
  map (fun e => (fst e, fold_left (repel k (fst e)) nodes (snd e))) nodes.

(** The attraction of one relation; both endpoints are looked up first, and
    are the same object when the relation is a loop. *)
Definition attract (k : num) (nodes : Nodes) (rel : DependencyRelation)
  : Nodes :=
  match mapGet String.eqb (from rel) nodes, mapGet String.eqb (to rel) nodes with
  | Some node1, Some node2 =>
      let dx := x node2 - x node1 in
      let dz := z node2 - z node1 in
      let dist := distance dx dz in
      let force := (dist * dist) / k in
      let fx := (dx / dist) * force * #0.01 in
      let fz := (dz / dist) * force * #0.01 in
      mapUpdate String.eqb (to rel) (addVelocity (- fx) (- fz))
        (mapUpdate String.eqb (from rel) (addVelocity fx fz) nodes)
  | _, _ => nodes
  end.

Definition attraction (k : num) (relations : list DependencyRelation)
  (nodes : Nodes) : Nodes :=
  fold_left (attract k) relations nodes.

Definition center (n : Node) : Node :=
  let dist := distance (x n) (z n) in
  addVelocity (- ((x n / dist) * #0.5)) (- ((z n / dist) * #0.5)) n.

Definition integrate (n : Node) : Node :=
  let vx' := vx n * #0.7 in
  let vz' := vz n * #0.7 in
  {| x := x n + vx'; z := z n + vz'; vx := vx'; vz := vz' |}.

Definition onValues (f : Node -> Node) (nodes : Nodes) : Nodes :=
  map (fun e => (fst e, f (snd e))) nodes.

(** One iteration of the [for (iter ...)] loop. *)
Definition iteration (k : num) (relations : list DependencyRelation)
  (nodes : Nodes) : Nodes :=
  onValues integrate
    (onValues center (attraction k relations (repulsion k nodes))).

Definition iterations : nat := 100.

Definition simulate (k : num) (relations : list DependencyRelation)
  (nodes : Nodes) : Nodes :=
  Nat.iter iterations (iteration k relations) nodes.

(** [calculateLayout]. *)
Definition calculateLayout (characters : list CharacterPersona)
  (relations : list DependencyRelation) : list (string * (num * num)) :=
  let radius :=
    JS.max #10 (JS.sqrt (ofNat (List.length characters)) * #3) in
  let nodes := initialNodes characters radius in
  let k := radius * #2 in
  fold_left (fun positions e =>
               mapSet String.eqb (fst e) (x (snd e), z (snd e)) positions)
            (simulate k relations nodes) [].

End Layout.

(* ================================================================== *)
(** * Binary64

    The numbers of the program are IEEE 754 binary64 values.  [PrimFloat]
    is that format: [+], [-], [*], [/] and [sqrt] round to nearest, ties to
    even, a result too large becomes an infinity, and [Infinity - Infinity],
    [0 * Infinity], [Infinity / Infinity] and [0 / 0] are [NaN]. *)

Module F64.

Import PrimFloat.
Local Open Scope float_scope.

Definition isFinite (a : float) : bool := negb (is_nan a || is_infinity a).

(** Truthiness of a number: [0], [-0] and [NaN] are falsy. *)
Definition truthy (a : float) : bool := negb ((a =? 0) || is_nan a).

(** [a || d] on numbers. *)
Definition orElse (a d : float) : float := if truthy a then a else d.

(** [Math.max(a, b)]: [NaN] if either is [NaN]. *)
Definition max (a b : float) : float :=
  if is_nan a || is_nan b then nan else if a <? b then b else a.

(** An array length or an index as a number. *)
Definition ofNat (n : nat) : float := of_uint63 (Uint63.of_Z (Z.of_nat n)).

(** [Math.PI]. *)
Definition PI : float := 0x1.921fb54442d18p+1.

(** ** [Math.cos] and [Math.sin]

    ECMAScript leaves the two functions to the implementation, as
    approximations.  They are computed here the way fdlibm does, in short:
    the nearest multiple of [PI/2] is taken off the argument, with [PI/2]
    held in three parts so that the remainder stays accurate next to the
    zeros of the functions, and the power series is summed on the
    remainder, which lies in [[-PI/4, PI/4]].  [cos 0] is [1] and [sin 0]
    is [0], as the language requires. *)

(** The nearest integer, for [|a| < 2^51]. *)
Definition nearest (a : float) : float := (a + 0x1.8p+52) - 0x1.8p+52.

Definition twoOverPi : float := 0x1.45f306dc9c883p-1.
Definition pio2_1 : float := 0x1.921fb544p+0.
Definition pio2_2 : float := 0x1.0b4611a6p-34.
Definition pio2_2t : float := 0x1.3198a2e037073p-69.

(** The remainder of [a] and the quadrant, one of [-2], [-1], [0], [1],
    [2]. *)
Definition reduce (a : float) : float * float :=
  let q := nearest (a * twoOverPi) in
  (a - q * pio2_1 - q * pio2_2 - q * pio2_2t, q - 4 * nearest (q / 4)).

(** [n] terms of a power series in which each term is the one before it
    times [- x2 / ((i + 1) * (i + 2))]; the small terms are added first. *)
Fixpoint series (x2 term i : float) (n : nat) : float :=
  match n with
  | O => 0
  | S m => term + series x2 (- term * x2 / ((i + 1) * (i + 2))) (i + 2) m
  end.

Definition kernelSin (r : float) : float := series (r * r) r 1 12.
Definition kernelCos (r : float) : float := series (r * r) 1 0 12.

Definition sin (a : float) : float :=
  let '(r, q) := reduce a in
  if q =? 0 then kernelSin r
  else if q =? 1 then kernelCos r
  else if q =? -1 then - kernelCos r
  else - kernelSin r.

Definition cos (a : float) : float :=
  let '(r, q) := reduce a in
  if q =? 0 then kernelCos r
  else if q =? 1 then - kernelSin r
  else if q =? -1 then kernelSin r
  else - kernelCos r.

End F64.

(* ================================================================== *)
(** * The force-directed layout in binary64

    [calculateLayout] of scene-manager.ts once more, definition by
    definition as in [Layout], on the numbers of the program. *)

Module Layout64.

Import PrimFloat.
Local Open Scope float_scope.
#[local] Set Warnings "-inexact-float".

Record Node : Type := { x : float; z : float; vx : float; vz : float }.

Definition Nodes : Type := list (string * Node).

Definition addVelocity (dvx dvz : float) (n : Node) : Node :=
  {| x := x n; z := z n; vx := vx n + dvx; vz := vz n + dvz |}.

(** The circular start: node [i] of [n] at angle [(i / n) * PI * 2]. *)
Definition initialNodes (characters : list CharacterPersona) (radius : float)
  : Nodes :=
  fold_left
    (fun nodes ic =>
       let angle :=
         (F64.ofNat (fst ic) / F64.ofNat (List.length characters))
         * F64.PI * 2 in
       mapSet String.eqb (originalFile (snd ic))
              {| x := F64.cos angle * radius; z := F64.sin angle * radius;
                 vx := 0; vz := 0 |}
              nodes)
    (indexed characters) [].

(** The divisor of the forces: [Math.sqrt(dx * dx + dz * dz) || 1]. *)
Definition distance (dx dz : float) : float :=
  F64.orElse (sqrt (dx * dx + dz * dz)) 1.

(** One step of the inner repulsion loop: what [node2] adds to the velocity
    of [node1]. *)
Definition repel (k : float) (id1 : string) (node1 : Node)
  (other : string * Node) : Node :=
  let '(id2, node2) := other in
  if String.eqb id1 id2 then node1
  else
    let dx := x node1 - x node2 in
    let dz := z node1 - z node2 in
    let dist := distance dx dz in
    let force := (k * k) / dist in
    addVelocity ((dx / dist) * force * 0.1) ((dz / dist) * force * 0.1) node1.

Definition repulsion (k : float) (nodes : Nodes) : Nodes :=
  map (fun e => (fst e, fold_left (repel k (fst e)) nodes (snd e))) nodes.

Definition attract (k : float) (nodes : Nodes) (rel : DependencyRelation)
  : Nodes :=
  match mapGet String.eqb (from rel) nodes, mapGet String.eqb (to rel) nodes with
  | Some node1, Some node2 =>
      let dx := x node2 - x node1 in
      let dz := z node2 - z node1 in
      let dist := distance dx dz in
      let force := (dist * dist) / k in
      let fx := (dx / dist) * force * 0.01 in
      let fz := (dz / dist) * force * 0.01 in
      mapUpdate String.eqb (to rel) (addVelocity (- fx) (- fz))
        (mapUpdate String.eqb (from rel) (addVelocity fx fz) nodes)
  | _, _ => nodes
  end.

Definition attraction (k : float) (relations : list DependencyRelation)
  (nodes : Nodes) : Nodes :=
  fold_left (attract k) relations nodes.

Definition center (n : Node) : Node :=
  let dist := distance (x n) (z n) in
  addVelocity (- ((x n / dist) * 0.5)) (- ((z n / dist) * 0.5)) n.

Definition integrate (n : Node) : Node :=
  let vx' := vx n * 0.7 in
  let vz' := vz n * 0.7 in
  {| x := x n + vx'; z := z n + vz'; vx := vx'; vz := vz' |}.

Definition onValues (f : Node -> Node) (nodes : Nodes) : Nodes :=
  map (fun e => (fst e, f (snd e))) nodes.

(** One iteration of the [for (iter ...)] loop. *)
Definition iteration (k : float) (relations : list DependencyRelation)
  (nodes : Nodes) : Nodes :=
  onValues integrate
    (onValues center (attraction k relations (repulsion k nodes))).

Definition iterations : nat := 100.

Definition simulate (k : float) (relations : list DependencyRelation)
  (nodes : Nodes) : Nodes :=
  Nat.iter iterations (iteration k relations) nodes.

(** The radius of the circular start. *)
Definition radiusOf (characters : list CharacterPersona) : float :=
  F64.max 10 (sqrt (F64.ofNat (List.length characters)) * 3).

(** [calculateLayout]. *)
Definition calculateLayout (characters : list CharacterPersona)
  (relations : list DependencyRelation) : list (string * (float * float)) :=
  let radius := radiusOf characters in
  let nodes := initialNodes characters radius in
  let k := radius * 2 in
  fold_left (fun positions e =>
               mapSet String.eqb (fst e) (x (snd e), z (snd e)) positions)
            (simulate k relations nodes) [].

End Layout64.

(* ================================================================== *)
(** * The state of the engine *)

(** The children of the scene that [loadAnalysis] adds: addresses of
    character groups and of relation groups.  Lights, ground and ambient
    particles are not modelled. *)
Inductive SceneRef : Type :=
| CharRef (a : nat)
| LineRef (a : nat).

(** The callback [loadAnalysis] installs for double clicks: it logs
    ['Double-clicked character:'] and the name. *)
Inductive Callback : Type := LogDoubleClick.

(** The methods that are bound and registered as listeners or frame
    callbacks. *)
Inductive Method : Type :=
| m_onWindowResize | m_animate
| m_onMouseMove | m_onClick | m_onDoubleClick | m_onMouseDown | m_onMouseUp
| m_onWheel.

Inductive EventTarget : Type :=
| Window
| Element (id : nat).

(** A registered listener; [callback] is the address of the function
    object that was passed to [addEventListener]. *)
Record Listener : Type := {
  target : EventTarget;
  eventType : string;
  callback : nat
}.

(** The browser side: the function objects made by [bind] (a function is
    its index in [functions]), the registered listeners, the element the
    canvas of the renderer is a child of, and the frame callbacks handed to
    [requestAnimationFrame] that have not run yet. *)
Record Dom : Type := {
  functions : list Method;
  listeners : list Listener;
  canvasParent : option nat;
  pendingFrames : list nat;
  rendererDisposed : bool
}.

Definition set_functions (v : list Method) (r : Dom) : Dom :=
  {| functions := v; listeners := listeners r;
     canvasParent := canvasParent r; pendingFrames := pendingFrames r;
     rendererDisposed := rendererDisposed r |}.

Definition set_listeners (v : list Listener) (r : Dom) : Dom :=
  {| functions := functions r; listeners := v;
     canvasParent := canvasParent r; pendingFrames := pendingFrames r;
     rendererDisposed := rendererDisposed r |}.

Definition set_canvasParent (v : option nat) (r : Dom) : Dom :=
  {| functions := functions r; listeners := listeners r; canvasParent := v;
     pendingFrames := pendingFrames r;
     rendererDisposed := rendererDisposed r |}.

Definition set_pendingFrames (v : list nat) (r : Dom) : Dom :=
  {| functions := functions r; listeners := listeners r;
     canvasParent := canvasParent r; pendingFrames := v;
     rendererDisposed := rendererDisposed r |}.

Definition set_rendererDisposed (v : bool) (r : Dom) : Dom :=
  {| functions := functions r; listeners := listeners r;
     canvasParent := canvasParent r; pendingFrames := pendingFrames r;
     rendererDisposed := v |}.

(** animation-manager.ts: the state of one character's idle motion. *)
Record AnimationState : Type := {
  baseY : num;
  floatOffset : num;
  floatSpeed : num;
  breathOffset : num;
  isSick : bool;
  healthLevel : Health
}.

(** A flow particle of animation-manager.ts and the THREE.Line it runs
    along: the [position] array of the line's geometry and the relation in
    its [userData]. *)
Record AmParticle : Type := { t : num; amSpeed : num; size : num }.

Record AmLine : Type := {
  positions : list num;
  amRelation : option DependencyRelation
}.

(** [am_sharesCharacters]: [this.characters] is the very Map of the scene
    manager ([setCharacters] stores the reference); before the first
    [setCharacters] it is an empty Map of its own. *)
Record AnimationManager : Type := {
  am_sharesCharacters : bool;
  am_characterAnimations : list (string * AnimationState);
  am_flowParticles : list (AmLine * list AmParticle)
}.

Definition set_am_sharesCharacters (v : bool)
  (r : AnimationManager) : AnimationManager :=
  {| am_sharesCharacters := v;
     am_characterAnimations := am_characterAnimations r;
     am_flowParticles := am_flowParticles r |}.

Definition set_am_characterAnimations (v : list (string * AnimationState))
  (r : AnimationManager) : AnimationManager :=
  {| am_sharesCharacters := am_sharesCharacters r;
     am_characterAnimations := v; am_flowParticles := am_flowParticles r |}.

(** interaction-manager.ts.  [im_characters] is the Map from group to
    persona, keyed by the address of the group; [im_characterMeshes] lists
    the groups whose meshes are in the ray-cast set. *)
Record InteractionManager : Type := {
  im_characters : list (nat * CharacterPersona);
  im_relations : list DependencyRelation;
  im_characterMeshes : list nat;
  im_relationLines : list nat;
  hoveredCharacter : option nat;
  selectedCharacter : option nat;
  doubleClickCharacter : option nat;
  isDragging : bool;
  dragOffset : Vector3.t;
  onCharacterDoubleClick : option Callback;
  tooltip : bool;
  infoPanel : bool;
  infoPanelVisible : bool
}.

Definition set_im_characters (v : list (nat * CharacterPersona))
  (r : InteractionManager) : InteractionManager :=
  {| im_characters := v; im_relations := im_relations r;
     im_characterMeshes := im_characterMeshes r;
     im_relationLines := im_relationLines r;
     hoveredCharacter := hoveredCharacter r;
     selectedCharacter := selectedCharacter r;
     doubleClickCharacter := doubleClickCharacter r;
     isDragging := isDragging r; dragOffset := dragOffset r;
     onCharacterDoubleClick := onCharacterDoubleClick r;
     tooltip := tooltip r; infoPanel := infoPanel r;
     infoPanelVisible := infoPanelVisible r |}.

Definition set_im_relations (v : list DependencyRelation)
  (r : InteractionManager) : InteractionManager :=
  {| im_characters := im_characters r; im_relations := v;
     im_characterMeshes := im_characterMeshes r;
     im_relationLines := im_relationLines r;
     hoveredCharacter := hoveredCharacter r;
     selectedCharacter := selectedCharacter r;
     doubleClickCharacter := doubleClickCharacter r;
     isDragging := isDragging r; dragOffset := dragOffset r;
     onCharacterDoubleClick := onCharacterDoubleClick r;
     tooltip := tooltip r; infoPanel := infoPanel r;
     infoPanelVisible := infoPanelVisible r |}.

Definition set_im_characterMeshes (v : list nat)
  (r : InteractionManager) : InteractionManager :=
  {| im_characters := im_characters r; im_relations := im_relations r;
     im_characterMeshes := v; im_relationLines := im_relationLines r;
     hoveredCharacter := hoveredCharacter r;
     selectedCharacter := selectedCharacter r;
     doubleClickCharacter := doubleClickCharacter r;
     isDragging := isDragging r; dragOffset := dragOffset r;
     onCharacterDoubleClick := onCharacterDoubleClick r;
     tooltip := tooltip r; infoPanel := infoPanel r;
     infoPanelVisible := infoPanelVisible r |}.

Definition set_im_relationLines (v : list nat)
  (r : InteractionManager) : InteractionManager :=
  {| im_characters := im_characters r; im_relations := im_relations r;
     im_characterMeshes := im_characterMeshes r; im_relationLines := v;
     hoveredCharacter := hoveredCharacter r;
     selectedCharacter := selectedCharacter r;
     doubleClickCharacter := doubleClickCharacter r;
     isDragging := isDragging r; dragOffset := dragOffset r;
     onCharacterDoubleClick := onCharacterDoubleClick r;
     tooltip := tooltip r; infoPanel := infoPanel r;
     infoPanelVisible := infoPanelVisible r |}.

Definition set_hoveredCharacter (v : option nat)
  (r : InteractionManager) : InteractionManager :=
  {| im_characters := im_characters r; im_relations := im_relations r;
     im_characterMeshes := im_characterMeshes r;
     im_relationLines := im_relationLines r; hoveredCharacter := v;
     selectedCharacter := selectedCharacter r;
     doubleClickCharacter := doubleClickCharacter r;
     isDragging := isDragging r; dragOffset := dragOffset r;
     onCharacterDoubleClick := onCharacterDoubleClick r;
     tooltip := tooltip r; infoPanel := infoPanel r;
     infoPanelVisible := infoPanelVisible r |}.

Definition set_selectedCharacter (v : option nat)
  (r : InteractionManager) : InteractionManager :=
  {| im_characters := im_characters r; im_relations := im_relations r;
     im_characterMeshes := im_characterMeshes r;
     im_relationLines := im_relationLines r;
     hoveredCharacter := hoveredCharacter r; selectedCharacter := v;
     doubleClickCharacter := doubleClickCharacter r;
     isDragging := isDragging r; dragOffset := dragOffset r;
     onCharacterDoubleClick := onCharacterDoubleClick r;
     tooltip := tooltip r; infoPanel := infoPanel r;
     infoPanelVisible := infoPanelVisible r |}.

Definition set_doubleClickCharacter (v : option nat)
  (r : InteractionManager) : InteractionManager :=
  {| im_characters := im_characters r; im_relations := im_relations r;
     im_characterMeshes := im_characterMeshes r;
     im_relationLines := im_relationLines r;
     hoveredCharacter := hoveredCharacter r;
     selectedCharacter := selectedCharacter r; doubleClickCharacter := v;
     isDragging := isDragging r; dragOffset := dragOffset r;
     onCharacterDoubleClick := onCharacterDoubleClick r;
     tooltip := tooltip r; infoPanel := infoPanel r;
     infoPanelVisible := infoPanelVisible r |}.

Definition set_isDragging (v : bool)
  (r : InteractionManager) : InteractionManager :=
  {| im_characters := im_characters r; im_relations := im_relations r;
     im_characterMeshes := im_characterMeshes r;
     im_relationLines := im_relationLines r;
     hoveredCharacter := hoveredCharacter r;
     selectedCharacter := selectedCharacter r;
     doubleClickCharacter := doubleClickCharacter r; isDragging := v;
     dragOffset := dragOffset r;
     onCharacterDoubleClick := onCharacterDoubleClick r;
     tooltip := tooltip r; infoPanel := infoPanel r;
     infoPanelVisible := infoPanelVisible r |}.

Definition set_dragOffset (v : Vector3.t)
  (r : InteractionManager) : InteractionManager :=
  {| im_characters := im_characters r; im_relations := im_relations r;
     im_characterMeshes := im_characterMeshes r;
     im_relationLines := im_relationLines r;
     hoveredCharacter := hoveredCharacter r;
     selectedCharacter := selectedCharacter r;
     doubleClickCharacter := doubleClickCharacter r;
     isDragging := isDragging r; dragOffset := v;
     onCharacterDoubleClick := onCharacterDoubleClick r;
     tooltip := tooltip r; infoPanel := infoPanel r;
     infoPanelVisible := infoPanelVisible r |}.

Definition set_onCharacterDoubleClick (v : option Callback)
  (r : InteractionManager) : InteractionManager :=
  {| im_characters := im_characters r; im_relations := im_relations r;
     im_characterMeshes := im_characterMeshes r;
     im_relationLines := im_relationLines r;
     hoveredCharacter := hoveredCharacter r;
     selectedCharacter := selectedCharacter r;
     doubleClickCharacter := doubleClickCharacter r;
     isDragging := isDragging r; dragOffset := dragOffset r;
     onCharacterDoubleClick := v; tooltip := tooltip r;
     infoPanel := infoPanel r; infoPanelVisible := infoPanelVisible r |}.

Definition set_tooltip (v : bool)
  (r : InteractionManager) : InteractionManager :=
  {| im_characters := im_characters r; im_relations := im_relations r;
     im_characterMeshes := im_characterMeshes r;
     im_relationLines := im_relationLines r;
     hoveredCharacter := hoveredCharacter r;
     selectedCharacter := selectedCharacter r;
     doubleClickCharacter := doubleClickCharacter r;
     isDragging := isDragging r; dragOffset := dragOffset r;
     onCharacterDoubleClick := onCharacterDoubleClick r; tooltip := v;
     infoPanel := infoPanel r; infoPanelVisible := infoPanelVisible r |}.

Definition set_infoPanel (v : bool)
  (r : InteractionManager) : InteractionManager :=
  {| im_characters := im_characters r; im_relations := im_relations r;
     im_characterMeshes := im_characterMeshes r;
     im_relationLines := im_relationLines r;
     hoveredCharacter := hoveredCharacter r;
     selectedCharacter := selectedCharacter r;
     doubleClickCharacter := doubleClickCharacter r;
     isDragging := isDragging r; dragOffset := dragOffset r;
     onCharacterDoubleClick := onCharacterDoubleClick r;
     tooltip := tooltip r; infoPanel := v;
     infoPanelVisible := infoPanelVisible r |}.

Definition set_infoPanelVisible (v : bool)
  (r : InteractionManager) : InteractionManager :=
  {| im_characters := im_characters r; im_relations := im_relations r;
     im_characterMeshes := im_characterMeshes r;
     im_relationLines := im_relationLines r;
     hoveredCharacter := hoveredCharacter r;
     selectedCharacter := selectedCharacter r;
     doubleClickCharacter := doubleClickCharacter r;
     isDragging := isDragging r; dragOffset := dragOffset r;
     onCharacterDoubleClick := onCharacterDoubleClick r;
     tooltip := tooltip r; infoPanel := infoPanel r;
     infoPanelVisible := v |}.

(** The whole state: the heap of groups, the scene manager's own fields,
    the two other managers, the browser, the console and [Math.random]. *)
Record World : Type := {
  charHeap : list CharGroup;
  lineHeap : list LineGroup;
  scene : list SceneRef;
  sm_characters : list (string * nat);
  sm_relations : list nat;
  sm_container : option nat;
  im : InteractionManager;
  am : AnimationManager;
  dom : Dom;
  console : list string;
  rng : Rng
}.

Definition set_charHeap (v : list CharGroup) (r : World) : World :=
  {| charHeap := v; lineHeap := lineHeap r; scene := scene r;
     sm_characters := sm_characters r; sm_relations := sm_relations r;
     sm_container := sm_container r; im := im r; am := am r; dom := dom r;
     console := console r; rng := rng r |}.

Definition set_lineHeap (v : list LineGroup) (r : World) : World :=
  {| charHeap := charHeap r; lineHeap := v; scene := scene r;
     sm_characters := sm_characters r; sm_relations := sm_relations r;
     sm_container := sm_container r; im := im r; am := am r; dom := dom r;
     console := console r; rng := rng r |}.

Definition set_scene (v : list SceneRef) (r : World) : World :=
  {| charHeap := charHeap r; lineHeap := lineHeap r; scene := v;
     sm_characters := sm_characters r; sm_relations := sm_relations r;
     sm_container := sm_container r; im := im r; am := am r; dom := dom r;
     console := console r; rng := rng r |}.

Definition set_sm_characters (v : list (string * nat)) (r : World) : World :=
  {| charHeap := charHeap r; lineHeap := lineHeap r; scene := scene r;
     sm_characters := v; sm_relations := sm_relations r;
     sm_container := sm_container r; im := im r; am := am r; dom := dom r;
     console := console r; rng := rng r |}.

Definition set_sm_relations (v : list nat) (r : World) : World :=
  {| charHeap := charHeap r; lineHeap := lineHeap r; scene := scene r;
     sm_characters := sm_characters r; sm_relations := v;
     sm_container := sm_container r; im := im r; am := am r; dom := dom r;
     console := console r; rng := rng r |}.

Definition set_sm_container (v : option nat) (r : World) : World :=
  {| charHeap := charHeap r; lineHeap := lineHeap r; scene := scene r;
     sm_characters := sm_characters r; sm_relations := sm_relations r;
     sm_container := v; im := im r; am := am r; dom := dom r;
     console := console r; rng := rng r |}.

Definition set_im (v : InteractionManager) (r : World) : World :=
  {| charHeap := charHeap r; lineHeap := lineHeap r; scene := scene r;
     sm_characters := sm_characters r; sm_relations := sm_relations r;
     sm_container := sm_container r; im := v; am := am r; dom := dom r;
     console := console r; rng := rng r |}.

Definition set_am (v : AnimationManager) (r : World) : World :=
  {| charHeap := charHeap r; lineHeap := lineHeap r; scene := scene r;
     sm_characters := sm_characters r; sm_relations := sm_relations r;
     sm_container := sm_container r; im := im r; am := v; dom := dom r;
     console := console r; rng := rng r |}.

Definition set_dom (v : Dom) (r : World) : World :=
  {| charHeap := charHeap r; lineHeap := lineHeap r; scene := scene r;
     sm_characters := sm_characters r; sm_relations := sm_relations r;
     sm_container := sm_container r; im := im r; am := am r; dom := v;
     console := console r; rng := rng r |}.

Definition set_console (v : list string) (r : World) : World :=
  {| charHeap := charHeap r; lineHeap := lineHeap r; scene := scene r;
     sm_characters := sm_characters r; sm_relations := sm_relations r;
     sm_container := sm_container r; im := im r; am := am r; dom := dom r;
     console := v; rng := rng r |}.

Definition set_rng (v : Rng) (r : World) : World :=
  {| charHeap := charHeap r; lineHeap := lineHeap r; scene := scene r;
     sm_characters := sm_characters r; sm_relations := sm_relations r;
     sm_container := sm_container r; im := im r; am := am r; dom := dom r;
     console := console r; rng := v |}.

Definition set_startPoint (v : Vector3.t) (r : LineUserData) : LineUserData :=
  {| relation := relation r; fromPosition := fromPosition r;
     toPosition := toPosition r; pipe := pipe r; startPoint := v;
     endPoint := endPoint r; lineDirection := lineDirection r;
     flowParticles := flowParticles r; isBidirectional := isBidirectional r;
     arrow := arrow r; arrow1 := arrow1 r; arrow2 := arrow2 r |}.

Definition set_endPoint (v : Vector3.t) (r : LineUserData) : LineUserData :=
  {| relation := relation r; fromPosition := fromPosition r;
     toPosition := toPosition r; pipe := pipe r; startPoint := startPoint r;
     endPoint := v; lineDirection := lineDirection r;
     flowParticles := flowParticles r; isBidirectional := isBidirectional r;
     arrow := arrow r; arrow1 := arrow1 r; arrow2 := arrow2 r |}.

Definition set_lineDirection (v : Vector3.t)
  (r : LineUserData) : LineUserData :=
  {| relation := relation r; fromPosition := fromPosition r;
     toPosition := toPosition r; pipe := pipe r; startPoint := startPoint r;
     endPoint := endPoint r; lineDirection := v;
     flowParticles := flowParticles r; isBidirectional := isBidirectional r;
     arrow := arrow r; arrow1 := arrow1 r; arrow2 := arrow2 r |}.

Definition set_flowParticles (v : list FlowParticle)
  (r : LineUserData) : LineUserData :=
  {| relation := relation r; fromPosition := fromPosition r;
     toPosition := toPosition r; pipe := pipe r; startPoint := startPoint r;
     endPoint := endPoint r; lineDirection := lineDirection r;
     flowParticles := v; isBidirectional := isBidirectional r;
     arrow := arrow r; arrow1 := arrow1 r; arrow2 := arrow2 r |}.

Definition set_lineData (v : LineUserData) (r : LineGroup) : LineGroup :=
  {| lineData := v; lineMaterials := lineMaterials r;
     lineChildren := lineChildren r |}.

Definition set_lineMaterials (v : list Material)
  (r : LineGroup) : LineGroup :=
  {| lineData := lineData r; lineMaterials := v;
     lineChildren := lineChildren r |}.

Definition set_lineChildren (v : list Object3D) (r : LineGroup) : LineGroup :=
  {| lineData := lineData r; lineMaterials := lineMaterials r;
     lineChildren := v |}.

(** Mutation of the group at an address. *)
Definition onChar (a : nat) (f : CharGroup -> CharGroup) (w : World) : World :=
  set_charHeap (update a f (charHeap w)) w.

Definition onLine (a : nat) (f : LineGroup -> LineGroup) (w : World) : World :=
  set_lineHeap (update a f (lineHeap w)) w.

Definition onIm (f : InteractionManager -> InteractionManager) (w : World)
  : World :=
  set_im (f (im w)) w.

Definition onDom (f : Dom -> Dom) (w : World) : World :=
  set_dom (f (dom w)) w.

Definition optEqb (o : option nat) (a : nat) : bool :=
  match o with Some b => Nat.eqb b a | None => false end.

(** [f.bind(this)]: a new function object at every call. *)
Definition bind (m : Method) (d : Dom) : nat * Dom :=
  (List.length (functions d), set_functions (functions d ++ [m]) d).

Definition sameListener (l1 l2 : Listener) : bool :=
  match target l1, target l2 with
  | Window, Window => true
  | Element i, Element j => Nat.eqb i j
  | _, _ => false
  end
  && String.eqb (eventType l1) (eventType l2)
  && Nat.eqb (callback l1) (callback l2).

(** [target.addEventListener(type, f)]: a listener that is registered
    already (same target, type and function object) is not added again. *)
Definition addEventListener (tg : EventTarget) (type : string) (f : nat)
  (d : Dom) : Dom :=
  let l := {| target := tg; eventType := type; callback := f |} in
  if existsb (sameListener l) (listeners d) then d
  else set_listeners (listeners d ++ [l]) d.

(** [target.removeEventListener(type, f)]: removes the listener with this
    target, type and function object, if there is one. *)
Definition removeEventListener (tg : EventTarget) (type : string) (f : nat)
  (d : Dom) : Dom :=
  let l := {| target := tg; eventType := type; callback := f |} in
  set_listeners (filter (fun l' => negb (sameListener l l')) (listeners d)) d.

(** [target.addEventListener(type, this.m.bind(this))]. *)
Definition listen (tg : EventTarget) (type : string) (m : Method) (d : Dom)
  : Dom :=
  let '(f, d') := bind m d in addEventListener tg type f d'.

(* ================================================================== *)
(** * interaction-manager.ts *)

Module InteractionManager.

Local Open Scope js_scope.

Definition addCharacter (a : nat) (c : CharacterPersona) (w : World) : World :=
  onIm (fun m =>
          set_im_characterMeshes (im_characterMeshes m ++ [a])
            (set_im_characters (mapSet Nat.eqb a c (im_characters m)) m)) w.

Definition setRelations (rs : list DependencyRelation) (w : World) : World :=
  onIm (set_im_relations rs) w.

Definition setRelationLines (ls : list nat) (w : World) : World :=
  onIm (set_im_relationLines ls) w.

Definition setCharacterDoubleClickCallback (cb : Callback) (w : World)
  : World :=
  onIm (set_onCharacterDoubleClick (Some cb)) w.

Definition setupEvents (container : nat) (w : World) : World :=
  onDom (fun d =>
           listen (Element container) "wheel" m_onWheel
          (listen (Element container) "mouseup" m_onMouseUp
          (listen (Element container) "mousedown" m_onMouseDown
          (listen (Element container) "dblclick" m_onDoubleClick
          (listen (Element container) "click" m_onClick
          (listen (Element container) "mousemove" m_onMouseMove d)))))) w.

(** ** Selection ring *)

Definition isRing (o : Object3D) : bool :=
  match o with OMesh m => isSelectionRing m | _ => false end.

(** [removeSelectionRing]: the traversal detaches from the group every
    mesh flagged [isSelectionRing] that is a child of the group
    ([group.remove] does nothing for a mesh further down).  The ring that
    [addSelectionRing] adds is the last child of its group. *)
Definition removeSelectionRing (g : CharGroup) : CharGroup :=
  setChildren (filter (fun o => negb (isRing o)) (children g)) g.

Definition ring (m : nat) : Object3D :=
  OMesh {| geometry := RingGeometry; material := Single m;
           position := Vector3.mk #0 #0.05 #0;
           scale := Vector3.one; up := Vector3.unitY;
           isSelectionRing := true; isParticle := false |}.

Definition addSelectionRing (g : CharGroup) : CharGroup :=
  let g1 := removeSelectionRing g in
  addChild (ring (List.length (materials g1)))
    (setMaterials (materials g1 ++ [newMaterial MeshBasicMaterial true #0.7])
                  g1).

Definition clearAllSelections (w : World) : World :=
  fold_left
    (fun w' e =>
       onChar (fst e)
              (fun g => setCharData (setIsSelected false)
                                    (removeSelectionRing g)) w')
    (im_characters (im w)) w.

(** ** Network highlight *)

Definition restored (mat : Material) : Material :=
  match userData mat with
  | Some u =>
      {| kind := kind mat;
         transparent := JS.optOrFalse (wasTransparent u);
         opacity := JS.optOrElse (originalOpacity u) #1;
         userData := userData mat |}
  | None =>
      {| kind := kind mat; transparent := false; opacity := #1;
         userData := userData mat |}
  end.

Definition setOpacity (o : num) (mat : Material) : Material :=
  {| kind := kind mat; transparent := transparent mat; opacity := o;
     userData := userData mat |}.

Definition setTransparency (tr : bool) (o : num) (mat : Material) : Material :=
  {| kind := kind mat; transparent := tr; opacity := o;
     userData := userData mat |}.

(** The branch for a single material of a related character: the
    original values are stored if the material has no [userData], then the
    material is made opaque. *)
Definition cacheAndShow (mat : Material) : Material :=
  {| kind := kind mat; transparent := false; opacity := #1;
     userData :=
       match userData mat with
       | Some u => Some u
       | None => Some {| wasTransparent := Some (transparent mat);
                         originalOpacity := Some (opacity mat) |}
       end |}.

Definition whenToonOrStandard (f : Material -> Material) (mat : Material)
  : Material :=
  if isToonOrStandard mat then f mat else mat.

Definition whenStandard (f : Material -> Material) (mat : Material)
  : Material :=
  if isStandard mat then f mat else mat.

(** What a traversal does to the materials of one mesh: [single] if
    [child.material] is one material, [multi] on each if it is an array. *)
Definition visitMesh (single multi : Material -> Material)
  (mats : list Material) (m : Mesh) : list Material :=
  match material m with
  | Single i => update i single mats
  | Multi js => fold_left (fun ms i => update i multi ms) js mats
  end.

Definition traverseMaterials (single multi : Material -> Material)
  (mats : list Material) (objs : list Object3D) : list Material :=
  fold_left (visitMesh single multi) (flat_map meshesOf objs) mats.

Definition onCharMaterials (single multi : Material -> Material)
  (g : CharGroup) : CharGroup :=
  setMaterials (traverseMaterials single multi (materials g) (children g)) g.

(** On a relation group only [child.material instanceof
    MeshStandardMaterial] is tested, which an array is not. *)
Definition onLineMaterials (f : Material -> Material) (g : LineGroup)
  : LineGroup :=
  set_lineMaterials
    (traverseMaterials (whenStandard f) (fun mat => mat)
                       (lineMaterials g) (lineChildren g)) g.

Definition touches (file : string) (r : DependencyRelation) : bool :=
  String.eqb (from r) file || String.eqb (to r) file.

(** The set [relatedFiles]. *)
Definition relatedFiles (file : string) (rs : list DependencyRelation)
  : list string :=
  flat_map (fun r => if touches file r then [from r; to r] else []) rs.

Definition has (s : list string) (f : string) : bool :=
  existsb (String.eqb f) s.

(** Membership in the set [highlightedLines]: the line's relation is
    ([===]) a relation of [this.relations] that touches the file. *)
Definition isHighlighted (file : string) (rs : list DependencyRelation)
  (l : LineGroup) : bool :=
  existsb (fun r => touches file r
                    && Nat.eqb (addr (relation (lineData l))) (addr r)) rs.

Definition lineIsHighlighted (w : World) (file : string) (a : nat) : bool :=
  match nth_error (lineHeap w) a with
  | Some l => isHighlighted file (im_relations (im w)) l
  | None => false
  end.

Definition highlightNetwork (characterFile : string) (w : World) : World :=
  let related := relatedFiles characterFile (im_relations (im w)) in
  (* dim unrelated relationship lines *)
  let w1 :=
    fold_left
      (fun w' a =>
         if lineIsHighlighted w characterFile a then w'
         else onLine a (onLineMaterials (setOpacity #0.1)) w')
      (im_relationLines (im w)) w in
  (* highlight related relationship lines *)
  let w2 :=
    fold_left
      (fun w' a =>
         if lineIsHighlighted w characterFile a
         then onLine a (onLineMaterials (setOpacity #0.9)) w'
         else w')
      (im_relationLines (im w)) w1 in
  (* characters *)
  fold_left
    (fun w' e =>
       if has related (originalFile (snd e))
       then onChar (fst e)
              (onCharMaterials (whenToonOrStandard cacheAndShow)
                               (whenToonOrStandard restored)) w'
       else onChar (fst e)
              (onCharMaterials (whenToonOrStandard (setTransparency true #0.3))
                               (whenToonOrStandard (setTransparency true #0.3)))
              w')
    (im_characters (im w)) w2.

Definition clearHighlightNetwork (w : World) : World :=
  let w0 := onIm (set_doubleClickCharacter None) w in
  let w1 :=
    fold_left
      (fun w' e =>
         onChar (fst e)
                (onCharMaterials (whenToonOrStandard restored)
                                 (whenToonOrStandard restored)) w')
      (im_characters (im w0)) w0 in
  fold_left
    (fun w' a =>
       onLine a
         (fun g =>
            onLineMaterials
              (setOpacity (strength (relation (lineData g)) * #0.8)) g) w')
    (im_relationLines (im w1)) w1.

(** ** Pointer events

    [hit] is the result of the ray cast: [userData.parentGroup] of the
    first mesh the ray meets, [None] when it meets none. *)

Definition log (line : string) (w : World) : World :=
  set_console (console w ++ [line]) w.

Definition fireDoubleClick (a : nat) (w : World) : World :=
  match mapGet Nat.eqb a (im_characters (im w)),
        onCharacterDoubleClick (im w) with
  | Some c, Some LogDoubleClick =>
      log ("Double-clicked character: " ++ name c) w
  | _, _ => w
  end.

Definition deselect (g : CharGroup) : CharGroup :=
  setCharData (fun u => setIsDraggable false (setIsSelected false u))
              (removeSelectionRing g).

Definition select (g : CharGroup) : CharGroup :=
  setCharData (fun u => setIsDraggable true (setIsSelected true u))
              (addSelectionRing g).

Definition onDoubleClick (hit : option nat) (w : World) : World :=
  match hit with
  | Some group =>
      if optEqb (selectedCharacter (im w)) group then
        (* deselect *)
        onChar group deselect (onIm (set_selectedCharacter None) w)
      else
        (* clear the previous selection, select the new character *)
        let w1 :=
          match selectedCharacter (im w) with
          | Some previous => onChar previous deselect w
          | None => w
          end in
        fireDoubleClick group
          (onChar group select (onIm (set_selectedCharacter (Some group)) w1))
  | None => clearHighlightNetwork (clearAllSelections w)
  end.

Definition showInfoPanel (w : World) : World :=
  if infoPanel (im w) then onIm (set_infoPanelVisible true) w else w.

Definition hideInfoPanel (w : World) : World :=
  if infoPanel (im w) then onIm (set_infoPanelVisible false) w else w.

Definition onClick (hit : option nat) (w : World) : World :=
  if isDragging (im w) then w
  else
    match hit with
    | Some group =>
        match mapGet Nat.eqb group (im_characters (im w)) with
        | Some _ =>
            showInfoPanel (onIm (set_selectedCharacter (Some group)) w)
        | None => w
        end
    | None =>
        clearAllSelections
          (onIm (set_selectedCharacter None) (hideInfoPanel w))
    end.

(** [point] is where the pointer ray meets the ground plane. *)
Definition onMouseDown (hit : option nat) (point : Vector3.t) (w : World)
  : World :=
  match hit with
  | Some group =>
      match nth_error (charHeap w) group with
      | Some g =>
          if isDraggable (charData g) then
            onIm (fun m =>
                    set_dragOffset (Vector3.sub point (groupPosition g))
                      (set_selectedCharacter (Some group)
                         (set_isDragging true m))) w
          else w
      | None => w
      end
  | None => w
  end.

Definition onMouseUp (w : World) : World := onIm (set_isDragging false) w.

(** ** Dragging *)

Definition onMesh (f : Mesh -> Mesh) (o : Object3D) : Object3D :=
  match o with OMesh m => OMesh (f m) | _ => o end.

Definition place (p s d : option Vector3.t) (m : Mesh) : Mesh :=
  {| geometry := geometry m; material := material m;
     position := match p with Some v => v | None => position m end;
     scale := match s with Some v => v | None => scale m end;
     up := match d with Some v => v | None => up m end;
     isSelectionRing := isSelectionRing m; isParticle := isParticle m |}.

(** A child given by an index that may be [undefined]. *)
Definition onChildAt (i : option nat) (f : Mesh -> Mesh)
  (cs : list Object3D) : list Object3D :=
  match i with Some j => update j (onMesh f) cs | None => cs end.

Definition isSome {A : Type} (o : option A) : bool :=
  match o with Some _ => true | None => false end.

(** The sprites of the icon and of the label, wherever they are below the
    group. *)
Fixpoint moveSprites (midX midY midZ : num) (o : Object3D) : Object3D :=
  match o with
  | OSprite s =>
      if (isRelationIcon s || isRelationLabel s)%bool then
        OSprite {| spritePosition :=
                     Vector3.mk midX
                       (if isRelationLabel s then midY - #0.4 else midY) midZ;
                   spriteScale := spriteScale s;
                   isRelationIcon := isRelationIcon s;
                   isRelationLabel := isRelationLabel s |}
      else o
  | OGroup cs => OGroup (map (moveSprites midX midY midZ) cs)
  | OMesh _ => o
  end.

(** The body of the loop of [updateRelationLines] for one relation group
    that touches the dragged character. *)
Definition updateRelationLine (characterFile : string)
  (newPosition : Vector3.t) (g : LineGroup) : LineGroup :=
  let u := lineData g in
  let headY := #1 in
  let moved := Vector3.mk (Vector3.x newPosition) headY (Vector3.z newPosition) in
  let startPoint' :=
    if String.eqb (from (relation u)) characterFile then moved
    else startPoint u in
  let endPoint' :=
    if String.eqb (to (relation u)) characterFile then moved
    else endPoint u in
  let newDirection0 := Vector3.subVectors endPoint' startPoint' in
  let length := Vector3.length newDirection0 in
  let newDirection := Vector3.normalize newDirection0 in
  (* pipe *)
  let cs1 :=
    onChildAt (pipe u)
      (place (Some (Vector3.multiplyScalar
                      (Vector3.add startPoint' endPoint') #0.5))
             (Some (Vector3.mk #1 (length / #2) #1))
             (Some newDirection))
      (lineChildren g) in
  (* arrows *)
  let arrowLength := #0.5 in
  let standoff := Vector3.multiplyScalar newDirection (arrowLength * #0.5) in
  let cs2 :=
    if isBidirectional u && isSome (arrow1 u) && isSome (arrow2 u) then
      onChildAt (arrow2 u)
        (place (Some (Vector3.sub endPoint' standoff)) None (Some newDirection))
        (onChildAt (arrow1 u)
           (place (Some (Vector3.add startPoint' standoff)) None
                  (Some (Vector3.negate newDirection)))
           cs1)
    else if isSome (arrow u) then
      onChildAt (arrow u)
        (place (Some (Vector3.sub endPoint' standoff)) None (Some newDirection))
        cs1
    else cs1 in
  (* icons *)
  let midX := (Vector3.x startPoint' + Vector3.x endPoint') / #2 in
  let midY := (Vector3.y startPoint' + Vector3.y endPoint') / #2 + #0.5 in
  let midZ := (Vector3.z startPoint' + Vector3.z endPoint') / #2 in
  {| lineData :=
       set_lineDirection newDirection
         (set_endPoint endPoint' (set_startPoint startPoint' u));
     lineMaterials := lineMaterials g;
     lineChildren := map (moveSprites midX midY midZ) cs2 |}.

(** [updateRelationLines(character, newPosition)]; an empty
    [originalFile] is falsy and ends the method at once. *)
Definition updateRelationLines (dragged : nat) (newPosition : Vector3.t)
  (w : World) : World :=
  match nth_error (charHeap w) dragged with
  | None => w
  | Some c =>
      let characterFile := originalFile (character (charData c)) in
      if String.eqb characterFile "" then w
      else
        fold_left
          (fun w' a =>
             onLine a
               (fun g =>
                  if touches characterFile (relation (lineData g))
                  then updateRelationLine characterFile newPosition g
                  else g) w')
          (im_relationLines (im w)) w
  end.

(** [handleDrag]: the pointer ray meets the ground plane at [point]. *)
Definition handleDrag (point : Vector3.t) (w : World) : World :=
  match selectedCharacter (im w) with
  | None => w
  | Some sel =>
      let newPosition := Vector3.sub point (dragOffset (im w)) in
      updateRelationLines sel newPosition
        (onChar sel (setGroupPosition newPosition) w)
  end.

Definition clear (w : World) : World :=
  onIm (fun m =>
          set_selectedCharacter None
            (set_hoveredCharacter None
               (set_im_relations []
                  (set_im_characterMeshes []
                     (set_im_characters [] m))))) w.

Definition dispose (w : World) : World :=
  onIm (fun m => set_infoPanelVisible false
                   (set_infoPanel false (set_tooltip false m)))
       (clear w).

End InteractionManager.

(* ================================================================== *)
(** * animation-manager.ts *)

Module AnimationManager.

Local Open Scope js_scope.

Definition isSickHealth (h : Health) : bool :=
  match h with excellent | good => false | _ => true end.

(** The characters the manager animates. *)
Definition am_characters (w : World) : list (string * nat) :=
  if am_sharesCharacters (am w) then sm_characters w else [].

(** [setCharacters(characters)], called with the Map of the scene
    manager: three calls to [Math.random] per character. *)
Definition setCharacters (w : World) : World :=
  fold_left
    (fun w' e =>
       match nth_error (charHeap w') (snd e) with
       | None => w'
       | Some char =>
           let '(r1, g1) := random (rng w') in
           let '(r2, g2) := random g1 in
           let '(r3, g3) := random g2 in
           let h := health (character (charData char)) in
           let st :=
             {| baseY := Vector3.y (groupPosition char);
                floatOffset := r1 * JS.PI * #2;
                floatSpeed := #0.5 + r2 * #0.5;
                breathOffset := r3 * JS.PI * #2;
                isSick := isSickHealth h;
                healthLevel := h |} in
           set_rng g3
             (set_am (set_am_characterAnimations
                        (mapSet String.eqb (fst e) st
                                (am_characterAnimations (am w')))
                        (am w')) w')
       end)
    (sm_characters w)
    (set_am (set_am_sharesCharacters true (am w)) w).

Definition relationColor (ty : SocialRelationType) : Z :=
  match ty with
  | BEST_FRIEND => 0xFF6B6B
  | UNREQUITED_LOVE => 0x9B59B6
  | TOXIC_RELATIONSHIP => 0xFF4500
  | SECRET_ADMIRER => 0x3498DB
  | FAN_FOLLOWING => 0x2ECC71
  | CONTRACT => 0x95A5A6
  end%Z.

(** The point of the result for a particle at [t] between [startPoint]
    and [endPoint]. *)
Definition flowParticlePosition (startPoint endPoint : Vector3.t) (t : num)
  : Vector3.t :=
  let midPoint0 :=
    Vector3.multiplyScalar (Vector3.addVectors startPoint endPoint) #0.5 in
  let midPoint :=
    Vector3.mk (Vector3.x midPoint0)
               (Vector3.y midPoint0 + JS.sin (t * JS.PI) * #1.5)
               (Vector3.z midPoint0) in
  let invT := #1 - t in
  Vector3.mk
    (invT * invT * Vector3.x startPoint + #2 * invT * t * Vector3.x midPoint
     + t * t * Vector3.x endPoint)
    (invT * invT * Vector3.y startPoint + #2 * invT * t * Vector3.y midPoint
     + t * t * Vector3.y endPoint)
    (invT * invT * Vector3.z startPoint + #2 * invT * t * Vector3.z midPoint
     + t * t * Vector3.z endPoint).

Record Rendered : Type := {
  renderedPosition : Vector3.t;
  renderedColor : Z;
  renderedSize : num
}.

(** [positions[i]]; reading past the end gives [undefined], which the
    arithmetic turns into [NaN]. *)
Definition at_ (positions : list num) (i : nat) : num := nth i positions NaN.

(** [getFlowParticlePositions], on the particles in [this.flowParticles]. *)
Definition getFlowParticlePositions (w : World) : list Rendered :=
  flat_map
    (fun e =>
       let positions := positions (fst e) in
       if Nat.ltb (List.length positions) 6 then []
       else
         let startPoint :=
           Vector3.mk (at_ positions 0) (at_ positions 1) (at_ positions 2) in
         let endPoint :=
           Vector3.mk (at_ positions 3) (at_ positions 4) (at_ positions 5) in
         map (fun particle =>
                {| renderedPosition :=
                     flowParticlePosition startPoint endPoint (t particle);
                   renderedColor :=
                     match amRelation (fst e) with
                     | Some r => relationColor (relationType r)
                     | None => 0xFFFFFF%Z
                     end;
                   renderedSize := size particle |})
             (snd e))
    (am_flowParticles (am w)).

End AnimationManager.

(* ================================================================== *)
(** * scene-manager.ts *)

Module SceneManager.

Local Open Scope js_scope.

(** ** Relation lines *)

(** [isBidirectionalRelation]: [relations.some(r => r.from === to &&
    r.to === from)]. *)
Definition isBidirectionalRelation (from_ to_ : string)
  (relations : list DependencyRelation) : bool :=
  existsb (fun r => String.eqb (from r) to_ && String.eqb (to r) from_)
          relations.

Definition pipeRadius : num := #0.8.
Definition arrowLength : num := #0.8.
Definition arrowRadius : num := #0.25.

Definition newMesh (g : Geometry) (m : nat) (p d : Vector3.t) : Object3D :=
  OMesh {| geometry := g; material := Single m; position := p;
           scale := Vector3.one; up := d;
           isSelectionRing := false; isParticle := false |}.

(** The spheres of the flow particles and their records; one call to
    [Math.random] per particle. *)
Definition createFlowParticles (bidirectional : bool) (firstChild : nat)
  (g : Rng) : list FlowParticle * Rng :=
  let particleCount := if bidirectional then 4%nat else 3%nat in
  fold_left
    (fun acc i =>
       let '(r, g') := random (snd acc) in
       let particleDirection :=
         if bidirectional then (if Nat.even i then #1 else - #1) else #1 in
       (fst acc ++ [{| mesh := (firstChild + i)%nat;
                       speed := #0.5 + r * #0.3;
                       offset := ofNat i / ofNat particleCount;
                       direction := particleDirection |}], g'))
    (seq 0 particleCount) ([], g).

(** [addRelationTypeIcon]: the icon and, 0.4 below it, the label. *)
Definition relationTypeIcon (startPoint endPoint : Vector3.t)
  : list Object3D :=
  let midX := (Vector3.x startPoint + Vector3.x endPoint) / #2 in
  let midY := (Vector3.y startPoint + Vector3.y endPoint) / #2 + #0.5 in
  let midZ := (Vector3.z startPoint + Vector3.z endPoint) / #2 in
  [OSprite {| spritePosition := Vector3.mk midX midY midZ;
              spriteScale := Vector3.mk #0.8 #0.8 #1;
              isRelationIcon := true; isRelationLabel := false |};
   OSprite {| spritePosition := Vector3.mk midX (midY - #0.4) midZ;
              spriteScale := Vector3.mk #2 #0.5 #1;
              isRelationIcon := false; isRelationLabel := true |}].

(** [createRelationLine].  Material 0 is [pipeMaterial], which the pipe
    and the arrows share; the particles have materials of their own.

    The arrows are recorded in [group.userData] when they are made, but
    the assignment [group.userData = { relation, from, to, pipe, ... }]
    that follows replaces that object by one without [arrow], [arrow1] and
    [arrow2]: in the group returned, they are [undefined]. *)
Definition createRelationLine (from_ to_ : CharGroup)
  (rel : DependencyRelation) (allRelations : list DependencyRelation)
  (g : Rng) : LineGroup * Rng :=
  let startPoint := Vector3.add (groupPosition from_) Vector3.unitY in
  let endPoint := Vector3.add (groupPosition to_) Vector3.unitY in
  let direction0 := Vector3.subVectors endPoint startPoint in
  let length := Vector3.length direction0 in
  let direction := Vector3.normalize direction0 in
  let pipeMaterial :=
    newMaterial MeshStandardMaterial true (strength rel * #0.7) in
  let pipe :=
    newMesh (CylinderGeometry pipeRadius pipeRadius length) 0
            (Vector3.multiplyScalar (Vector3.add startPoint endPoint) #0.5)
            direction in
  let bidirectional :=
    isBidirectionalRelation (from rel) (to rel) allRelations in
  let arrowGeometry := ConeGeometry arrowRadius arrowLength in
  let standoff := Vector3.multiplyScalar direction (arrowLength * #0.5) in
  let arrows :=
    if bidirectional then
      [newMesh arrowGeometry 0 (Vector3.add startPoint standoff)
               (Vector3.negate direction);
       newMesh arrowGeometry 0 (Vector3.sub endPoint standoff) direction]
    else
      [newMesh arrowGeometry 0 (Vector3.sub endPoint standoff) direction] in
  let firstParticle := S (List.length arrows) in
  let '(particles, g') := createFlowParticles bidirectional firstParticle g in
  let spheres :=
    map (fun i => newMesh SphereGeometry (S i) Vector3.zero Vector3.unitY)
        (seq 0 (List.length particles)) in
  ({| lineData :=
        {| relation := rel;
           fromPosition := groupPosition from_;
           toPosition := groupPosition to_;
           pipe := Some 0%nat;
           startPoint := startPoint;
           endPoint := endPoint;
           lineDirection := direction;
           flowParticles := particles;
           isBidirectional := bidirectional;
           arrow := None; arrow1 := None; arrow2 := None |};
      lineMaterials :=
        pipeMaterial
          :: repeat (newMaterial MeshBasicMaterial true #0.9)
                    (List.length particles);
      lineChildren :=
        pipe :: arrows ++ spheres ++ relationTypeIcon startPoint endPoint |},
   g').

Definition addToScene (r : SceneRef) (w : World) : World :=
  set_scene (scene w ++ [r]) w.

(** The character group stored under [id] in [this.characters]. *)
Definition getCharacter (id : string) (w : World) : option CharGroup :=
  match mapGet String.eqb id (sm_characters w) with
  | Some a => nth_error (charHeap w) a
  | None => None
  end.

(** The body of the loop of [createRelationLines] for one relation;
    [allRelations] is the whole array the method was called with. *)
Definition createRelationLineFor (allRelations : list DependencyRelation)
  (w : World) (rel : DependencyRelation) : World :=
  match getCharacter (from rel) w, getCharacter (to rel) w with
  | Some fromChar, Some toChar =>
      let '(line, g') :=
        createRelationLine fromChar toChar rel allRelations (rng w) in
      let a := List.length (lineHeap w) in
      set_sm_relations (sm_relations w ++ [a])
        (addToScene (LineRef a)
           (set_lineHeap (lineHeap w ++ [line]) (set_rng g' w)))
  | _, _ => w
  end.

Definition createRelationLinesOf (allRelations rels : list DependencyRelation)
  (w : World) : World :=
  fold_left (createRelationLineFor allRelations) rels w.

(** [createRelationLines]. *)
Definition createRelationLines (rels : list DependencyRelation) (w : World)
  : World :=
  createRelationLinesOf rels rels w.

Definition sceneRefEqb (r1 r2 : SceneRef) : bool :=
  match r1, r2 with
  | CharRef a, CharRef b => Nat.eqb a b
  | LineRef a, LineRef b => Nat.eqb a b
  | _, _ => false
  end.

Definition removeFromScene (r : SceneRef) (w : World) : World :=
  set_scene (filter (fun r' => negb (sceneRefEqb r r')) (scene w)) w.

(** [clearScene]. *)
Definition clearScene (w : World) : World :=
  let w1 :=
    fold_left (fun w' e => removeFromScene (CharRef (snd e)) w')
              (sm_characters w) w in
  let w2 := set_sm_characters [] w1 in
  let w3 :=
    fold_left (fun w' a => removeFromScene (LineRef a) w')
              (sm_relations w2) w2 in
  InteractionManager.clear (set_sm_relations [] w3).

(** The body of the loop of [loadAnalysis] that creates the characters. *)
Definition loadCharacter (positions : list (string * (num * num)))
  (w : World) (c : CharacterPersona) : World :=
  let '(charMesh, g') := CharacterMeshGenerator.generateCharacter c (rng w) in
  let pos :=
    match mapGet String.eqb (originalFile c) positions with
    | Some p => p
    | None => (#0, #0)
    end in
  let placed :=
    setGroupPosition (Vector3.mk (fst pos) #0 (snd pos)) charMesh in
  let a := List.length (charHeap w) in
  InteractionManager.addCharacter a c
    (set_sm_characters (mapSet String.eqb (originalFile c) a (sm_characters w))
       (addToScene (CharRef a)
          (set_charHeap (charHeap w ++ [placed]) (set_rng g' w)))).

(** [loadAnalysis]. *)
Definition loadAnalysis (result : AnalysisResult) (w : World) : World :=
  let w1 := clearScene w in
  let positions :=
    Layout.calculateLayout (characters result) (relations result) in
  let w2 := fold_left (loadCharacter positions) (characters result) w1 in
  let w3 := createRelationLines (relations result) w2 in
  let w4 := AnimationManager.setCharacters w3 in
  let w5 := InteractionManager.setRelations (relations result) w4 in
  InteractionManager.setCharacterDoubleClickCallback LogDoubleClick w5.

(** ** The render loop *)

(** One flow particle of a relation group in a frame: the offset advances
    and wraps, and the sphere goes to
    [startPoint.clone().lerp(endPoint, offset)]. *)
Definition flowParticlePosition (startPoint endPoint : Vector3.t) (t : num)
  : Vector3.t :=
  Vector3.lerp startPoint endPoint t.

Definition advance (delta : num) (p : FlowParticle) : FlowParticle :=
  let o := offset p + speed p * direction p * delta in
  {| mesh := mesh p; speed := speed p;
     offset := if JS.gtb o #1 then #0 else if JS.ltb o #0 then #1 else o;
     direction := direction p |}.

Definition updateFlowParticles (delta : num) (g : LineGroup) : LineGroup :=
  let u := lineData g in
  let particles := map (advance delta) (flowParticles u) in
  {| lineData := set_flowParticles particles u;
     lineMaterials := lineMaterials g;
     lineChildren :=
       fold_left
         (fun cs p =>
            update (mesh p)
              (InteractionManager.onMesh
                 (InteractionManager.place
                    (Some (flowParticlePosition (startPoint u) (endPoint u)
                                                (offset p)))
                    None None))
              cs)
         particles (lineChildren g) |}.

(** [animate]: asks for the next frame with a newly bound function, then
    moves the flow particles of every relation group in the scene by
    [delta].  The motion of the characters, of the camera and of the
    ambient particles is not modelled. *)
Definition animate (delta : num) (w : World) : World :=
  let '(f, d) := bind m_animate (dom w) in
  let w1 := set_dom (set_pendingFrames (pendingFrames d ++ [f]) d) w in
  fold_left
    (fun w' r =>
       match r with
       | LineRef a => onLine a (updateFlowParticles delta) w'
       | CharRef _ => w'
       end)
    (scene w1) w1.

(** ** Mounting and disposal *)

(** [mount(container)]; [delta] is the time since the clock was last
    read, for the first frame. *)
Definition mount (container : nat) (delta : num) (w : World) : World :=
  let w1 := set_sm_container (Some container) w in
  let w2 := onDom (set_canvasParent (Some container)) w1 in
  let w3 := onDom (listen Window "resize" m_onWindowResize) w2 in
  let w4 := InteractionManager.setupEvents container w3 in
  animate delta w4.

(** [dispose()]. *)
Definition dispose (w : World) : World :=
  let '(f, d) := bind m_onWindowResize (dom w) in
  let w1 := set_dom (removeEventListener Window "resize" f d) w in
  let w2 := clearScene w1 in
  let w3 := onDom (set_rendererDisposed true) w2 in
  InteractionManager.dispose w3.

End SceneManager.

(** [new SceneManager()]: empty maps and arrays; the tooltip and the info
    panel exist; the constructor has drawn the 500 ambient particles, four
    calls to [Math.random] each. *)
Definition newSceneManager (randoms : nat -> R) : World :=
  {| charHeap := []; lineHeap := []; scene := [];
     sm_characters := []; sm_relations := []; sm_container := None;
     im := {| im_characters := []; im_relations := [];
              im_characterMeshes := []; im_relationLines := [];
              hoveredCharacter := None; selectedCharacter := None;
              doubleClickCharacter := None;
              isDragging := false; dragOffset := Vector3.zero;
              onCharacterDoubleClick := None;
              tooltip := true; infoPanel := true;
              infoPanelVisible := false |};
     am := {| am_sharesCharacters := false; am_characterAnimations := [];
              am_flowParticles := [] |};
     dom := {| functions := []; listeners := []; canvasParent := None;
               pendingFrames := []; rendererDisposed := false |};
     console := [];
     rng := {| stream := randoms; calls := 2000 |} |}.

(* ================================================================== *)
(** * Observations used in the statements *)

(** The selection rings below a character group. *)
Definition ringsOf (g : CharGroup) : list Mesh :=
  filter isSelectionRing (flat_map meshesOf (children g)).

(** No selection ring is left anywhere in the heap of character groups,
    hence anywhere in the scene. *)
Definition noSelectionRing (w : World) : Prop :=
  forall a g, nth_error (charHeap w) a = Some g -> ringsOf g = [].

(** Every selection ring of the group is a child of the group itself. *)
Definition ringsAreChildren (g : CharGroup) : Prop :=
  forall cs, In (OGroup cs) (children g) ->
             filter isSelectionRing (flat_map meshesOf cs) = [].

(** Both endpoints of the relation are in [this.characters]. *)
Definition endpointsPresent (w : World) (rel : DependencyRelation) : bool :=
  InteractionManager.isSome (SceneManager.getCharacter (from rel) w)
  && InteractionManager.isSome (SceneManager.getCharacter (to rel) w).

(** The relations of the array that [createRelationLines] skips. *)
Definition skipped (rels : list DependencyRelation) (w : World)
  : list DependencyRelation :=
  filter (fun r => negb (endpointsPresent w r)) rels.

(** Where the scene manager has put each character of its Map. *)
Definition placement (w : World) : list (string * option Vector3.t) :=
  map (fun e => (fst e, option_map groupPosition
                                   (nth_error (charHeap w) (snd e))))
      (sm_characters w).

(** The child at index [i], if it is a mesh. *)
Definition meshAt (cs : list Object3D) (i : nat) : option Mesh :=
  match nth_error cs i with Some (OMesh m) => Some m | _ => None end.

(* ================================================================== *)
(** * Stages and observations for the properties *)

(** The relation [a.ts -> b.ts], of strength 1. *)
Definition relAB : DependencyRelation :=
  {| addr := 0; from := "a.ts"; to := "b.ts"; relationType := FAN_FOLLOWING;
     strength := Fin 1; description := "" |}.

(** A healthy heroic character of 1000 lines. *)
Definition hero : CharacterPersona :=
  {| name := "Main"; originalFile := "main.ts"; personality := HEROIC;
     traits := []; role := "lead"; color := "#ff0000"; icon := "star";
     health := good;
     stats := {| linesOfCode := Fin 1000; complexity := Fin 1;
                 callCount := Fin 1; bugRisk := Fin 1 |} |}.

(** Where [loadAnalysis] puts a character: the layout position of its
    file, on the ground. *)
Definition layoutTarget (result : AnalysisResult) (c : CharacterPersona)
  : Vector3.t :=
  let pos :=
    match mapGet String.eqb (originalFile c)
                 (Layout.calculateLayout (characters result) (relations result))
    with
    | Some p => p
    | None => (Fin 0, Fin 0)
    end in
  Vector3.mk (fst pos) (Fin 0) (snd pos).

Definition layoutPlacement (result : AnalysisResult)
  : list (string * option Vector3.t) :=
  fold_left
    (fun acc c =>
       mapSet String.eqb (originalFile c) (Some (layoutTarget result c)) acc)
    (characters result) [].

(** Every address in the Map of the scene manager is allocated. *)
Definition charactersAllocated (w : World) : Prop :=
  Forall (fun e => snd e < List.length (charHeap w)) (sm_characters w).

Definition persona (file : string) (p : PersonalityType) : CharacterPersona :=
  {| name := file; originalFile := file; personality := p;
     traits := []; role := "module"; color := "#4ECDC4"; icon := "cube";
     health := excellent;
     stats := {| linesOfCode := Fin 100; complexity := Fin 1;
                 callCount := Fin 1; bugRisk := Fin 1 |} |}.

(** A stage of three characters: [a.ts] (heroic) at the origin, [b.ts]
    (helpful) at [(4, 0)], [c.ts] (lonely) at [(0, 4)], and one relation
    from [a.ts] to [b.ts] of strength 1.  It is built as [loadAnalysis]
    builds a scene, with the positions given instead of computed, and the
    relation groups of the scene manager are handed to the interaction
    manager with [setRelationLines] ("for updates after dragging"), which
    [loadAnalysis] itself does not do. *)
Definition stage : World :=
  let w0 := newSceneManager (fun _ => 0%R) in
  let w1 :=
    fold_left
      (SceneManager.loadCharacter
         [("a.ts"%string, (Fin 0, Fin 0)); ("b.ts"%string, (Fin 4, Fin 0));
          ("c.ts"%string, (Fin 0, Fin 4))])
      [persona "a.ts" HEROIC; persona "b.ts" HELPFUL; persona "c.ts" LONELY]
      w0 in
  let w2 := SceneManager.createRelationLines [relAB] w1 in
  let w3 := InteractionManager.setRelations [relAB] w2 in
  InteractionManager.setRelationLines (sm_relations w3) w3.

(** The opacity and transparency of material [m] of a relation group and
    of a character group. *)
Definition lineLook (w : World) (line m : nat) : option (bool * num) :=
  match nth_error (lineHeap w) line with
  | Some g => option_map (fun mat => (transparent mat, opacity mat))
                         (nth_error (lineMaterials g) m)
  | None => None
  end.

Definition charLook (w : World) (char m : nat) : option (bool * num) :=
  match nth_error (charHeap w) char with
  | Some g => option_map (fun mat => (transparent mat, opacity mat))
                         (nth_error (materials g) m)
  | None => None
  end.

(** The stage with the network of [a.ts] highlighted and cleared again. *)
Definition cleared : World :=
  InteractionManager.clearHighlightNetwork
    (InteractionManager.highlightNetwork "a.ts" stage).

(** The distance between the two endpoints a relation group records. *)
Definition span (g : LineGroup) : num :=
  Vector3.length
    (Vector3.subVectors (endPoint (lineData g)) (startPoint (lineData g))).

(** The pointer goes down on [b.ts] where it stands and drags it to
    [(8, 0, 0)]. *)
Definition dragged : World :=
  InteractionManager.handleDrag (Vector3.mk (Fin 8) (Fin 0) (Fin 0))
    (InteractionManager.onMouseDown (Some 1) (Vector3.mk (Fin 4) (Fin 0) (Fin 0))
       stage).

Definition lineOf (w : World) (a : nat) : option LineGroup :=
  nth_error (lineHeap w) a.

(** Observations on relation group [a] of a world. *)
Definition lineSpan (w : World) (a : nat) : option num :=
  option_map span (lineOf w a).

Definition lineStart (w : World) (a : nat) : option Vector3.t :=
  option_map (fun g => startPoint (lineData g)) (lineOf w a).

Definition lineEnd (w : World) (a : nat) : option Vector3.t :=
  option_map (fun g => endPoint (lineData g)) (lineOf w a).

Definition childOf (w : World) (a i : nat) : option Mesh :=
  match lineOf w a with
  | Some g => meshAt (lineChildren g) i
  | None => None
  end.

(** The stage one frame of 0.1 s later. *)
Definition afterFrame : World := SceneManager.animate (Fin 0.1) stage.

Definition particleOf (w : World) (a i : nat) : option FlowParticle :=
  match lineOf w a with
  | Some g => nth_error (flowParticles (lineData g)) i
  | None => None
  end.

(** A graph of one character. *)
Definition solo : AnalysisResult :=
  {| projectName := "solo"; characters := [persona "a.ts" HEROIC];
     relations := [] |}.

Definition floatSpeeds (w : World) : list num :=
  map (fun e => floatSpeed (snd e)) (am_characterAnimations (am w)).

(** The file of module [i] of a project. *)
Definition moduleFile (i : nat) : string :=
  "src/m" ++ DecimalString.NilEmpty.string_of_uint (Nat.to_uint i) ++ ".ts".

(** A project of [n] modules in which the first one imports each of the
    others: [n] characters and [n - 1] relations that leave the first. *)
Definition star (n : nat) : AnalysisResult :=
  {| projectName := "star";
     characters := map (fun i => persona (moduleFile i) HELPFUL) (seq 0 n);
     relations :=
       map (fun i => {| addr := i; from := moduleFile 0; to := moduleFile i;
                        relationType := UNREQUITED_LOVE; strength := Fin 0.5;
                        description := "" |})
           (seq 1 (n - 1)) |}.

Section Binary64.

Import PrimFloat.
Local Open Scope float_scope.






End Binary64.




(** The events of a double click with the mouse on character [g], in the
    order in which a browser dispatches them: [mousedown], [mouseup],
    [click], a second time the three, then [dblclick].  The pointer does
    not move, so every ray cast hits [g]. *)
Definition mouseClick (g : nat) (point : Vector3.t) (w : World) : World :=
  InteractionManager.onClick (Some g)
    (InteractionManager.onMouseUp
       (InteractionManager.onMouseDown (Some g) point w)).

Definition mouseDoubleClick (g : nat) (point : Vector3.t) (w : World)
  : World :=
  InteractionManager.onDoubleClick (Some g)
    (mouseClick g point (mouseClick g point w)).

(* ================================================================== *)
(** * Further observations *)

(** Case analysis on every comparison of reals in the goal. *)
Ltac real_cases :=
  repeat (match goal with
          | |- context [Rlt_dec ?a ?b] => destruct (Rlt_dec a b)
          | |- context [Rle_dec ?a ?b] => destruct (Rle_dec a b)
          | |- context [Req_dec_T ?a ?b] => destruct (Req_dec_T a b)
          | H : context [Rlt_dec ?a ?b] |- _ => destruct (Rlt_dec a b)
          | H : context [Rle_dec ?a ?b] |- _ => destruct (Rle_dec a b)
          end; cbn; try lra).

(** A flow particle whose speed and direction are finite and whose
    offset is a progress between 0 and 1. *)
Definition unitParticle (p : FlowParticle) : Prop :=
  JS.isFinite (speed p) = true /\ JS.isFinite (direction p) = true
  /\ exists o : R, offset p = Fin o /\ (0 <= o <= 1)%R.

(** The frames of a run: [animate] is called with the time since the
    previous frame. *)
Definition frames (deltas : list R) (g : LineGroup) : LineGroup :=
  fold_left (fun g' d => SceneManager.updateFlowParticles (Fin d) g') deltas g.

(** [file] is the [originalFile] of one of the characters. *)
Definition isCharacter (characters : list CharacterPersona) (file : string)
  : bool :=
  existsb (fun c => String.eqb (originalFile c) file) characters.

(** Both endpoints of the relation are characters of the graph. *)
Definition connects (characters : list CharacterPersona)
  (r : DependencyRelation) : bool :=
  isCharacter characters (from r) && isCharacter characters (to r).

(** The stage after a click of the mouse on [b.ts], where it stands. *)
Definition bClicked : World :=
  mouseClick 1 (Vector3.mk (Fin 4) (Fin 0) (Fin 0)) stage.

(** What [clearAllSelections] does to one group. *)
Definition unringed (g : CharGroup) : CharGroup :=
  setCharData (setIsSelected false) (InteractionManager.removeSelectionRing g).

(** The group is a key of the Map [characters] of the interaction
    manager. *)
Definition registered (w : World) (a : nat) : bool :=
  existsb (fun e => Nat.eqb (fst e) a) (im_characters (im w)).

(** The selection rings among the children of a group. *)
Definition ringChildren (g : CharGroup) : list Object3D :=
  filter InteractionManager.isRing (children g).

(* ================================================================== *)
(** * interaction-manager.ts: hovering *)

Module Hover.

(** [highlightCharacter(group, highlight)] sets [userData.isSelected] to
    [highlight] and gives every toon or standard material of the group
    the emissive colour of the hover highlight, or takes it away.  The
    emissive colour is not part of the state here: the flag stands for
    it. *)
Definition highlightCharacter (group : nat) (highlight : bool) (w : World)
  : World :=
  onChar group (setCharData (setIsSelected highlight)) w.

(** [onCharacterHoverEnter(group)]; the text of the tooltip is left out,
    and no hover callback is ever installed. *)
Definition onCharacterHoverEnter (group : nat) (w : World) : World :=
  highlightCharacter group true (onIm (set_hoveredCharacter (Some group)) w).

(** [onCharacterHoverLeave()]. *)
Definition onCharacterHoverLeave (w : World) : World :=
  let w1 :=
    match hoveredCharacter (im w) with
    | Some hovered => highlightCharacter hovered false w
    | None => w
    end in
  onIm (set_hoveredCharacter None) w1.

(** [onMouseMove(event)]: [hit] is the result of the ray cast, [point]
    the point where the pointer ray meets the ground plane. *)
Definition onMouseMove (hit : option nat) (point : Vector3.t) (w : World)
  : World :=
  if isDragging (im w) && InteractionManager.isSome (selectedCharacter (im w))
  then InteractionManager.handleDrag point w
  else
    match hit with
    | Some group =>
        if optEqb (hoveredCharacter (im w)) group then w
        else onCharacterHoverEnter group w
    | None =>
        if InteractionManager.isSome (hoveredCharacter (im w))
        then onCharacterHoverLeave w
        else w
    end.

End Hover.

(** The flag [userData.isSelected] of the group at an address. *)
Definition flagged (w : World) (a : nat) : option bool :=
  option_map (fun g => isSelected (charData g)) (nth_error (charHeap w) a).

(** Every child of the scene that [loadAnalysis] has added is still known
    to the scene manager: a character group is a value of the Map
    [characters], a relation group an element of the array [relations]. *)
Definition sceneOwned (w : World) : Prop :=
  Forall (fun r =>
            match r with
            | CharRef a => In a (map snd (sm_characters w))
            | LineRef a => In a (sm_relations w)
            end)
         (scene w).

(* ================================================================== *)
(** * Properties *)

Unset Implicit Arguments.

(** ** The size of a character *)

(** C10.  For every non-negative number of lines of code, the scale
    [clamp(1 + min(linesOfCode / 500 * 0.1, 0.5), 0.6, 1.5)] lies in
    [[1, 1.5]]; the lower bound 0.6 of the clamp is never the result. *)
Lemma scale_range (l : R) :
  (0 <= l)%R ->
  exists s : R,
    CharacterMeshGenerator.calculateScaleFromCodeSize (Fin l) = Fin s
    /\ (1 <= s <= 1.5)%R /\ s <> 0.6%R.
Proof.
  intros Hl.
  unfold CharacterMeshGenerator.calculateScaleFromCodeSize.
  cbn.
  destruct (Req_dec_T 500 0) as [E|_]; [lra|].
  cbn.
  destruct (Rlt_dec 0.5 (l / 500 * 0.1)) as [H1|H1]; cbn.
  - destruct (Rlt_dec (1 + 0.5) 1.5); [lra|]. cbn.
    destruct (Rlt_dec 0.6 1.5); [|lra].
    exists 1.5%R. repeat split; lra.
  - destruct (Rlt_dec (1 + l / 500 * 0.1) 1.5) as [H2|H2]; cbn.
    + destruct (Rlt_dec 0.6 (1 + l / 500 * 0.1)) as [H3|H3].
      * eexists; repeat split; try lra.
      * exfalso. apply H3. lra.
    + destruct (Rlt_dec 0.6 1.5); [|lra].
      exists 1.5%R. repeat split; lra.
Qed.

Lemma generateCharacter_codeScale c g :
  codeScale (charData (fst (CharacterMeshGenerator.generateCharacter c g)))
  = Some (CharacterMeshGenerator.calculateScaleFromCodeSize
            (linesOfCode (stats c))).
Proof.
  unfold CharacterMeshGenerator.generateCharacter.
  destruct (CharacterMeshGenerator.createBody (personality c) g)
    as [[mats parts] g1].
  destruct (CharacterMeshGenerator.isUnwell (health c)); [|reflexivity].
  unfold CharacterMeshGenerator.addHealthAura.
  destruct (health c); reflexivity.
Qed.

(** * Generic facts *)

Section Folds.
Context {A B : Type}.

Lemma fold_left_invariant (P : B -> Prop) (f : B -> A -> B) (l : list A) :
  (forall b a, P b -> P (f b a)) -> forall b, P b -> P (fold_left f l b).
Proof.
  intros Hstep. induction l as [|a l IH]; cbn; intros b Hb; auto.
Qed.

End Folds.

(** * Relation lines *)

Lemma createRelationLine_isBidirectional from_ to_ rel all g :
  isBidirectional (lineData (fst (SceneManager.createRelationLine from_ to_ rel all g)))
  = SceneManager.isBidirectionalRelation (from rel) (to rel) all.
Proof.
  unfold SceneManager.createRelationLine.
  destruct (SceneManager.createFlowParticles _ _ _) as [ps g'].
  reflexivity.
Qed.

Lemma isBidirectionalRelation_spec from_ to_ rels :
  SceneManager.isBidirectionalRelation from_ to_ rels = true
  <-> exists r, In r rels /\ from r = to_ /\ to r = from_.
Proof.
  unfold SceneManager.isBidirectionalRelation.
  rewrite existsb_exists. split.
  - intros (r & Hin & H). apply andb_true_iff in H as [H1 H2].
    apply String.eqb_eq in H1, H2. eauto.
  - intros (r & Hin & H1 & H2). exists r. split; [assumption|].
    apply andb_true_iff. split; apply String.eqb_eq; assumption.
Qed.

(** C8.  The relation group made for a relation is flagged bidirectional
    if and only if the array of relations holds a relation with the
    endpoints swapped; a relation between two different files that is
    alone in the array is not flagged. *)
Theorem bidirectional_iff_reverse :
  (forall from_ to_ rel all g,
      isBidirectional
        (lineData (fst (SceneManager.createRelationLine from_ to_ rel all g)))
      = true
      <-> exists r, In r all /\ from r = to rel /\ to r = from rel)
  /\
  (forall from_ to_ rel g,
      from rel <> to rel ->
      isBidirectional
        (lineData (fst (SceneManager.createRelationLine from_ to_ rel [rel] g)))
      = false).
Proof.
  split.
  - intros. rewrite createRelationLine_isBidirectional.
    apply isBidirectionalRelation_spec.
  - intros from_ to_ rel g Hne.
    rewrite createRelationLine_isBidirectional.
    apply not_true_is_false. intros H.
    apply isBidirectionalRelation_spec in H as (r & [<-|[]] & H1 & _).
    contradiction.
Qed.

(** * Skipped relations *)

Lemma createRelationLineFor_frame all w rel :
  let w' := SceneManager.createRelationLineFor all w rel in
  sm_characters w' = sm_characters w /\ charHeap w' = charHeap w
  /\ console w' = console w.
Proof.
  unfold SceneManager.createRelationLineFor.
  destruct (SceneManager.getCharacter (from rel) w); [|auto].
  destruct (SceneManager.getCharacter (to rel) w); [|auto].
  destruct (SceneManager.createRelationLine _ _ _ _ _). cbn. auto.
Qed.

Lemma endpointsPresent_frame w w' :
  sm_characters w' = sm_characters w -> charHeap w' = charHeap w ->
  forall rel, endpointsPresent w' rel = endpointsPresent w rel.
Proof.
  intros H1 H2 rel. unfold endpointsPresent, SceneManager.getCharacter.
  rewrite H1, H2. reflexivity.
Qed.

Lemma createRelationLineFor_absent all w rel :
  endpointsPresent w rel = false ->
  SceneManager.createRelationLineFor all w rel = w.
Proof.
  unfold endpointsPresent, SceneManager.createRelationLineFor.
  destruct (SceneManager.getCharacter (from rel) w); [|reflexivity].
  destruct (SceneManager.getCharacter (to rel) w); [|reflexivity].
  discriminate.
Qed.

Lemma createRelationLineFor_present all w rel :
  endpointsPresent w rel = true ->
  List.length (sm_relations (SceneManager.createRelationLineFor all w rel))
  = S (List.length (sm_relations w)).
Proof.
  unfold endpointsPresent, SceneManager.createRelationLineFor.
  destruct (SceneManager.getCharacter (from rel) w); [|discriminate].
  destruct (SceneManager.getCharacter (to rel) w); [|discriminate].
  intros _. destruct (SceneManager.createRelationLine _ _ _ _ _). cbn.
  rewrite length_app. cbn. lia.
Qed.

Lemma createRelationLinesOf_skips all rels :
  forall w,
    SceneManager.createRelationLinesOf all rels w
    = SceneManager.createRelationLinesOf all (filter (endpointsPresent w) rels) w
    /\ console (SceneManager.createRelationLinesOf all rels w) = console w
    /\ List.length (sm_relations (SceneManager.createRelationLinesOf all rels w))
       = List.length (sm_relations w)
         + List.length (filter (endpointsPresent w) rels).
Proof.
  unfold SceneManager.createRelationLinesOf.
  induction rels as [|r rs IH]; intros w; cbn.
  - repeat split; lia.
  - destruct (createRelationLineFor_frame all w r) as (Hc & Hh & Hl).
    pose proof (endpointsPresent_frame _ _ Hc Hh) as Hp.
    destruct (IH (SceneManager.createRelationLineFor all w r)) as (E1 & E2 & E3).
    rewrite (filter_ext _ _ Hp) in E1, E3.
    destruct (endpointsPresent w r) eqn:P; cbn.
    + rewrite E1 at 1. rewrite E2, E3, Hl.
      rewrite (createRelationLineFor_present all w r P). repeat split; lia.
    + rewrite (createRelationLineFor_absent all w r P) in *.
      repeat split; assumption.
Qed.

(** C5, as the code has it.  A relation with an endpoint that is not in
    the Map of characters is skipped, without an error and without a
    trace: the result is the one for the array without the skipped
    relations, nothing is written to the console, and one relation group
    is added per relation that has both endpoints. *)
Theorem missing_endpoints_are_skipped_silently rels w :
  SceneManager.createRelationLines rels w
  = SceneManager.createRelationLinesOf rels (filter (endpointsPresent w) rels) w
  /\ console (SceneManager.createRelationLines rels w) = console w
  /\ List.length (sm_relations (SceneManager.createRelationLines rels w))
     = List.length (sm_relations w)
       + List.length (filter (endpointsPresent w) rels).
Proof. apply createRelationLinesOf_skips. Qed.

(** C5, as stated, fails: no function of the state after
    [createRelationLines] gives the number of relations skipped. *)
Lemma skip_count_is_not_observable :
  ~ exists count : World -> nat,
      forall rels w,
        count (SceneManager.createRelationLines rels w)
        = List.length (skipped rels w).
Proof.
  intros [count H].
  pose (w := newSceneManager (fun _ => 0%R)).
  pose proof (H [] w) as H0.
  pose proof (H [relAB] w) as H1.
  cbn in H0, H1. congruence.
Qed.

(** * Listeners *)

Lemma sameListener_eq l1 l2 : sameListener l1 l2 = true -> l1 = l2.
Proof.
  destruct l1 as [t1 e1 c1], l2 as [t2 e2 c2]. unfold sameListener. cbn.
  intros H. apply andb_true_iff in H as [H Hc].
  apply andb_true_iff in H as [Ht He].
  apply String.eqb_eq in He. apply Nat.eqb_eq in Hc. subst.
  destruct t1, t2; try discriminate; try reflexivity.
  apply Nat.eqb_eq in Ht. now subst.
Qed.

Lemma listen_functions tg ty m d :
  functions (listen tg ty m d) = functions d ++ [m].
Proof.
  unfold listen, bind, addEventListener. cbn.
  destruct (existsb _ _); reflexivity.
Qed.

Lemma listen_keeps tg ty m d l :
  In l (listeners d) -> In l (listeners (listen tg ty m d)).
Proof.
  unfold listen, bind, addEventListener. cbn.
  destruct (existsb _ _); cbn; [auto|]. intros H. apply in_or_app. now left.
Qed.

Lemma listen_adds tg ty m d :
  In {| target := tg; eventType := ty;
        callback := List.length (functions d) |}
     (listeners (listen tg ty m d)).
Proof.
  unfold listen, bind, addEventListener. cbn.
  destruct (existsb _ _) eqn:E; cbn.
  - apply existsb_exists in E as (l' & Hin & Hs).
    apply sameListener_eq in Hs. now subst.
  - apply in_or_app. right. now left.
Qed.

Lemma animate_dom delta w :
  dom (SceneManager.animate delta w)
  = set_pendingFrames
      (pendingFrames (dom w) ++ [List.length (functions (dom w))])
      (set_functions (functions (dom w) ++ [m_animate]) (dom w)).
Proof.
  unfold SceneManager.animate, bind. cbn.
  apply (fold_left_invariant (fun w' => dom w' = _)); [|reflexivity].
  intros b [a|a] Hb; assumption.
Qed.

Lemma clearScene_dom w : dom (SceneManager.clearScene w) = dom w.
Proof.
  unfold SceneManager.clearScene, InteractionManager.clear. cbn.
  set (w1 := fold_left _ (sm_characters w) w).
  assert (H1 : dom w1 = dom w).
  { apply (fold_left_invariant (fun w' => dom w' = dom w)); auto. }
  rewrite <- H1.
  apply (fold_left_invariant (fun w' => dom w' = dom w1)); auto.
Qed.

(** C9 fails on the code.  After [mount] and [dispose], the listener for
    [resize] that [mount] registered on the window is still registered:
    [dispose] passes a newly bound function to [removeEventListener],
    which is no listener. *)
Theorem dispose_leaves_resize_listener container delta w :
  let w' := SceneManager.dispose (SceneManager.mount container delta w) in
  let f := List.length (functions (dom w)) in
  In {| target := Window; eventType := "resize"; callback := f |}
     (listeners (dom w'))
  /\ nth_error (functions (dom w')) f = Some m_onWindowResize.
Proof.
  cbn zeta.
  unfold SceneManager.dispose, SceneManager.mount, bind.
  cbn [InteractionManager.dispose InteractionManager.clear onIm onDom dom
       set_im set_dom].
  rewrite clearScene_dom. cbn [dom set_dom set_sm_container].
  rewrite animate_dom.
  unfold InteractionManager.setupEvents.
  cbn [dom set_dom onDom set_sm_container].
  set (d0 := set_canvasParent (Some container) (dom w)).
  set (d7 := listen _ "wheel" _ _).
  assert (H0 : functions d0 = functions (dom w)) by reflexivity.
  assert (Hf : functions d7
               = functions (dom w) ++ [m_onWindowResize; m_onMouseMove;
                   m_onClick; m_onDoubleClick; m_onMouseDown; m_onMouseUp;
                   m_onWheel]).
  { subst d7. rewrite !listen_functions, <- !app_assoc, H0. reflexivity. }
  assert (Hl : In {| target := Window; eventType := "resize";
                     callback := List.length (functions (dom w)) |}
                  (listeners d7)).
  { subst d7. do 6 apply listen_keeps. rewrite <- H0. apply listen_adds. }
  clearbody d7 d0.
  cbn [listeners functions set_pendingFrames set_functions
       removeEventListener set_listeners].
  split.
  - apply filter_In. split; [assumption|].
    unfold sameListener. cbn. rewrite !length_app, Hf, !length_app. cbn.
    apply negb_true_iff, Nat.eqb_neq. lia.
  - cbn. rewrite Hf, <- !app_assoc.
    rewrite nth_error_app2 by lia. now rewrite Nat.sub_diag.
Qed.

(** The run on a new scene manager. *)
Lemma listeners_after_dispose :
  listeners (dom (SceneManager.dispose
                    (SceneManager.mount 0 (Fin 0) (newSceneManager (fun _ => 0%R)))))
  = [ {| target := Window; eventType := "resize"; callback := 0 |};
      {| target := Element 0; eventType := "mousemove"; callback := 1 |};
      {| target := Element 0; eventType := "click"; callback := 2 |};
      {| target := Element 0; eventType := "dblclick"; callback := 3 |};
      {| target := Element 0; eventType := "mousedown"; callback := 4 |};
      {| target := Element 0; eventType := "mouseup"; callback := 5 |};
      {| target := Element 0; eventType := "wheel"; callback := 6 |} ].
Proof. reflexivity. Qed.

(** * The heap *)

Lemma nth_error_update {A : Type} (f : A -> A) (l : list A) (a b : nat) :
  nth_error (update a f l) b
  = if Nat.eqb a b then option_map f (nth_error l b) else nth_error l b.
Proof.
  revert a b. induction l as [|x l IH]; intros [|a] [|b]; cbn; try reflexivity.
  - now destruct (Nat.eqb a b).
  - apply IH.
Qed.

Lemma length_update {A : Type} (f : A -> A) (l : list A) (a : nat) :
  List.length (update a f l) = List.length l.
Proof.
  revert a. induction l as [|x l IH]; intros [|a]; cbn; auto.
Qed.

(** * Selection rings *)

Lemma removeSelectionRing_ringsOf g :
  ringsAreChildren g -> ringsOf (InteractionManager.removeSelectionRing g) = [].
Proof.
  unfold ringsAreChildren, ringsOf, InteractionManager.removeSelectionRing.
  cbn. induction (children g) as [|o cs IH]; intros H; cbn; [reflexivity|].
  assert (IH' : filter isSelectionRing
                  (flat_map meshesOf
                     (filter (fun o => negb (InteractionManager.isRing o)) cs))
                = []).
  { apply IH. intros cs' Hin. apply H. now right. }
  destruct o as [m|s|cs']; cbn.
  - destruct (isSelectionRing m) eqn:E; cbn; [assumption|].
    now rewrite E.
  - assumption.
  - rewrite filter_app, IH', app_nil_r. apply H. now left.
Qed.

Lemma deselect_spec g :
  ringsAreChildren g ->
  let g' := InteractionManager.deselect g in
  ringsOf g' = []
  /\ isDraggable (charData g') = false
  /\ isSelected (charData g') = false.
Proof.
  intros H. cbn. repeat split.
  apply (removeSelectionRing_ringsOf g H).
Qed.

Lemma ringsOf_nil_ringsAreChildren g : ringsOf g = [] -> ringsAreChildren g.
Proof.
  unfold ringsOf, ringsAreChildren. intros H cs Hin.
  induction (children g) as [|o os IH]; [contradiction|].
  cbn in H. rewrite filter_app in H. apply app_eq_nil in H as [H1 H2].
  destruct Hin as [->|Hin]; [exact H1|auto].
Qed.

(** The toggle-off branch of [onDoubleClick]. *)
Lemma onDoubleClick_selected w g :
  selectedCharacter (im w) = Some g ->
  InteractionManager.onDoubleClick (Some g) w
  = onChar g InteractionManager.deselect (onIm (set_selectedCharacter None) w).
Proof.
  intros H. unfold InteractionManager.onDoubleClick, optEqb.
  now rewrite H, Nat.eqb_refl.
Qed.

(** The toggle-off branch changes the group that was double-clicked and
    no other: a ring on another character stays where it is. *)
Lemma toggle_off_frame w g a :
  selectedCharacter (im w) = Some g ->
  nth_error (charHeap (InteractionManager.onDoubleClick (Some g) w)) a
  = if Nat.eqb g a
    then option_map InteractionManager.deselect (nth_error (charHeap w) a)
    else nth_error (charHeap w) a.
Proof.
  intros H. rewrite (onDoubleClick_selected w g H). cbn.
  apply nth_error_update.
Qed.

(** [onClick] on a character, [onMouseDown] and [onMouseUp] set fields of
    the interaction manager; they change no group, so they neither add nor
    remove a ring, also when they move [selectedCharacter]. *)
Lemma onClick_charHeap g w :
  charHeap (InteractionManager.onClick (Some g) w) = charHeap w.
Proof.
  unfold InteractionManager.onClick, InteractionManager.showInfoPanel.
  destruct (isDragging (im w)); [reflexivity|].
  destruct (mapGet Nat.eqb g (im_characters (im w))); [|reflexivity].
  cbn. now destruct (infoPanel (im w)).
Qed.

Lemma onMouseDown_charHeap hit point w :
  charHeap (InteractionManager.onMouseDown hit point w) = charHeap w.
Proof.
  unfold InteractionManager.onMouseDown.
  destruct hit as [g|]; [|reflexivity].
  destruct (nth_error (charHeap w) g) as [grp|]; [|reflexivity].
  now destruct (isDraggable (charData grp)).
Qed.

Lemma onClick_selects g c w :
  isDragging (im w) = false ->
  mapGet Nat.eqb g (im_characters (im w)) = Some c ->
  selectedCharacter (im (InteractionManager.onClick (Some g) w)) = Some g.
Proof.
  intros Hd Hc. unfold InteractionManager.onClick, InteractionManager.showInfoPanel.
  rewrite Hd, Hc. cbn. now destruct (infoPanel (im w)).
Qed.

(** ** The scenario: two double clicks on the same character *)

Lemma addSelectionRing_ringsOf g :
  ringsAreChildren g ->
  ringsOf (InteractionManager.addSelectionRing g)
  = match InteractionManager.ring (List.length (materials g)) with
    | OMesh m => [m] | _ => []
    end.
Proof.
  intros H. unfold InteractionManager.addSelectionRing, ringsOf, addChild. cbn.
  rewrite flat_map_app, filter_app.
  pose proof (removeSelectionRing_ringsOf g H) as E.
  unfold ringsOf, InteractionManager.removeSelectionRing in E. cbn in E.
  rewrite E. reflexivity.
Qed.

Lemma addSelectionRing_ringsAreChildren g :
  ringsAreChildren g -> ringsAreChildren (InteractionManager.addSelectionRing g).
Proof.
  unfold ringsAreChildren, InteractionManager.addSelectionRing,
    InteractionManager.removeSelectionRing, addChild. cbn.
  intros H cs Hin. apply in_app_or in Hin as [Hin|[Hin|[]]]; [|discriminate].
  apply filter_In in Hin as [Hin _]. auto.
Qed.

(** From a scene without rings, two calls of [onDoubleClick] on a character
    that is not the selected one, with no other event between them: the
    first selects it and attaches the ring, the second takes both away. *)
Lemma double_click_twice w g grp :
  nth_error (charHeap w) g = Some grp ->
  noSelectionRing w ->
  selectedCharacter (im w) <> Some g ->
  let w1 := InteractionManager.onDoubleClick (Some g) w in
  let w2 := InteractionManager.onDoubleClick (Some g) w1 in
  selectedCharacter (im w1) = Some g
  /\ (exists grp1, nth_error (charHeap w1) g = Some grp1
                   /\ List.length (ringsOf grp1) = 1
                   /\ isDraggable (charData grp1) = true)
  /\ selectedCharacter (im w2) = None
  /\ noSelectionRing w2
  /\ (exists grp2, nth_error (charHeap w2) g = Some grp2
                   /\ isDraggable (charData grp2) = false
                   /\ isSelected (charData grp2) = false).
Proof.
  intros Hg Hfree Hsel. cbn zeta.
  set (w1 := InteractionManager.onDoubleClick (Some g) w).
  (* the first double click selects *)
  assert (Hsel1 : selectedCharacter (im w1) = Some g /\
          forall a, nth_error (charHeap w1) a
            = if Nat.eqb a g
              then option_map InteractionManager.select (nth_error (charHeap w) a)
              else option_map
                     (if optEqb (selectedCharacter (im w)) a
                      then InteractionManager.deselect else fun x => x)
                     (nth_error (charHeap w) a)).
  { subst w1. unfold InteractionManager.onDoubleClick.
    destruct (optEqb (selectedCharacter (im w)) g) eqn:E.
    { exfalso. apply Hsel. unfold optEqb in E.
      destruct (selectedCharacter (im w)); [|discriminate].
      apply Nat.eqb_eq in E. now subst. }
    assert (Hfire : forall w0, im (InteractionManager.fireDoubleClick g w0) = im w0
                     /\ charHeap (InteractionManager.fireDoubleClick g w0) = charHeap w0).
    { intros w0. unfold InteractionManager.fireDoubleClick.
      destruct (mapGet _ _ _); [|auto].
      destruct (onCharacterDoubleClick (im w0)) as [[]|]; auto. }
    destruct (Hfire (onChar g InteractionManager.select
               (onIm (set_selectedCharacter (Some g))
                  match selectedCharacter (im w) with
                  | Some previous => onChar previous InteractionManager.deselect w
                  | None => w
                  end))) as [-> ->].
    split.
    - reflexivity.
    - intros a. cbn. rewrite nth_error_update, (Nat.eqb_sym g a).
      destruct (selectedCharacter (im w)) as [p|] eqn:Ep; cbn.
      + rewrite nth_error_update. cbn in E.
        destruct (Nat.eqb a g) eqn:Eag.
        * apply Nat.eqb_eq in Eag. subst a. rewrite E. reflexivity.
        * destruct (Nat.eqb p a); [reflexivity|].
          now destruct (nth_error (charHeap w) a).
      + destruct (Nat.eqb a g); [reflexivity|].
        now destruct (nth_error (charHeap w) a). }
  destruct Hsel1 as [Hs1 Hh1]. clearbody w1.
  assert (Hpre : forall a grp1, nth_error (charHeap w1) a = Some grp1 ->
                 if Nat.eqb a g then ringsAreChildren grp1
                 else ringsOf grp1 = []).
  { intros a grp1. rewrite Hh1. destruct (Nat.eqb a g).
    - destruct (nth_error (charHeap w) a) as [g0|] eqn:E0; [|discriminate].
      cbn. intros [= <-].
      apply addSelectionRing_ringsAreChildren, ringsOf_nil_ringsAreChildren.
      apply (Hfree _ _ E0).
    - destruct (nth_error (charHeap w) a) as [g0|] eqn:E0; [|discriminate].
      cbn. intros [= <-]. destruct (optEqb _ a).
      + apply deselect_spec, ringsOf_nil_ringsAreChildren, (Hfree _ _ E0).
      + apply (Hfree _ _ E0). }
  split; [assumption|]. split.
  { exists (InteractionManager.select grp). rewrite Hh1, Nat.eqb_refl, Hg.
    split; [reflexivity|]. split; [|reflexivity].
    unfold InteractionManager.select, ringsOf. cbn.
    change (List.length (ringsOf (InteractionManager.addSelectionRing grp)) = 1).
    rewrite addSelectionRing_ringsOf; [reflexivity|].
    apply ringsOf_nil_ringsAreChildren, (Hfree _ _ Hg). }
  rewrite (onDoubleClick_selected w1 g Hs1).
  split; [reflexivity|]. split.
  - intros a grp2. cbn. rewrite nth_error_update.
    specialize (Hpre a). rewrite (Nat.eqb_sym a g) in Hpre.
    destruct (Nat.eqb g a).
    + destruct (nth_error (charHeap w1) a) as [g1|]; [|discriminate].
      cbn. intros [= <-]. now apply deselect_spec, Hpre.
    + apply Hpre.
  - exists (InteractionManager.deselect (InteractionManager.select grp)). cbn.
    rewrite nth_error_update, Nat.eqb_refl, Hh1, Nat.eqb_refl, Hg.
    repeat split.
Qed.

(** ** The double click of a mouse

    A browser dispatches the two [click] events of a double click before
    the [dblclick] event.  [onClick] has then made the character the
    selected one when [onDoubleClick] runs, which takes the toggle-off
    branch: with the mouse, a double click on a character clears the
    selection and the flag [isDraggable], and attaches no ring. *)

Lemma mouseClick_spec g c point w :
  mapGet Nat.eqb g (im_characters (im w)) = Some c ->
  let w' := mouseClick g point w in
  selectedCharacter (im w') = Some g
  /\ charHeap w' = charHeap w
  /\ im_characters (im w') = im_characters (im w).
Proof.
  intros Hc. cbn zeta. unfold mouseClick.
  set (w1 := InteractionManager.onMouseUp
               (InteractionManager.onMouseDown (Some g) point w)).
  assert (H1 : isDragging (im w1) = false) by reflexivity.
  assert (H2 : charHeap w1 = charHeap w).
  { exact (onMouseDown_charHeap (Some g) point w). }
  assert (H3 : im_characters (im w1) = im_characters (im w)).
  { subst w1. unfold InteractionManager.onMouseUp, InteractionManager.onMouseDown.
    destruct (nth_error (charHeap w) g) as [grp|]; [|reflexivity].
    now destruct (isDraggable (charData grp)). }
  clearbody w1. rewrite <- H3 in Hc. split; [|split].
  - apply (onClick_selects g c w1 H1 Hc).
  - now rewrite onClick_charHeap.
  - rewrite <- H3. unfold InteractionManager.onClick, InteractionManager.showInfoPanel.
    rewrite H1, Hc. cbn. now destruct (infoPanel (im w1)).
Qed.

Lemma mouse_double_click_toggles_off g c point w :
  mapGet Nat.eqb g (im_characters (im w)) = Some c ->
  let w' := mouseDoubleClick g point w in
  selectedCharacter (im w') = None
  /\ charHeap w' = update g InteractionManager.deselect (charHeap w).
Proof.
  intros Hc. cbn zeta. unfold mouseDoubleClick.
  destruct (mouseClick_spec g c point w Hc) as (_ & Hh1 & Hc1).
  rewrite <- Hc1 in Hc.
  destruct (mouseClick_spec g c point (mouseClick g point w) Hc)
    as (Hs2 & Hh2 & _).
  rewrite (onDoubleClick_selected _ g Hs2).
  split; [reflexivity|].
  change (update g InteractionManager.deselect
            (charHeap (mouseClick g point (mouseClick g point w)))
          = update g InteractionManager.deselect (charHeap w)).
  now rewrite Hh2, Hh1.
Qed.

(** ** A ring that is left behind *)


(** * The divisor of the layout, and the finiteness of the positions *)

Section LayoutFiniteness.

Import PrimFloat.
Local Open Scope float_scope.
#[local] Set Warnings "-inexact-float".




(** A project of 40 modules around one is laid out at finite positions. *)
Lemma star_of_40_is_finite :
  forallb (fun e => F64.isFinite (fst (snd e)) && F64.isFinite (snd (snd e)))
          (Layout64.calculateLayout (characters (star 40))
                                    (relations (star 40)))
  = true.
Proof. vm_compute. reflexivity. Qed.

(** How the attraction of a relation loses its numbers.  Its ends are
    [2^600] apart: the square of the difference is an infinity, so is the
    divisor; [dx / dist] is [0], the force [dist * dist / k] is an
    infinity, and their product is [NaN]. *)
Lemma attraction_overflows :
  let dx := 0x1p+600 in
  let dist := Layout64.distance dx 0 in
  let force := dist * dist / 20 in
  dist = infinity /\ dx / dist = 0 /\ force = infinity
  /\ is_nan (dx / dist * force * 0.01) = true.
Proof.
  cbn zeta.
  split; [vm_compute; reflexivity|].
  split; [vm_compute; reflexivity|].
  split; vm_compute; reflexivity.
Qed.


End LayoutFiniteness.

(** * The placement of the characters *)

Lemma placement_frame w w' :
  sm_characters w' = sm_characters w -> charHeap w' = charHeap w ->
  placement w' = placement w.
Proof. unfold placement. now intros -> ->. Qed.

Lemma mapSet_allocated (m : list (string * nat)) k a n :
  Forall (fun e => snd e < n) m -> a < n ->
  Forall (fun e => snd e < n) (mapSet String.eqb k a m).
Proof.
  intros H Ha. induction H as [|[k' a'] m Hm Hms IH]; cbn.
  - constructor; [exact Ha|constructor].
  - destruct (String.eqb k' k); constructor; auto.
Qed.

Lemma placement_mapSet (heap : list CharGroup) g k (m : list (string * nat)) :
  Forall (fun e => snd e < List.length heap) m ->
  map (fun e => (fst e, option_map groupPosition
                                   (nth_error (heap ++ [g]) (snd e))))
      (mapSet String.eqb k (List.length heap) m)
  = mapSet String.eqb k (Some (groupPosition g))
      (map (fun e => (fst e, option_map groupPosition (nth_error heap (snd e))))
           m).
Proof.
  induction 1 as [|[k' a'] m Hm Hms IH]; cbn.
  - rewrite nth_error_app2, Nat.sub_diag by lia. reflexivity.
  - cbn in Hm. destruct (String.eqb k' k); cbn.
    + rewrite nth_error_app2, Nat.sub_diag by lia. cbn. f_equal.
      apply map_ext_in. intros [k2 a2] Hin. cbn.
      rewrite Forall_forall in Hms. specialize (Hms _ Hin). cbn in Hms.
      now rewrite nth_error_app1.
    + rewrite nth_error_app1 by assumption. f_equal. apply IH.
Qed.

Lemma loadCharacter_placement positions w c :
  charactersAllocated w ->
  let w' := SceneManager.loadCharacter positions w c in
  charactersAllocated w'
  /\ placement w'
     = mapSet String.eqb (originalFile c)
         (Some (let pos := match mapGet String.eqb (originalFile c) positions
                           with Some p => p | None => (Fin 0, Fin 0) end in
                Vector3.mk (fst pos) (Fin 0) (snd pos)))
         (placement w).
Proof.
  intros H. unfold SceneManager.loadCharacter.
  destruct (CharacterMeshGenerator.generateCharacter c (rng w)) as [charMesh g'].
  cbn zeta. unfold charactersAllocated, placement. cbn. split.
  - rewrite length_app. cbn.
    apply mapSet_allocated; [|lia].
    eapply Forall_impl; [|exact H]. cbn. intros; lia.
  - now rewrite placement_mapSet.
Qed.

Lemma loadCharacters_placement positions cs :
  forall w,
    charactersAllocated w ->
    let w' := fold_left (SceneManager.loadCharacter positions) cs w in
    charactersAllocated w'
    /\ placement w'
       = fold_left
           (fun acc c =>
              mapSet String.eqb (originalFile c)
                (Some (let pos :=
                         match mapGet String.eqb (originalFile c) positions
                         with Some p => p | None => (Fin 0, Fin 0) end in
                       Vector3.mk (fst pos) (Fin 0) (snd pos)))
                acc)
           cs (placement w).
Proof.
  induction cs as [|c cs IH]; cbn; intros w H; [auto|].
  destruct (loadCharacter_placement positions w c H) as [H1 E1].
  destruct (IH _ H1) as [H2 E2]. split; [assumption|].
  now rewrite E2, E1.
Qed.

Lemma clearScene_characters w : sm_characters (SceneManager.clearScene w) = [].
Proof.
  unfold SceneManager.clearScene, InteractionManager.clear. cbn.
  apply (fold_left_invariant (fun w' => sm_characters w' = [])); auto.
Qed.

Lemma createRelationLines_frame rels w :
  sm_characters (SceneManager.createRelationLines rels w) = sm_characters w
  /\ charHeap (SceneManager.createRelationLines rels w) = charHeap w.
Proof.
  unfold SceneManager.createRelationLines, SceneManager.createRelationLinesOf.
  apply (fold_left_invariant
           (fun w' => sm_characters w' = sm_characters w
                      /\ charHeap w' = charHeap w)); [|auto].
  intros b r [<- <-].
  destruct (createRelationLineFor_frame rels b r) as (-> & -> & _). auto.
Qed.

Lemma setCharacters_frame w :
  sm_characters (AnimationManager.setCharacters w) = sm_characters w
  /\ charHeap (AnimationManager.setCharacters w) = charHeap w.
Proof.
  unfold AnimationManager.setCharacters.
  apply (fold_left_invariant
           (fun w' => sm_characters w' = sm_characters w
                      /\ charHeap w' = charHeap w)); [|auto].
  intros b e [<- <-].
  destruct (nth_error (charHeap b) (snd e)); [|auto].
  destruct (random (rng b)) as [r1 g1].
  destruct (random g1) as [r2 g2].
  destruct (random g2) as [r3 g3]. auto.
Qed.

Lemma loadAnalysis_placement result w :
  placement (SceneManager.loadAnalysis result w) = layoutPlacement result.
Proof.
  unfold SceneManager.loadAnalysis. cbn zeta.
  set (positions := Layout.calculateLayout _ _).
  set (w1 := SceneManager.clearScene w).
  set (w2 := fold_left _ (characters result) w1).
  assert (H1 : charactersAllocated w1 /\ placement w1 = []).
  { unfold charactersAllocated, placement. subst w1.
    rewrite clearScene_characters. split; constructor. }
  destruct H1 as [H1 E1].
  destruct (loadCharacters_placement positions (characters result) w1 H1)
    as [_ E2].
  fold w2 in E2. rewrite E1 in E2.
  transitivity (placement w2); [|exact E2].
  destruct (createRelationLines_frame (relations result) w2) as [Ec Eh].
  destruct (setCharacters_frame
              (SceneManager.createRelationLines (relations result) w2))
    as [Ec' Eh'].
  apply placement_frame; cbn; congruence.
Qed.

(** C3.  Loading the same graph into any two states of the engine, with
    any two streams of random numbers, puts the characters at the same
    positions: those of [calculateLayout]. *)
Theorem loadAnalysis_layout_is_deterministic result w1 w2 :
  placement (SceneManager.loadAnalysis result w1)
  = placement (SceneManager.loadAnalysis result w2)
  /\ placement (SceneManager.loadAnalysis result w1) = layoutPlacement result.
Proof.
  rewrite !loadAnalysis_placement. split; reflexivity.
Qed.

(** * Network highlight *)

Lemma stage_lines : im_relationLines (im stage) = [0].
Proof. reflexivity. Qed.

Lemma connector_before : lineLook stage 0 0 = Some (true, Fin (1 * 0.7)).
Proof. vm_compute. reflexivity. Qed.

Lemma connector_after : lineLook cleared 0 0 = Some (true, Fin (1 * 0.8)).
Proof. vm_compute. reflexivity. Qed.

Lemma wings_before : charLook stage 1 5 = Some (true, Fin 0.7).
Proof. vm_compute. reflexivity. Qed.

Lemma wings_after : charLook cleared 1 5 = Some (false, Fin 1).
Proof. vm_compute. reflexivity. Qed.

Lemma lonely_body_before : charLook stage 2 0 = Some (true, Fin 0.6).
Proof. vm_compute. reflexivity. Qed.

Lemma lonely_body_after : charLook cleared 2 0 = Some (false, Fin 1).
Proof. vm_compute. reflexivity. Qed.

(** C1 fails on the code.  On the stage, highlighting the network of
    [a.ts] and clearing it leaves the connector at opacity [strength * 0.8]
    where it was [strength * 0.7], and makes the wings of [b.ts] and the
    body of [c.ts], which were built transparent, opaque. *)
Theorem clear_after_highlight_does_not_restore :
  (* the connector a.ts -> b.ts *)
  lineLook stage 0 0 = Some (true, Fin (1 * 0.7))
  /\ lineLook cleared 0 0 = Some (true, Fin (1 * 0.8))
  /\ lineLook cleared 0 0 <> lineLook stage 0 0
  (* the wings of b.ts, a character related to the focus *)
  /\ charLook stage 1 5 = Some (true, Fin 0.7)
  /\ charLook cleared 1 5 = Some (false, Fin 1)
  (* the body of c.ts, a character unrelated to the focus *)
  /\ charLook stage 2 0 = Some (true, Fin 0.6)
  /\ charLook cleared 2 0 = Some (false, Fin 1).
Proof.
  split; [exact connector_before|].
  split; [exact connector_after|].
  split.
  { rewrite connector_before, connector_after. intros [= H]. lra. }
  split; [exact wings_before|].
  split; [exact wings_after|].
  split; [exact lonely_body_before|exact lonely_body_after].
Qed.

(** * Dragging a character *)

(** What [createRelationLine] builds: child 0 is the pipe, a cylinder as
    high as the endpoints are apart; child 1 is an arrow; the group records
    the pipe but no arrow. *)
Lemma createRelationLine_shape from_ to_ rel all g :
  let line := fst (SceneManager.createRelationLine from_ to_ rel all g) in
  (exists p,
      nth_error (lineChildren line) 0 = Some (OMesh p)
      /\ geometry p = CylinderGeometry SceneManager.pipeRadius
                                       SceneManager.pipeRadius (span line)
      /\ scale p = Vector3.one)
  /\ (exists a,
         nth_error (lineChildren line) 1 = Some (OMesh a)
         /\ geometry a = ConeGeometry SceneManager.arrowRadius
                                      SceneManager.arrowLength
         /\ (position a
             = Vector3.sub (endPoint (lineData line))
                 (Vector3.multiplyScalar (lineDirection (lineData line))
                    (SceneManager.arrowLength * Fin 0.5)%js)
             \/ position a
                = Vector3.add (startPoint (lineData line))
                    (Vector3.multiplyScalar (lineDirection (lineData line))
                       (SceneManager.arrowLength * Fin 0.5)%js)))
  /\ pipe (lineData line) = Some 0
  /\ arrow (lineData line) = None
  /\ arrow1 (lineData line) = None
  /\ arrow2 (lineData line) = None.
Proof.
  unfold SceneManager.createRelationLine.
  destruct (SceneManager.createFlowParticles _ _ _) as [ps g'].
  cbn [fst lineChildren lineData nth_error pipe arrow arrow1 arrow2].
  split; [|split].
  - eexists. split; [reflexivity|]. split; reflexivity.
  - destruct (SceneManager.isBidirectionalRelation _ _ _); cbn;
      eexists; (split; [reflexivity|]); cbn; auto.
  - auto.
Qed.

(** What [updateRelationLines] does to such a group: the pipe keeps its
    geometry and gets the Y scale [length / 2]; child 1, the arrow, is not
    touched. *)
Lemma updateRelationLine_shape file newPosition line p a :
  nth_error (lineChildren line) 0 = Some (OMesh p) ->
  nth_error (lineChildren line) 1 = Some (OMesh a) ->
  pipe (lineData line) = Some 0 ->
  arrow (lineData line) = None ->
  arrow1 (lineData line) = None ->
  let line' := InteractionManager.updateRelationLine file newPosition line in
  (exists p',
      nth_error (lineChildren line') 0 = Some (OMesh p')
      /\ geometry p' = geometry p
      /\ scale p' = Vector3.mk (Fin 1) (span line' / Fin 2)%js (Fin 1))
  /\ nth_error (lineChildren line') 1 = Some (OMesh a).
Proof.
  intros Hp Ha Epipe Earrow Earrow1.
  unfold InteractionManager.updateRelationLine. cbn zeta.
  rewrite Epipe, Earrow, Earrow1.
  replace (isBidirectional (lineData line) && InteractionManager.isSome None
           && InteractionManager.isSome (arrow2 (lineData line)))
    with false by now destruct (isBidirectional (lineData line)).
  cbn [InteractionManager.isSome InteractionManager.onChildAt lineChildren].
  destruct (lineChildren line) as [|c0 [|c1 cs]]; try discriminate.
  cbn in Hp, Ha. injection Hp as ->. injection Ha as ->.
  cbn. split; [|reflexivity].
  eexists. split; [reflexivity|]. split; reflexivity.
Qed.

(** ** The drag on the stage *)

Lemma stage_start :
  lineStart stage 0 = Some (Vector3.mk (Fin 0) (Fin 1) (Fin 0)).
Proof. unfold lineStart, lineOf, stage. js_unfold. num_eq. Qed.

Lemma stage_end :
  lineEnd stage 0 = Some (Vector3.mk (Fin 4) (Fin 1) (Fin 0)).
Proof. unfold lineEnd, lineOf, stage. js_unfold. num_eq. Qed.

Lemma stage_span : lineSpan stage 0 = Some (Fin 4).
Proof.
  unfold lineSpan, lineOf, span, stage.
  js_eval ltac:(js_sqrt 4%R). num_eq.
Qed.

Lemma stage_pipe : option_map renderedLength (childOf stage 0 0) = Some (Fin 4).
Proof.
  unfold childOf, lineOf, stage.
  js_eval ltac:(js_sqrt 4%R). num_eq.
Qed.

Lemma stage_arrow :
  option_map position (childOf stage 0 1)
  = Some (Vector3.mk (Fin 3.6) (Fin 1) (Fin 0)).
Proof.
  unfold childOf, lineOf, stage.
  js_eval ltac:(js_sqrt 4%R). num_eq.
Qed.

Lemma dragged_character :
  option_map groupPosition (nth_error (charHeap dragged) 1)
  = Some (Vector3.mk (Fin 8) (Fin 0) (Fin 0)).
Proof. unfold dragged, stage. js_unfold. num_eq. Qed.

Lemma dragged_start :
  lineStart dragged 0 = Some (Vector3.mk (Fin 0) (Fin 1) (Fin 0)).
Proof. unfold lineStart, lineOf, dragged, stage. js_unfold. num_eq. Qed.

Lemma dragged_end :
  lineEnd dragged 0 = Some (Vector3.mk (Fin 8) (Fin 1) (Fin 0)).
Proof. unfold lineEnd, lineOf, dragged, stage. js_unfold. num_eq. Qed.

Lemma dragged_span : lineSpan dragged 0 = Some (Fin 8).
Proof.
  unfold lineSpan, lineOf, span, dragged, stage.
  js_eval ltac:(first [js_sqrt 4%R | js_sqrt 8%R]). num_eq.
Qed.

Lemma dragged_pipe :
  option_map renderedLength (childOf dragged 0 0) = Some (Fin 16).
Proof.
  unfold childOf, lineOf, dragged, stage.
  js_eval ltac:(first [js_sqrt 4%R | js_sqrt 8%R]). num_eq.
Qed.

Lemma dragged_arrow :
  option_map position (childOf dragged 0 1)
  = Some (Vector3.mk (Fin 3.6) (Fin 1) (Fin 0)).
Proof.
  unfold childOf, lineOf, dragged, stage.
  js_eval ltac:(first [js_sqrt 4%R | js_sqrt 8%R]). num_eq.
Qed.

Lemma updateRelationLine_pipe_and_arrow from_ to_ rel all g file newPosition :
  let line := fst (SceneManager.createRelationLine from_ to_ rel all g) in
  let line' := InteractionManager.updateRelationLine file newPosition line in
  option_map renderedLength (meshAt (lineChildren line') 0)
  = Some (span line * (span line' / Fin 2))%js
  /\ meshAt (lineChildren line') 1 = meshAt (lineChildren line) 1.
Proof.
  intros line line'.
  destruct (createRelationLine_shape from_ to_ rel all g)
    as ((p & Hp & Hgeo & Hscale) & (a & Ha & _) & Epipe & Earrow & Earrow1 & _).
  fold line in Hp, Hgeo, Ha, Epipe, Earrow, Earrow1.
  destruct (updateRelationLine_shape file newPosition line p a
              Hp Ha Epipe Earrow Earrow1)
    as ((p' & Hp' & Hgeo' & Hscale') & Ha').
  fold line' in Hp', Hscale', Ha'.
  unfold meshAt. rewrite Hp', Ha', Ha. split; [|reflexivity].
  cbn. unfold renderedLength. rewrite Hgeo', Hgeo, Hscale'. reflexivity.
Qed.

(** C2 fails on the code.  After a drag the pipe is drawn with length
    [creation length * new distance / 2], and the arrow head is where it
    was made.  On the stage, with [b.ts] dragged from [(4, 0, 0)] to
    [(8, 0, 0)]: the endpoints are 8 apart, the pipe is drawn 16 long, and
    the arrow head is still at [(3.6, 1, 0)]. *)
Theorem dragged_connector_is_not_refitted :
  (forall from_ to_ rel all g file newPosition,
      let line := fst (SceneManager.createRelationLine from_ to_ rel all g) in
      let line' :=
        InteractionManager.updateRelationLine file newPosition line in
      option_map renderedLength (meshAt (lineChildren line') 0)
      = Some (span line * (span line' / Fin 2))%js
      /\ meshAt (lineChildren line') 1 = meshAt (lineChildren line) 1)
  /\ lineStart dragged 0 = Some (Vector3.mk (Fin 0) (Fin 1) (Fin 0))
  /\ lineEnd dragged 0 = Some (Vector3.mk (Fin 8) (Fin 1) (Fin 0))
  /\ lineSpan dragged 0 = Some (Fin 8)
  /\ option_map renderedLength (childOf dragged 0 0) = Some (Fin 16)
  /\ option_map position (childOf stage 0 1)
     = Some (Vector3.mk (Fin 3.6) (Fin 1) (Fin 0))
  /\ option_map position (childOf dragged 0 1)
     = Some (Vector3.mk (Fin 3.6) (Fin 1) (Fin 0)).
Proof.
  split; [exact updateRelationLine_pipe_and_arrow|].
  split; [exact dragged_start|].
  split; [exact dragged_end|].
  split; [exact dragged_span|].
  split; [exact dragged_pipe|].
  split; [exact stage_arrow|exact dragged_arrow].
Qed.

(** With no relation group registered (the scene manager never calls
    [setRelationLines]), a drag moves the character and no connector. *)
Lemma drag_without_registered_lines point w :
  im_relationLines (im w) = [] ->
  lineHeap (InteractionManager.handleDrag point w) = lineHeap w.
Proof.
  intros H. unfold InteractionManager.handleDrag.
  destruct (selectedCharacter (im w)) as [sel|]; [|reflexivity].
  unfold InteractionManager.updateRelationLines. cbn.
  destruct (nth_error _ sel); [|reflexivity].
  destruct (String.eqb _ ""); [reflexivity|].
  rewrite H. reflexivity.
Qed.

(** * Flow particles *)

(** After a frame, every flow particle of a relation group made by
    [createRelationLine] has its sphere on the chord: at
    [lerp(startPoint, endPoint, offset)]. *)
Lemma updateFlowParticles_on_chord from_ to_ rel all g delta :
  let line :=
    SceneManager.updateFlowParticles delta
      (fst (SceneManager.createRelationLine from_ to_ rel all g)) in
  flowParticles (lineData line) <> []
  /\ Forall
       (fun p =>
          option_map position (meshAt (lineChildren line) (mesh p))
          = Some (Vector3.lerp (startPoint (lineData line))
                               (endPoint (lineData line)) (offset p)))
       (flowParticles (lineData line)).
Proof.
  unfold SceneManager.createRelationLine, SceneManager.createFlowParticles.
  destruct (SceneManager.isBidirectionalRelation (from rel) (to rel) all);
    cbn -[Vector3.lerp Vector3.length Vector3.normalize JS.gtb JS.ltb
          JS.add JS.mul JS.div];
    (split; [discriminate|]); repeat constructor.
Qed.

(** The point [getFlowParticlePositions] computes is the point of the chord
    raised by [3 t (1 - t) sin(t PI)]. *)
Lemma flowParticlePosition_arc (sx sy sz ex ey ez t : R) :
  AnimationManager.flowParticlePosition
    (Vector3.mk (Fin sx) (Fin sy) (Fin sz))
    (Vector3.mk (Fin ex) (Fin ey) (Fin ez)) (Fin t)
  = Vector3.mk
      (Fin (sx + (ex - sx) * t))
      (Fin (sy + (ey - sy) * t
            + 3 * t * (1 - t) * Rtrigo_def.sin (t * Rtrigo1.PI)))
      (Fin (sz + (ez - sz) * t)).
Proof.
  unfold AnimationManager.flowParticlePosition. cbn. num_eq.
Qed.

Lemma lerp_Fin (sx sy sz ex ey ez t : R) :
  SceneManager.flowParticlePosition
    (Vector3.mk (Fin sx) (Fin sy) (Fin sz))
    (Vector3.mk (Fin ex) (Fin ey) (Fin ez)) (Fin t)
  = Vector3.mk (Fin (sx + (ex - sx) * t)) (Fin (sy + (ey - sy) * t))
               (Fin (sz + (ez - sz) * t)).
Proof.
  unfold SceneManager.flowParticlePosition. cbn. num_eq.
Qed.

(** ** The particles of the animation manager *)

Lemma getFlowParticlePositions_nil w :
  am_flowParticles (am w) = [] ->
  AnimationManager.getFlowParticlePositions w = [].
Proof.
  unfold AnimationManager.getFlowParticlePositions. now intros ->.
Qed.

Lemma clearScene_am w : am (SceneManager.clearScene w) = am w.
Proof.
  unfold SceneManager.clearScene, InteractionManager.clear. cbn.
  set (w1 := fold_left _ (sm_characters w) w).
  assert (H1 : am w1 = am w).
  { apply (fold_left_invariant (fun w' => am w' = am w)); auto. }
  rewrite <- H1.
  apply (fold_left_invariant (fun w' => am w' = am w1)); auto.
Qed.

Lemma loadAnalysis_flowParticles result w :
  am_flowParticles (am (SceneManager.loadAnalysis result w))
  = am_flowParticles (am w).
Proof.
  unfold SceneManager.loadAnalysis. cbn.
  unfold AnimationManager.setCharacters.
  set (w3 := SceneManager.createRelationLines _ _).
  assert (H3 : am w3 = am w).
  { subst w3. unfold SceneManager.createRelationLines,
      SceneManager.createRelationLinesOf.
    apply (fold_left_invariant (fun w' => am w' = am w)).
    - intros b r Hb. unfold SceneManager.createRelationLineFor.
      destruct (SceneManager.getCharacter (from r) b); [|assumption].
      destruct (SceneManager.getCharacter (to r) b); [|assumption].
      now destruct (SceneManager.createRelationLine _ _ _ _ _).
    - apply (fold_left_invariant (fun w' => am w' = am w)).
      + intros b c Hb. unfold SceneManager.loadCharacter.
        now destruct (CharacterMeshGenerator.generateCharacter _ _).
      + apply clearScene_am. }
  apply (fold_left_invariant
           (fun w' => am_flowParticles (am w') = am_flowParticles (am w))).
  - intros b e Hb. destruct (nth_error (charHeap b) (snd e)); [|assumption].
    destruct (random (rng b)) as [r1 g1].
    destruct (random g1) as [r2 g2].
    destruct (random g2) as [r3 g3]. exact Hb.
  - cbn. now rewrite H3.
Qed.

Lemma animate_am delta w : am (SceneManager.animate delta w) = am w.
Proof.
  unfold SceneManager.animate, bind. cbn.
  apply (fold_left_invariant (fun w' => am w' = am w)); [|reflexivity].
  intros b [a|a] Hb; assumption.
Qed.

Lemma mount_am container delta w :
  am (SceneManager.mount container delta w) = am w.
Proof. unfold SceneManager.mount. now rewrite animate_am. Qed.

(** ** One frame on the stage *)

Lemma afterFrame_offset :
  option_map offset (particleOf afterFrame 0 0) = Some (Fin 0.05).
Proof.
  unfold particleOf, lineOf, afterFrame, stage.
  js_eval ltac:(js_sqrt 4%R). num_eq.
Qed.

Lemma afterFrame_mesh : option_map mesh (particleOf afterFrame 0 0) = Some 2.
Proof. reflexivity. Qed.

Lemma afterFrame_start :
  lineStart afterFrame 0 = Some (Vector3.mk (Fin 0) (Fin 1) (Fin 0)).
Proof. unfold lineStart, lineOf, afterFrame, stage. js_unfold. num_eq. Qed.

Lemma afterFrame_end :
  lineEnd afterFrame 0 = Some (Vector3.mk (Fin 4) (Fin 1) (Fin 0)).
Proof. unfold lineEnd, lineOf, afterFrame, stage. js_unfold. num_eq. Qed.

Lemma afterFrame_sphere :
  option_map position (childOf afterFrame 0 2)
  = Some (Vector3.mk (Fin 0.2) (Fin 1) (Fin 0)).
Proof.
  unfold childOf, lineOf, afterFrame, stage.
  js_eval ltac:(js_sqrt 4%R). num_eq.
Qed.

Lemma arc_is_off_the_chord :
  AnimationManager.flowParticlePosition
    (Vector3.mk (Fin 0) (Fin 1) (Fin 0)) (Vector3.mk (Fin 4) (Fin 1) (Fin 0))
    (Fin 0.05)
  <> Vector3.mk (Fin 0.2) (Fin 1) (Fin 0).
Proof.
  rewrite flowParticlePosition_arc. intros [= _ Hy].
  assert (Hs : (0 < Rtrigo_def.sin (0.05 * Rtrigo1.PI))%R).
  { pose proof PI_RGT_0. apply sin_gt_0; lra. }
  nra.
Qed.

(** C6, as stated, fails: after a frame on the stage, the flow particle at
    progress 0.05 between [(0, 1, 0)] and [(4, 1, 0)] is drawn at
    [(0.2, 1, 0)], on the segment, and not at the point of the arc. *)
Lemma flow_particle_is_drawn_on_the_chord :
  option_map offset (particleOf afterFrame 0 0) = Some (Fin 0.05)
  /\ option_map mesh (particleOf afterFrame 0 0) = Some 2
  /\ lineStart afterFrame 0 = Some (Vector3.mk (Fin 0) (Fin 1) (Fin 0))
  /\ lineEnd afterFrame 0 = Some (Vector3.mk (Fin 4) (Fin 1) (Fin 0))
  /\ option_map position (childOf afterFrame 0 2)
     = Some (Vector3.mk (Fin 0.2) (Fin 1) (Fin 0))
  /\ AnimationManager.flowParticlePosition
       (Vector3.mk (Fin 0) (Fin 1) (Fin 0))
       (Vector3.mk (Fin 4) (Fin 1) (Fin 0)) (Fin 0.05)
     <> Vector3.mk (Fin 0.2) (Fin 1) (Fin 0).
Proof.
  split; [exact afterFrame_offset|].
  split; [exact afterFrame_mesh|].
  split; [exact afterFrame_start|].
  split; [exact afterFrame_end|].
  split; [exact afterFrame_sphere|exact arc_is_off_the_chord].
Qed.

(** C6, as the code has it.  The render loop puts the sphere of every
    flow particle on the straight segment between the endpoints, at
    [lerp(startPoint, endPoint, offset)].  The arc, the chord raised by
    [3 t (1 - t) sin(t PI)], is what [getFlowParticlePositions] computes
    for the particles of the animation manager, of which the engine
    creates none. *)
Theorem flow_particles_follow_the_chord :
  (forall from_ to_ rel all g delta,
      let line :=
        SceneManager.updateFlowParticles delta
          (fst (SceneManager.createRelationLine from_ to_ rel all g)) in
      flowParticles (lineData line) <> []
      /\ Forall
           (fun p =>
              option_map position (meshAt (lineChildren line) (mesh p))
              = Some (Vector3.lerp (startPoint (lineData line))
                                   (endPoint (lineData line)) (offset p)))
           (flowParticles (lineData line)))
  /\ (forall sx sy sz ex ey ez t : R,
         Vector3.lerp (Vector3.mk (Fin sx) (Fin sy) (Fin sz))
                      (Vector3.mk (Fin ex) (Fin ey) (Fin ez)) (Fin t)
         = Vector3.mk (Fin (sx + (ex - sx) * t)) (Fin (sy + (ey - sy) * t))
                      (Fin (sz + (ez - sz) * t))
         /\ AnimationManager.flowParticlePosition
              (Vector3.mk (Fin sx) (Fin sy) (Fin sz))
              (Vector3.mk (Fin ex) (Fin ey) (Fin ez)) (Fin t)
            = Vector3.mk
                (Fin (sx + (ex - sx) * t))
                (Fin (sy + (ey - sy) * t
                      + 3 * t * (1 - t) * Rtrigo_def.sin (t * Rtrigo1.PI)))
                (Fin (sz + (ez - sz) * t)))
  /\ (forall randoms container delta result delta',
         AnimationManager.getFlowParticlePositions
           (SceneManager.animate delta'
              (SceneManager.loadAnalysis result
                 (SceneManager.mount container delta
                    (newSceneManager randoms))))
         = []).
Proof.
  split; [exact updateFlowParticles_on_chord|]. split.
  - intros. split; [apply lerp_Fin|apply flowParticlePosition_arc].
  - intros. apply getFlowParticlePositions_nil.
    now rewrite animate_am, loadAnalysis_flowParticles, mount_am.
Qed.

(** * Animation phases *)

Lemma animation_phases_depend_on_random :
  floatSpeeds (SceneManager.loadAnalysis solo (newSceneManager (fun _ => 0%R)))
  = [Fin (0.5 + 0 * 0.5)]
  /\ floatSpeeds
       (SceneManager.loadAnalysis solo (newSceneManager (fun _ => 0.5%R)))
     = [Fin (0.5 + 0.5 * 0.5)].
Proof.
  split; unfold floatSpeeds, SceneManager.loadAnalysis;
    cbn -[Layout.calculateLayout JS.div JS.max JS.min]; reflexivity.
Qed.

(** * Instances *)

Lemma scale_range_witness :
  (0 <= 1000)%R
  /\ exists s : R,
       CharacterMeshGenerator.calculateScaleFromCodeSize (Fin 1000) = Fin s
       /\ (1 <= s <= 1.5)%R /\ s <> 0.6%R.
Proof.
  assert (H : (0 <= 1000)%R) by lra.
  split; [exact H|]. exact (scale_range 1000 H).
Defined.

Lemma bidirectional_iff_reverse_witness :
  from relAB <> to relAB
  /\ isBidirectional
       (lineData
          (fst (SceneManager.createRelationLine
                  (fst (CharacterMeshGenerator.generateCharacter
                          hero {| stream := fun _ => 0%R; calls := 0 |}))
                  (fst (CharacterMeshGenerator.generateCharacter
                          hero {| stream := fun _ => 0%R; calls := 0 |}))
                  relAB [relAB]
                  {| stream := fun _ => 0%R; calls := 0 |})))
     = false.
Proof.
  assert (H : from relAB <> to relAB) by discriminate.
  split; [exact H|].
  exact (proj2 bidirectional_iff_reverse _ _ relAB _ H).
Defined.

Section Binary64Instances.

Import PrimFloat.
Local Open Scope float_scope.


End Binary64Instances.

(* ================================================================== *)
(** * Further properties of the engine *)

(** ** Finite numbers *)

Lemma isFinite_inv a : JS.isFinite a = true -> exists r, a = Fin r.
Proof. destruct a; try discriminate. eauto. Qed.

Lemma div_Fin a b : b <> 0%R -> (Fin a / Fin b)%js = Fin (a / b).
Proof. intros H. cbn. now destruct (Req_dec_T b 0). Qed.

(** ** The size of a character, for every input *)

Lemma calculateScaleFromCodeSize_Fin (l : R) :
  CharacterMeshGenerator.calculateScaleFromCodeSize (Fin l)
  = Fin (Rmax 0.6 (Rmin 1.5 (1 + Rmin (l / 500 * 0.1) 0.5))).
Proof.
  unfold CharacterMeshGenerator.calculateScaleFromCodeSize, Rmax, Rmin.
  cbn. real_cases; apply (f_equal Fin); lra.
Qed.

(** X1.  More code never gives a smaller character: the scale is
    non-decreasing in the number of lines, for all finite inputs, negative
    ones included, and always between 0.6 and 1.5. *)
Theorem scale_is_monotone (l1 l2 : R) :
  (l1 <= l2)%R ->
  exists s1 s2 : R,
    CharacterMeshGenerator.calculateScaleFromCodeSize (Fin l1) = Fin s1
    /\ CharacterMeshGenerator.calculateScaleFromCodeSize (Fin l2) = Fin s2
    /\ (0.6 <= s1 <= s2)%R /\ (s2 <= 1.5)%R.
Proof.
  intros H. do 2 eexists.
  split; [apply calculateScaleFromCodeSize_Fin|].
  split; [apply calculateScaleFromCodeSize_Fin|].
  unfold Rmax, Rmin. real_cases.
Qed.

Lemma scale_is_monotone_witness :
  (100 <= 2000)%R
  /\ exists s1 s2 : R,
       CharacterMeshGenerator.calculateScaleFromCodeSize (Fin 100) = Fin s1
       /\ CharacterMeshGenerator.calculateScaleFromCodeSize (Fin 2000) = Fin s2
       /\ (0.6 <= s1 <= s2)%R /\ (s2 <= 1.5)%R.
Proof.
  assert (H : (100 <= 2000)%R) by lra.
  split; [exact H|]. exact (scale_is_monotone 100 2000 H).
Defined.

Lemma generateCharacter_groupScale c g :
  groupScale (fst (CharacterMeshGenerator.generateCharacter c g))
  = let s := JS.orElse (CharacterMeshGenerator.calculateScaleFromCodeSize
                          (linesOfCode (stats c))) (Fin 1) in
    Vector3.mk s s s.
Proof.
  unfold CharacterMeshGenerator.generateCharacter.
  destruct (CharacterMeshGenerator.createBody (personality c) g)
    as [[mats parts] g1].
  destruct (CharacterMeshGenerator.isUnwell (health c)); [|reflexivity].
  unfold CharacterMeshGenerator.addHealthAura.
  destruct (health c); reflexivity.
Qed.

(** X2.  Whatever [stats.linesOfCode] is (negative, infinite or [NaN]
    too), [generateCharacter] returns a group scaled by one finite factor
    on the three axes, between 0.6 and 1.5; for [NaN] the factor is the
    fallback 1. *)
Theorem generated_scale_is_uniform_and_bounded c g :
  exists s : R,
    groupScale (fst (CharacterMeshGenerator.generateCharacter c g))
    = Vector3.mk (Fin s) (Fin s) (Fin s)
    /\ (0.6 <= s <= 1.5)%R
    /\ (linesOfCode (stats c) = NaN -> s = 1%R).
Proof.
  rewrite generateCharacter_groupScale. cbn zeta.
  destruct (linesOfCode (stats c)) as [l| | |].
  - rewrite calculateScaleFromCodeSize_Fin.
    unfold JS.orElse, JS.truthy, Rmax, Rmin.
    real_cases; eexists; (split; [reflexivity|]); (split; [lra|discriminate]).
  - exists 1.5%R.
    unfold CharacterMeshGenerator.calculateScaleFromCodeSize, JS.orElse.
    repeat first [progress cbn | progress unfold JS.signR
                 | progress real_cases].
    all: split; [apply (f_equal3 Vector3.mk); apply (f_equal Fin); lra|].
    all: split; [lra|discriminate].
  - exists 0.6%R.
    unfold CharacterMeshGenerator.calculateScaleFromCodeSize, JS.orElse.
    repeat first [progress cbn | progress unfold JS.signR
                 | progress real_cases].
    all: split; [apply (f_equal3 Vector3.mk); apply (f_equal Fin); lra|].
    all: split; [lra|discriminate].
  - exists 1%R. split; [reflexivity|]. split; [lra|reflexivity].
Qed.

(** ** The health aura *)

(** X3.  [generateCharacter] gives a character a health aura exactly when
    its health is [fair], [poor] or [critical]: then the group records the
    health configuration and its second child is a torus at height 0.5
    with a transparent basic material of opacity 0.6.  A [critical]
    character also gets the skull and the dizzy spiral and is flagged
    [isCritical]; an [excellent] or [good] one has the body and the name
    label only. *)
Theorem health_aura_only_when_unwell c g :
  let grp := fst (CharacterMeshGenerator.generateCharacter c g) in
  (healthConfig (charData grp) = None
   <-> health c = excellent \/ health c = good)
  /\ (isCritical (charData grp) = true <-> health c = critical)
  /\ List.length (children grp)
     = match health c with
       | excellent | good => 2
       | fair | poor => 3
       | critical => 5
       end
  /\ (health c <> excellent -> health c <> good ->
      exists m i,
        nth_error (children grp) 1 = Some (OMesh m)
        /\ geometry m = TorusGeometry
        /\ position m = Vector3.mk (Fin 0) (Fin 0.5) (Fin 0)
        /\ material m = Single i
        /\ nth_error (materials grp) i
           = Some (newMaterial MeshBasicMaterial true (Fin 0.6))).
Proof.
  unfold CharacterMeshGenerator.generateCharacter.
  destruct (CharacterMeshGenerator.createBody (personality c) g)
    as [[mats parts] g1].
  assert (Haura : forall (rest : list Material),
             nth_error ((mats ++ [newMaterial MeshBasicMaterial true (Fin 0.6)])
                        ++ rest) (List.length mats)
             = Some (newMaterial MeshBasicMaterial true (Fin 0.6))).
  { intros rest. rewrite <- app_assoc.
    rewrite nth_error_app2, Nat.sub_diag by lia. reflexivity. }
  destruct (health c) eqn:E; cbn;
    unfold CharacterMeshGenerator.addHealthAura; rewrite ?E; cbn.
  - split; [split; auto|]. split; [split; discriminate|].
    split; [reflexivity|]. intros H; contradiction.
  - split; [split; auto|]. split; [split; discriminate|].
    split; [reflexivity|]. intros _ H; contradiction.
  - split; [split; [discriminate|intros [H|H]; discriminate]|].
    split; [split; discriminate|]. split; [reflexivity|].
    intros _ _. do 2 eexists. do 4 (split; [reflexivity|]).
    rewrite <- (app_nil_r (mats ++ _)). apply Haura.
  - split; [split; [discriminate|intros [H|H]; discriminate]|].
    split; [split; discriminate|]. split; [reflexivity|].
    intros _ _. do 2 eexists. do 4 (split; [reflexivity|]).
    rewrite <- (app_nil_r (mats ++ _)). apply Haura.
  - split; [split; [discriminate|intros [H|H]; discriminate]|].
    split; [split; reflexivity|]. split; [reflexivity|].
    intros _ _. do 2 eexists. do 4 (split; [reflexivity|]).
    apply Haura.
Qed.

(** ** Flow particles *)

Lemma advance_unit (d : R) p :
  JS.isFinite (speed p) = true -> JS.isFinite (direction p) = true ->
  JS.isFinite (offset p) = true ->
  unitParticle (SceneManager.advance (Fin d) p).
Proof.
  destruct p as [m s o dir]. cbn [speed direction offset].
  intros Hs Hd Ho.
  apply isFinite_inv in Hs as [s' ->]. apply isFinite_inv in Hd as [d' ->].
  apply isFinite_inv in Ho as [o' ->].
  unfold unitParticle, SceneManager.advance. cbn.
  split; [reflexivity|]. split; [reflexivity|].
  real_cases; eexists; (split; [reflexivity|]); lra.
Qed.

Lemma unitParticle_offset p : unitParticle p -> JS.isFinite (offset p) = true.
Proof. intros (_ & _ & o & -> & _). reflexivity. Qed.

Lemma updateFlowParticles_unit (d : R) g :
  Forall unitParticle (flowParticles (lineData g)) ->
  Forall unitParticle
         (flowParticles (lineData (SceneManager.updateFlowParticles (Fin d) g))).
Proof.
  intros H. unfold SceneManager.updateFlowParticles. cbn.
  apply Forall_map. eapply Forall_impl; [|exact H].
  intros p Hp. apply advance_unit; try apply Hp.
  now apply unitParticle_offset.
Qed.

Lemma createFlowParticles_unit b first g :
  Forall unitParticle (fst (SceneManager.createFlowParticles b first g)).
Proof.
  assert (H3 : INR 3 <> 0%R) by (apply not_0_INR; discriminate).
  assert (H4 : INR 4 <> 0%R) by (apply not_0_INR; discriminate).
  unfold SceneManager.createFlowParticles, ofNat.
  destruct b; cbn -[INR JS.div]; rewrite !div_Fin by assumption;
    repeat constructor; cbn; eexists; (split; [reflexivity|]); lra.
Qed.

(** X4.  The progress of every flow particle of a relation group is a
    number between 0 and 1 when [createRelationLine] returns, and after
    any number of frames, whatever the frame times are (negative ones
    too): the wrap at the bounds keeps it there. *)
Theorem flow_offsets_stay_in_unit_interval
  from_ to_ rel all g (deltas : list R) :
  Forall unitParticle
         (flowParticles
            (lineData
               (frames deltas
                  (fst (SceneManager.createRelationLine from_ to_ rel all g))))).
Proof.
  unfold frames.
  apply (fold_left_invariant
           (fun line => Forall unitParticle (flowParticles (lineData line)))).
  - intros line d H. now apply updateFlowParticles_unit.
  - unfold SceneManager.createRelationLine.
    pose proof (createFlowParticles_unit
                  (SceneManager.isBidirectionalRelation (from rel) (to rel) all)
                  (S (List.length
                        (if SceneManager.isBidirectionalRelation
                              (from rel) (to rel) all
                         then [0; 0] else [0]))) g) as H.
    destruct (SceneManager.isBidirectionalRelation (from rel) (to rel) all);
      cbn [List.length] in H;
      cbn -[SceneManager.createFlowParticles];
      destruct (SceneManager.createFlowParticles _ _ g) as [ps g'];
      exact H.
Qed.

(** ** The layout: which nodes and which relations count *)

Section MapKeys.
Context {V : Type}.

Lemma mapGet_None (k : string) (m : list (string * V)) :
  mapGet String.eqb k m = None <-> ~ In k (map fst m).
Proof.
  induction m as [|[k' v] m IH]; cbn; [tauto|].
  destruct (String.eqb k' k) eqn:E.
  - apply String.eqb_eq in E. split; [discriminate|]. intros H. exfalso. auto.
  - apply String.eqb_neq in E. rewrite IH. tauto.
Qed.

Lemma mapUpdate_keys (k : string) (f : V -> V) (m : list (string * V)) :
  map fst (mapUpdate String.eqb k f m) = map fst m.
Proof.
  induction m as [|[k' v] m IH]; cbn; [reflexivity|].
  destruct (String.eqb k' k); cbn; [reflexivity|]. now rewrite IH.
Qed.

Lemma mapSet_keys (k : string) (v : V) (m : list (string * V)) k' :
  In k' (map fst (mapSet String.eqb k v m)) <-> k' = k \/ In k' (map fst m).
Proof.
  induction m as [|[k0 v0] m IH]; cbn; [intuition|].
  destruct (String.eqb k0 k) eqn:E; cbn.
  - apply String.eqb_eq in E. subst. intuition.
  - rewrite IH. intuition.
Qed.

Lemma mapUpdate_fixed (k : string) (f : V -> V) (m : list (string * V)) :
  (forall v, mapGet String.eqb k m = Some v -> f v = v) ->
  mapUpdate String.eqb k f m = m.
Proof.
  induction m as [|[k' v] m IH]; cbn; [reflexivity|].
  destruct (String.eqb k' k); intros H.
  - now rewrite H.
  - now rewrite IH.
Qed.

Lemma mapUpdate_twice (k : string) (f h : V -> V) (m : list (string * V)) :
  mapUpdate String.eqb k h (mapUpdate String.eqb k f m)
  = mapUpdate String.eqb k (fun v => h (f v)) m.
Proof.
  induction m as [|[k' v] m IH]; cbn; [reflexivity|].
  destruct (String.eqb k' k) eqn:E; cbn; rewrite E; [reflexivity|].
  now rewrite IH.
Qed.

End MapKeys.

Lemma map_snd_indexed {A : Type} (l : list A) : map snd (indexed l) = l.
Proof.
  unfold indexed. generalize 0 as start.
  induction l as [|a l IH]; intros start; cbn; [reflexivity|].
  now rewrite IH.
Qed.

Lemma attract_keys k nodes rel :
  map fst (Layout.attract k nodes rel) = map fst nodes.
Proof.
  unfold Layout.attract.
  destruct (mapGet String.eqb (from rel) nodes); [|reflexivity].
  destruct (mapGet String.eqb (to rel) nodes); [|reflexivity].
  now rewrite !mapUpdate_keys.
Qed.

Lemma attraction_keys k rels nodes :
  map fst (Layout.attraction k rels nodes) = map fst nodes.
Proof.
  unfold Layout.attraction. revert nodes.
  induction rels as [|r rs IH]; intros nodes; cbn; [reflexivity|].
  now rewrite IH, attract_keys.
Qed.

Lemma iteration_keys k rels nodes :
  map fst (Layout.iteration k rels nodes) = map fst nodes.
Proof.
  unfold Layout.iteration, Layout.onValues, Layout.repulsion.
  rewrite !map_map. cbn.
  change (map (fun x => fst x) ?l) with (map fst l).
  rewrite attraction_keys, map_map. reflexivity.
Qed.

Lemma simulate_keys k rels nodes :
  map fst (Layout.simulate k rels nodes) = map fst nodes.
Proof.
  unfold Layout.simulate.
  induction Layout.iterations as [|n IH]; cbn; [reflexivity|].
  now rewrite iteration_keys.
Qed.

Lemma isCharacter_In characters file :
  isCharacter characters file = true
  <-> exists c, In c characters /\ originalFile c = file.
Proof.
  unfold isCharacter. rewrite existsb_exists.
  split; intros (c & Hin & H); exists c; (split; [assumption|]);
    now apply String.eqb_eq.
Qed.

Lemma initialNodes_keys characters radius file :
  In file (map fst (Layout.initialNodes characters radius))
  <-> isCharacter characters file = true.
Proof.
  rewrite isCharacter_In. unfold Layout.initialNodes.
  generalize (List.length characters) as n. intros n.
  assert (G : forall l acc,
             In file (map fst
               (fold_left
                  (fun nodes (ic : nat * CharacterPersona) =>
                     mapSet String.eqb (originalFile (snd ic))
                       {| Layout.x :=
                            (JS.cos ((ofNat (fst ic) / ofNat n) * JS.PI * Fin 2)
                             * radius)%js;
                          Layout.z :=
                            (JS.sin ((ofNat (fst ic) / ofNat n) * JS.PI * Fin 2)
                             * radius)%js;
                          Layout.vx := Fin 0; Layout.vz := Fin 0 |}
                       nodes) l acc))
             <-> In file (map fst acc)
                 \/ exists c, In c (map snd l) /\ originalFile c = file).
  { induction l as [|[i c] l IH]; intros acc; cbn [fold_left map].
    - split; [auto|]. intros [H|(c & [] & _)]. exact H.
    - rewrite IH, mapSet_keys. cbn [snd fst]. split.
      + intros [[->|H]|(c' & Hin & H)]; eauto.
        * right. exists c. split; [now left|reflexivity].
        * right. exists c'. split; [now right|assumption].
      + intros [H|(c' & [<-|Hin] & H)]; eauto. }
  rewrite (G (indexed characters) []), map_snd_indexed.
  cbn. split; [intros [[]|H]; exact H|auto].
Qed.

Lemma positions_keys (nodes : Layout.Nodes) file :
  In file (map fst nodes) ->
  mapGet String.eqb file
    (fold_left
       (fun positions e =>
          mapSet String.eqb (fst e) (Layout.x (snd e), Layout.z (snd e))
                 positions)
       nodes [])
  <> None.
Proof.
  intros H. rewrite mapGet_None. intros N. apply N. clear N.
  assert (G : forall acc : list (string * (num * num)),
             In file (map fst acc) \/ In file (map fst nodes) ->
             In file (map fst
               (fold_left
                  (fun positions e =>
                     mapSet String.eqb (fst e)
                            (Layout.x (snd e), Layout.z (snd e)) positions)
                  nodes acc))).
  { clear H. induction nodes as [|[k n] nodes IH]; intros acc; cbn [fold_left].
    - intros [H|[]]. exact H.
    - intros H. apply IH. rewrite mapSet_keys. cbn [fst map In] in *.
      intuition. }
  apply G. now right.
Qed.

(** X5.  [calculateLayout] returns a position for every character of the
    graph: the lookup [positions.get(character.originalFile)] of
    [loadAnalysis] never falls back to the origin. *)
Theorem every_character_gets_a_position characters relations :
  Forall (fun c =>
            mapGet String.eqb (originalFile c)
                   (Layout.calculateLayout characters relations)
            <> None)
         characters.
Proof.
  apply Forall_forall. intros c Hin.
  unfold Layout.calculateLayout. apply positions_keys.
  rewrite simulate_keys. apply initialNodes_keys, isCharacter_In. eauto.
Qed.

Lemma attract_absent k nodes rel :
  mapGet String.eqb (from rel) nodes = None
  \/ mapGet String.eqb (to rel) nodes = None ->
  Layout.attract k nodes rel = nodes.
Proof.
  unfold Layout.attract. intros [H|H]; rewrite H; [reflexivity|].
  now destruct (mapGet String.eqb (from rel) nodes).
Qed.

Lemma attraction_connected characters k rels :
  forall nodes,
    (forall file, In file (map fst nodes)
                  <-> isCharacter characters file = true) ->
    Layout.attraction k rels nodes
    = Layout.attraction k (filter (connects characters) rels) nodes.
Proof.
  unfold Layout.attraction.
  induction rels as [|r rs IH]; intros nodes H; cbn [fold_left filter];
    [reflexivity|].
  assert (H' : forall file, In file (map fst (Layout.attract k nodes r))
                            <-> isCharacter characters file = true).
  { intros file. now rewrite attract_keys. }
  destruct (connects characters r) eqn:E; cbn [fold_left].
  - now apply IH.
  - assert (Ea : Layout.attract k nodes r = nodes).
    { apply attract_absent. unfold connects in E.
      apply andb_false_iff in E as [E|E]; [left|right];
        apply mapGet_None; rewrite H, E; discriminate. }
    rewrite Ea. now apply IH.
Qed.

Lemma iterate_keys n k rels nodes :
  map fst (Nat.iter n (Layout.iteration k rels) nodes) = map fst nodes.
Proof.
  induction n as [|n IH]; [reflexivity|].
  now rewrite Nat.iter_succ, iteration_keys.
Qed.

Lemma iteration_connected characters k rels nodes :
  (forall file, In file (map fst nodes)
                <-> isCharacter characters file = true) ->
  Layout.iteration k rels nodes
  = Layout.iteration k (filter (connects characters) rels) nodes.
Proof.
  intros H. unfold Layout.iteration. do 2 f_equal.
  apply attraction_connected.
  intros file. unfold Layout.repulsion. rewrite map_map. cbn [fst].
  change (map (fun x => fst x) ?l) with (map fst l). apply H.
Qed.

Lemma simulate_connected characters k rels nodes :
  (forall file, In file (map fst nodes)
                <-> isCharacter characters file = true) ->
  Layout.simulate k rels nodes
  = Layout.simulate k (filter (connects characters) rels) nodes.
Proof.
  intros H. unfold Layout.simulate.
  induction Layout.iterations as [|n IH]; [reflexivity|].
  rewrite !Nat.iter_succ, <- IH.
  apply iteration_connected.
  intros file. rewrite iterate_keys. apply H.
Qed.

(** X6.  A relation with an endpoint that is no character of the graph
    has no effect on the layout: the positions are those of the graph
    without such relations. *)
Theorem dangling_relations_do_not_move_nodes characters relations :
  Layout.calculateLayout characters relations
  = Layout.calculateLayout characters
      (filter (connects characters) relations).
Proof.
  unfold Layout.calculateLayout. f_equal.
  apply simulate_connected. intros file. apply initialNodes_keys.
Qed.

Lemma updateRelationLines_charHeap dragged newPosition w :
  charHeap (InteractionManager.updateRelationLines dragged newPosition w)
  = charHeap w.
Proof.
  unfold InteractionManager.updateRelationLines.
  destruct (nth_error (charHeap w) dragged) as [c|]; [|reflexivity].
  destruct (String.eqb _ ""); [reflexivity|].
  apply (fold_left_invariant (fun w' => charHeap w' = charHeap w)); auto.
Qed.

(** X7.  A drag puts the character where the pointer meets the ground
    plane, less the offset that the mouse-down recorded between the point
    it grabbed and the position of the group. *)
Theorem drag_keeps_the_grab_offset w a g grab pointer :
  nth_error (charHeap w) a = Some g ->
  isDraggable (charData g) = true ->
  let w1 := InteractionManager.onMouseDown (Some a) grab w in
  let w2 := InteractionManager.handleDrag pointer w1 in
  isDragging (im w1) = true
  /\ dragOffset (im w1) = Vector3.sub grab (groupPosition g)
  /\ option_map groupPosition (nth_error (charHeap w2) a)
     = Some (Vector3.sub pointer (Vector3.sub grab (groupPosition g))).
Proof.
  intros Hg Hd. cbn zeta.
  unfold InteractionManager.onMouseDown. rewrite Hg, Hd.
  split; [reflexivity|]. split; [reflexivity|].
  unfold InteractionManager.handleDrag. cbn [im onIm set_im selectedCharacter
    set_dragOffset set_selectedCharacter set_isDragging dragOffset].
  rewrite updateRelationLines_charHeap.
  cbn [charHeap onChar set_charHeap set_im onIm].
  rewrite nth_error_update, Nat.eqb_refl, Hg. reflexivity.
Qed.

Lemma drag_keeps_the_grab_offset_witness :
  exists g,
    nth_error (charHeap stage) 1 = Some g
    /\ option_map groupPosition (nth_error (charHeap dragged) 1)
       = Some (Vector3.sub (Vector3.mk (Fin 8) (Fin 0) (Fin 0))
                 (Vector3.sub (Vector3.mk (Fin 4) (Fin 0) (Fin 0))
                              (groupPosition g))).
Proof.
  assert (Hd : option_map (fun g => isDraggable (charData g))
                          (nth_error (charHeap stage) 1) = Some true)
    by (vm_compute; reflexivity).
  destruct (nth_error (charHeap stage) 1) as [g|] eqn:Hg; [|discriminate].
  injection Hd as Hd. exists g. split; [reflexivity|].
  exact (proj2 (proj2 (drag_keeps_the_grab_offset stage 1 g
                         (Vector3.mk (Fin 4) (Fin 0) (Fin 0))
                         (Vector3.mk (Fin 8) (Fin 0) (Fin 0)) Hg Hd))).
Defined.

Lemma generateCharacter_fresh c g :
  let grp := fst (CharacterMeshGenerator.generateCharacter c g) in
  isDraggable (charData grp) = true
  /\ isSelected (charData grp) = false
  /\ ringsOf grp = [].
Proof.
  unfold CharacterMeshGenerator.generateCharacter, ringsOf.
  destruct (personality c); cbn;
    unfold CharacterMeshGenerator.addHealthAura;
    destruct (health c); cbn; repeat split.
Qed.

(** X8.  Every character can be dragged as soon as it is loaded:
    [generateCharacter] sets [isDraggable], so a mouse-down on a character
    that no double click has selected starts a drag and makes it the
    selected character, without a selection ring. *)
Theorem loaded_character_can_be_dragged_unselected positions w c grab :
  let a := List.length (charHeap w) in
  let w1 := SceneManager.loadCharacter positions w c in
  let w2 := InteractionManager.onMouseDown (Some a) grab w1 in
  selectedCharacter (im w1) = selectedCharacter (im w)
  /\ isDragging (im w2) = true
  /\ selectedCharacter (im w2) = Some a
  /\ option_map ringsOf (nth_error (charHeap w2) a) = Some []
  /\ option_map (fun g => isSelected (charData g)) (nth_error (charHeap w2) a)
     = Some false.
Proof.
  cbn zeta. unfold SceneManager.loadCharacter.
  pose proof (generateCharacter_fresh c (rng w)) as (Hd & Hs & Hr).
  destruct (CharacterMeshGenerator.generateCharacter c (rng w))
    as [charMesh g'].
  cbn [fst] in Hd, Hs, Hr.
  unfold InteractionManager.onMouseDown, InteractionManager.addCharacter.
  cbn [charHeap onIm set_im set_sm_characters SceneManager.addToScene
       set_scene set_charHeap set_rng im].
  rewrite nth_error_app2, Nat.sub_diag by lia.
  cbn [nth_error charData setGroupPosition]. rewrite Hd.
  cbn. rewrite nth_error_app2, Nat.sub_diag by lia. cbn.
  repeat split; try assumption.
  - now apply (f_equal (@Some (list Mesh))).
  - now rewrite Hs.
Qed.

(** X9.  After the double click that takes the selection off a
    character, a mouse-down on it starts no drag: the state is left as
    it is, until another double click selects the character again. *)
Theorem deselected_character_cannot_be_dragged w g grab :
  selectedCharacter (im w) = Some g ->
  let w1 := InteractionManager.onDoubleClick (Some g) w in
  InteractionManager.onMouseDown (Some g) grab w1 = w1.
Proof.
  intros H. cbn zeta. rewrite (onDoubleClick_selected w g H).
  unfold InteractionManager.onMouseDown. cbn [charHeap onChar set_charHeap].
  rewrite nth_error_update, Nat.eqb_refl. cbn [charHeap onIm set_im].
  destruct (nth_error (charHeap w) g); reflexivity.
Qed.

Lemma deselected_character_cannot_be_dragged_witness :
  selectedCharacter (im bClicked) = Some 1
  /\ let w1 := InteractionManager.onDoubleClick (Some 1) bClicked in
     InteractionManager.onMouseDown (Some 1) Vector3.zero w1 = w1.
Proof.
  assert (H : selectedCharacter (im bClicked) = Some 1)
    by (vm_compute; reflexivity).
  split; [exact H|].
  exact (deselected_character_cannot_be_dragged bClicked 1 Vector3.zero H).
Defined.

(** ** Loops over the heap of character groups *)

Section HeapLoops.
Context {A B : Type} (key : A -> nat) (F : A -> CharGroup -> CharGroup).

Let step (w' : World) (e : A) : World := onChar (key e) (F e) w'.

Lemma fold_onChar_frame l w :
  exists h, fold_left step l w = set_charHeap h w.
Proof.
  revert w. induction l as [|e l IH]; intros w; cbn.
  - exists (charHeap w). now destruct w.
  - destruct (IH (step w e)) as [h ->]. exists h. reflexivity.
Qed.

Lemma map_update_preserved (proj : CharGroup -> B) f a (l : list CharGroup) :
  (forall g, proj (f g) = proj g) ->
  map proj (update a f l) = map proj l.
Proof.
  intros H. revert a. induction l as [|x l IH]; intros [|a]; cbn;
    rewrite ?H, ?IH; reflexivity.
Qed.

Lemma fold_onChar_preserved (proj : CharGroup -> B) l w :
  (forall e g, proj (F e g) = proj g) ->
  map proj (charHeap (fold_left step l w)) = map proj (charHeap w).
Proof.
  intros H. revert w. induction l as [|e l IH]; intros w; cbn;
    [reflexivity|].
  rewrite IH. unfold step. cbn. now apply map_update_preserved.
Qed.

End HeapLoops.

Lemma fold_onChar_idempotent {A : Type} (key : A -> nat)
  (F : CharGroup -> CharGroup) (l : list A) :
  (forall g, F (F g) = F g) ->
  forall w a,
    nth_error (charHeap (fold_left (fun w' e => onChar (key e) F w') l w)) a
    = if existsb (fun e => Nat.eqb (key e) a) l
      then option_map F (nth_error (charHeap w) a)
      else nth_error (charHeap w) a.
Proof.
  intros HF. induction l as [|e l IH]; intros w a; cbn [fold_left existsb];
    [reflexivity|].
  rewrite IH. cbn [charHeap onChar set_charHeap]. rewrite nth_error_update.
  destruct (Nat.eqb (key e) a); cbn [orb].
  - destruct (existsb _ l); [|reflexivity].
    destruct (nth_error (charHeap w) a); cbn; [|reflexivity]. now rewrite HF.
  - reflexivity.
Qed.


(** ** Clearing the selection *)

Lemma filter_isRing_removed cs :
  filter InteractionManager.isRing
         (filter (fun o => negb (InteractionManager.isRing o)) cs) = [].
Proof.
  induction cs as [|o cs IH]; cbn; [reflexivity|].
  destruct (InteractionManager.isRing o) eqn:E; cbn; [assumption|].
  now rewrite E.
Qed.

Lemma unringed_idempotent g : unringed (unringed g) = unringed g.
Proof.
  unfold unringed, InteractionManager.removeSelectionRing. cbn.
  unfold setChildren, setCharData. cbn. f_equal.
  induction (children g) as [|o cs IH]; cbn; [reflexivity|].
  destruct (InteractionManager.isRing o) eqn:E; cbn; [assumption|].
  rewrite E. cbn. now rewrite IH.
Qed.

Lemma clearAllSelections_spec w :
  (exists h, InteractionManager.clearAllSelections w = set_charHeap h w)
  /\ (forall a,
         nth_error (charHeap (InteractionManager.clearAllSelections w)) a
         = if registered w a
           then option_map unringed (nth_error (charHeap w) a)
           else nth_error (charHeap w) a)
  /\ map materials (charHeap (InteractionManager.clearAllSelections w))
     = map materials (charHeap w).
Proof.
  unfold InteractionManager.clearAllSelections, registered. split; [|split].
  - apply (fold_onChar_frame fst (fun _ => unringed)).
  - intros a.
    apply (fold_onChar_idempotent fst unringed (im_characters (im w))
             unringed_idempotent).
  - apply (fold_onChar_preserved fst (fun _ => unringed) materials).
    reflexivity.
Qed.

(** X10.  A click on empty space, outside a drag, takes the selection
    and every selection ring of a registered character away and hides the
    info panel.  It leaves [isDraggable] as it is, and it changes no
    material and no relation group: a network highlight stays. *)
Theorem click_on_empty_space_clears_the_selection_only w :
  isDragging (im w) = false ->
  let w' := InteractionManager.onClick None w in
  selectedCharacter (im w') = None
  /\ (infoPanel (im w) = true -> infoPanelVisible (im w') = false)
  /\ (forall a g,
         registered w a = true -> nth_error (charHeap w) a = Some g ->
         exists g',
           nth_error (charHeap w') a = Some g'
           /\ ringChildren g' = []
           /\ isSelected (charData g') = false
           /\ isDraggable (charData g') = isDraggable (charData g))
  /\ map materials (charHeap w') = map materials (charHeap w)
  /\ lineHeap w' = lineHeap w.
Proof.
  intros Hd. cbn zeta. unfold InteractionManager.onClick. rewrite Hd.
  set (w0 := onIm (set_selectedCharacter None)
                  (InteractionManager.hideInfoPanel w)).
  assert (Hheap : charHeap w0 = charHeap w)
    by (unfold w0, InteractionManager.hideInfoPanel;
        destruct (infoPanel (im w)); reflexivity).
  assert (Hline : lineHeap w0 = lineHeap w)
    by (unfold w0, InteractionManager.hideInfoPanel;
        destruct (infoPanel (im w)); reflexivity).
  assert (Hreg : forall a, registered w0 a = registered w a)
    by (intros a; unfold w0, InteractionManager.hideInfoPanel, registered;
        destruct (infoPanel (im w)); reflexivity).
  destruct (clearAllSelections_spec w0) as ((h & E) & Hnth & Hmat).
  split; [|split; [|split; [|split]]].
  - rewrite E. reflexivity.
  - intros Hp. rewrite E. unfold w0, InteractionManager.hideInfoPanel.
    rewrite Hp. reflexivity.
  - intros a g Hr Hg. rewrite Hnth, Hreg, Hr, Hheap, Hg.
    exists (unringed g). split; [reflexivity|].
    split; [apply filter_isRing_removed|]. split; reflexivity.
  - now rewrite Hmat, Hheap.
  - rewrite E. exact Hline.
Qed.

Lemma click_on_empty_space_clears_the_selection_only_witness :
  isDragging (im bClicked) = false
  /\ selectedCharacter (im (InteractionManager.onClick None bClicked)) = None.
Proof.
  assert (H : isDragging (im bClicked) = false) by (vm_compute; reflexivity).
  split; [exact H|].
  exact (proj1 (click_on_empty_space_clears_the_selection_only bClicked H)).
Defined.




(** ** Hovering *)

(** X12.  When the pointer goes from one character straight to another,
    the hover highlight moves on without being taken off the first one:
    [onMouseMove] enters the new character and never leaves the old one.
    The first character keeps the highlight when the pointer then leaves
    the second for empty space. *)
Theorem hover_is_not_cleared_when_the_pointer_changes_character w a b p :
  isDragging (im w) = false ->
  hoveredCharacter (im w) = None ->
  a <> b ->
  a < List.length (charHeap w) ->
  b < List.length (charHeap w) ->
  let w1 := Hover.onMouseMove (Some a) p w in
  let w2 := Hover.onMouseMove (Some b) p w1 in
  let w3 := Hover.onMouseMove None p w2 in
  hoveredCharacter (im w1) = Some a /\ flagged w1 a = Some true
  /\ hoveredCharacter (im w2) = Some b
  /\ flagged w2 a = Some true /\ flagged w2 b = Some true
  /\ hoveredCharacter (im w3) = None
  /\ flagged w3 a = Some true /\ flagged w3 b = Some false.
Proof.
  intros Hd Hh Hab Ha Hb. cbn zeta.
  destruct (nth_error (charHeap w) a) as [ga|] eqn:Ega;
    [|apply nth_error_None in Ega; lia].
  destruct (nth_error (charHeap w) b) as [gb|] eqn:Egb;
    [|apply nth_error_None in Egb; lia].
  assert (Nab : Nat.eqb a b = false) by now apply Nat.eqb_neq.
  assert (Nba : Nat.eqb b a = false) by (apply Nat.eqb_neq; auto).
  set (w1 := Hover.onMouseMove (Some a) p w).
  assert (E1 : w1 = Hover.onCharacterHoverEnter a w).
  { unfold w1, Hover.onMouseMove. now rewrite Hd, Hh. }
  set (w2 := Hover.onMouseMove (Some b) p w1).
  assert (E2 : w2 = Hover.onCharacterHoverEnter b w1).
  { unfold w2, Hover.onMouseMove. rewrite E1. cbn. now rewrite Hd, Nab. }
  set (w3 := Hover.onMouseMove None p w2).
  assert (E3 : w3 = Hover.onCharacterHoverLeave w2).
  { unfold w3, Hover.onMouseMove. rewrite E2, E1. cbn. now rewrite Hd. }
  clearbody w3. subst w3. clearbody w2. subst w2. clearbody w1. subst w1.
  unfold flagged, Hover.onCharacterHoverLeave, Hover.onCharacterHoverEnter,
    Hover.highlightCharacter.
  cbn [charHeap set_charHeap set_im im hoveredCharacter set_hoveredCharacter
       onChar onIm].
  rewrite !nth_error_update, ?Nat.eqb_refl, ?Nab, ?Nba, ?Ega, ?Egb.
  cbn. repeat split.
Qed.

Lemma hover_is_not_cleared_when_the_pointer_changes_character_witness :
  flagged
    (Hover.onMouseMove None Vector3.zero
       (Hover.onMouseMove (Some 1) Vector3.zero
          (Hover.onMouseMove (Some 0) Vector3.zero stage))) 0
  = Some true.
Proof.
  exact (proj1 (proj2 (proj2 (proj2 (proj2 (proj2 (proj2
           (hover_is_not_cleared_when_the_pointer_changes_character
              stage 0 1 Vector3.zero eq_refl eq_refl
              (fun H => Nat.neq_0_succ 0 H)
              (proj1 (Nat.ltb_lt 0 3) eq_refl)
              (proj1 (Nat.ltb_lt 1 3) eq_refl))))))))).
Defined.

(** ** Loading a graph *)

Section SceneLoops.
Context {A : Type} (ref : A -> SceneRef).

Lemma fold_removeFromScene l :
  forall w,
    let w' := fold_left
                (fun w' x => SceneManager.removeFromScene (ref x) w') l w in
    scene w'
    = filter (fun r => negb (existsb (fun x => SceneManager.sceneRefEqb (ref x) r) l))
             (scene w)
    /\ w' = set_scene (scene w') w.
Proof.
  induction l as [|x l IH]; intros w; cbn [fold_left existsb].
  - cbn. split; [|now destruct w].
    induction (scene w) as [|r rs IHr]; cbn; [reflexivity|]. now f_equal.
  - destruct (IH (SceneManager.removeFromScene (ref x) w)) as [E1 E2].
    cbn zeta in *. split.
    + rewrite E1. unfold SceneManager.removeFromScene. cbn.
      induction (scene w) as [|r rs IHr]; cbn; [reflexivity|].
      destruct (SceneManager.sceneRefEqb (ref x) r); cbn; [assumption|].
      destruct (existsb _ l); cbn; [assumption|]. now f_equal.
    + rewrite E2 at 1. reflexivity.
Qed.

End SceneLoops.

Lemma sceneRefEqb_refl r : SceneManager.sceneRefEqb r r = true.
Proof. destruct r; cbn; apply Nat.eqb_refl. Qed.

Lemma clearScene_spec w :
  let w' := SceneManager.clearScene w in
  (sceneOwned w -> scene w' = [])
  /\ charHeap w' = charHeap w /\ lineHeap w' = lineHeap w
  /\ sm_characters w' = [] /\ sm_relations w' = []
  /\ im_characters (im w') = [] /\ im_characterMeshes (im w') = []
  /\ selectedCharacter (im w') = None /\ hoveredCharacter (im w') = None
  /\ isDragging (im w') = isDragging (im w)
  /\ im_relationLines (im w') = im_relationLines (im w)
  /\ rng w' = rng w.
Proof.
  cbn zeta. unfold SceneManager.clearScene.
  destruct (fold_removeFromScene (fun e : string * nat => CharRef (snd e))
              (sm_characters w) w) as [S1 E1].
  cbn zeta in S1, E1.
  set (w1 := fold_left _ (sm_characters w) w) in *.
  destruct (fold_removeFromScene LineRef
              (sm_relations (set_sm_characters [] w1))
              (set_sm_characters [] w1)) as [S2 E2].
  cbn zeta in S2, E2.
  set (w3 := fold_left _ (sm_relations (set_sm_characters [] w1))
                       (set_sm_characters [] w1)) in *.
  assert (Hrel : sm_relations (set_sm_characters [] w1) = sm_relations w)
    by (rewrite E1; reflexivity).
  rewrite Hrel in S2. clearbody w3. clearbody w1.
  split.
  - intros Hown. unfold InteractionManager.clear. cbn. rewrite S2. cbn.
    rewrite S1. clear -Hown. unfold sceneOwned in Hown.
    induction Hown as [|r rs Hr _ IH]; cbn; [reflexivity|].
    destruct (existsb _ (sm_characters w)) eqn:Ec; cbn; [assumption|].
    destruct (existsb _ (sm_relations w)) eqn:El; cbn; [assumption|].
    exfalso. destruct r as [a|a].
    + apply in_map_iff in Hr as ([k a'] & Ea & Hin). cbn in Ea. subst a'.
      apply not_true_iff_false in Ec. apply Ec. apply existsb_exists.
      exists (k, a). split; [assumption|]. cbn. apply Nat.eqb_refl.
    + apply not_true_iff_false in El. apply El. apply existsb_exists.
      exists a. split; [assumption|]. cbn. apply Nat.eqb_refl.
  - unfold InteractionManager.clear. cbn. rewrite E2, E1. cbn.
    repeat split.
Qed.

Lemma loadCharacters_spec positions cs :
  forall w,
    let w' := fold_left (SceneManager.loadCharacter positions) cs w in
    scene w'
    = scene w ++ map CharRef (seq (List.length (charHeap w)) (List.length cs))
    /\ List.length (charHeap w')
       = List.length (charHeap w) + List.length cs
    /\ lineHeap w' = lineHeap w /\ sm_relations w' = sm_relations w
    /\ (Forall (fun e => fst e < List.length (charHeap w))
               (im_characters (im w)) ->
        im_characters (im w')
        = im_characters (im w)
          ++ combine (seq (List.length (charHeap w)) (List.length cs)) cs)
    /\ im_characterMeshes (im w')
       = im_characterMeshes (im w)
         ++ seq (List.length (charHeap w)) (List.length cs)
    /\ selectedCharacter (im w') = selectedCharacter (im w)
    /\ hoveredCharacter (im w') = hoveredCharacter (im w)
    /\ isDragging (im w') = isDragging (im w)
    /\ im_relationLines (im w') = im_relationLines (im w).
Proof.
  induction cs as [|c cs IH]; intros w; cbn [fold_left List.length seq map combine].
  - rewrite !app_nil_r, Nat.add_0_r. repeat split.
  - destruct (IH (SceneManager.loadCharacter positions w c))
      as (E1 & E2 & E3 & E4 & E5 & E6 & E7 & E8 & E9 & E10).
    cbn zeta in *.
    assert (Hstep :
      let w1 := SceneManager.loadCharacter positions w c in
      scene w1 = scene w ++ [CharRef (List.length (charHeap w))]
      /\ List.length (charHeap w1) = S (List.length (charHeap w))
      /\ lineHeap w1 = lineHeap w /\ sm_relations w1 = sm_relations w
      /\ im_characters (im w1)
         = mapSet Nat.eqb (List.length (charHeap w)) c (im_characters (im w))
      /\ im_characterMeshes (im w1)
         = im_characterMeshes (im w) ++ [List.length (charHeap w)]
      /\ selectedCharacter (im w1) = selectedCharacter (im w)
      /\ hoveredCharacter (im w1) = hoveredCharacter (im w)
      /\ isDragging (im w1) = isDragging (im w)
      /\ im_relationLines (im w1) = im_relationLines (im w)).
    { unfold SceneManager.loadCharacter.
      destruct (CharacterMeshGenerator.generateCharacter c (rng w)) as [m g'].
      cbn. rewrite length_app. cbn. rewrite Nat.add_1_r. repeat split. }
    cbn zeta in Hstep.
    destruct Hstep as (S1 & S2 & S3 & S4 & S5 & S6 & S7 & S8 & S9 & S10).
    rewrite E1, E2, E3, E4, E6, E7, E8, E9, E10.
    rewrite S1, S2, S3, S4, S6, S7, S8, S9, S10.
    rewrite <- !app_assoc. cbn [app].
    split; [reflexivity|]. split; [lia|].
    split; [reflexivity|]. split; [reflexivity|].
    split; [|repeat split].
    intros Hfresh.
    assert (Hset : forall m : list (nat * CharacterPersona),
               Forall (fun e => fst e < List.length (charHeap w)) m ->
               mapSet Nat.eqb (List.length (charHeap w)) c m
               = m ++ [(List.length (charHeap w), c)]).
    { induction 1 as [|[k v] m Hk _ IHm]; cbn; [reflexivity|].
      cbn in Hk. destruct (Nat.eqb k (List.length (charHeap w))) eqn:Ek.
      - apply Nat.eqb_eq in Ek. lia.
      - now rewrite IHm. }
    rewrite E5.
    + rewrite S5, S2, Hset by assumption.
      rewrite <- app_assoc. reflexivity.
    + rewrite S5, S2, Hset by assumption.
      apply Forall_app. split.
      * eapply Forall_impl; [|exact Hfresh]. cbn. intros; lia.
      * constructor; [cbn; lia|constructor].
Qed.

Lemma createRelationLinesOf_spec all rels :
  forall w,
    let w' := SceneManager.createRelationLinesOf all rels w in
    exists k,
      scene w' = scene w ++ map LineRef (seq (List.length (lineHeap w)) k)
      /\ sm_relations w' = sm_relations w ++ seq (List.length (lineHeap w)) k
      /\ List.length (lineHeap w') = List.length (lineHeap w) + k
      /\ im w' = im w /\ charHeap w' = charHeap w.
Proof.
  unfold SceneManager.createRelationLinesOf.
  induction rels as [|r rs IH]; intros w; cbn [fold_left].
  - exists 0. cbn. rewrite !app_nil_r, Nat.add_0_r. repeat split.
  - destruct (IH (SceneManager.createRelationLineFor all w r))
      as (k & E1 & E2 & E3 & E4 & E5).
    cbn zeta in *.
    unfold SceneManager.createRelationLineFor in *.
    destruct (SceneManager.getCharacter (from r) w);
      [|exists k; repeat split; assumption].
    destruct (SceneManager.getCharacter (to r) w);
      [|exists k; repeat split; assumption].
    destruct (SceneManager.createRelationLine _ _ r all (rng w)) as [line g'].
    cbn in E1, E2, E3, E4, E5. rewrite length_app in E1, E2, E3.
    cbn in E1, E2, E3. rewrite Nat.add_1_r in E1, E2, E3.
    exists (S k). cbn [seq map].
    rewrite E1, E2, E3, E4, E5, <- !app_assoc. cbn.
    repeat split. lia.
Qed.

Lemma setCharacters_scene w :
  let w' := AnimationManager.setCharacters w in
  scene w' = scene w /\ sm_relations w' = sm_relations w
  /\ lineHeap w' = lineHeap w /\ im w' = im w /\ charHeap w' = charHeap w.
Proof.
  cbn zeta. unfold AnimationManager.setCharacters.
  apply (fold_left_invariant
           (fun w' => scene w' = scene w /\ sm_relations w' = sm_relations w
                      /\ lineHeap w' = lineHeap w /\ im w' = im w
                      /\ charHeap w' = charHeap w)); [|repeat split].
  intros b e (H1 & H2 & H3 & H4 & H5).
  destruct (nth_error (charHeap b) (snd e)); [|auto].
  destruct (random (rng b)) as [r1 g1].
  destruct (random g1) as [r2 g2].
  destruct (random g2) as [r3 g3]. cbn. auto.
Qed.



(** X14.  After [loadAnalysis] the interaction manager knows exactly the
    new groups: one entry per character of the result, in order, each
    with its persona (characters that share a file included); its
    relations are those of the result and no character is selected or
    hovered.  [isDragging] and the registered relation lines are not
    reset. *)
Theorem loadAnalysis_registers_the_characters result w :
  let w' := SceneManager.loadAnalysis result w in
  let fresh := seq (List.length (charHeap w))
                   (List.length (characters result)) in
  im_characters (im w') = combine fresh (characters result)
  /\ im_characterMeshes (im w') = fresh
  /\ im_relations (im w') = relations result
  /\ selectedCharacter (im w') = None
  /\ hoveredCharacter (im w') = None
  /\ isDragging (im w') = isDragging (im w)
  /\ im_relationLines (im w') = im_relationLines (im w).
Proof.
  cbn zeta. unfold SceneManager.loadAnalysis.
  destruct (clearScene_spec w)
    as (_ & Hc & Hl & Hsc & Hsr & C1 & C2 & C3 & C4 & C5 & C6 & _).
  cbn zeta in *.
  set (w1 := SceneManager.clearScene w) in *.
  set (positions := Layout.calculateLayout _ _).
  destruct (loadCharacters_spec positions (characters result) w1)
    as (_ & _ & _ & _ & L5 & L6 & L7 & L8 & L9 & L10).
  cbn zeta in *.
  set (w2 := fold_left _ (characters result) w1) in *.
  destruct (createRelationLinesOf_spec (relations result) (relations result) w2)
    as (k & _ & _ & _ & R4 & _).
  cbn zeta in *.
  fold (SceneManager.createRelationLines (relations result) w2) in *.
  set (w3 := SceneManager.createRelationLines (relations result) w2) in *.
  destruct (setCharacters_scene w3) as (_ & _ & _ & A4 & _).
  cbn zeta in *.
  set (w4 := AnimationManager.setCharacters w3) in *.
  clearbody w4 w3 w2 w1 positions.
  cbn. rewrite A4, R4, L6, L7, L8, L9, L10, C2, C3, C4, C5, C6, Hc.
  rewrite L5 by (rewrite C1; constructor).
  rewrite C1, Hc. cbn. repeat split.
Qed.

(** ** Disposal *)
